(** * bamnostic.bgzf: the BGZF block codec, the block cursor and the
      region query of the BAM reader, embedded from [bamnostic/bgzf.py].

    Python objects are mutated in place and every call may raise.  The
    embedding threads the mutated object explicitly and keeps the state
    reached at the moment an exception is raised, because the reader is
    still usable (and is used) after a caught exception. *)

From Stdlib Require Import ZArith Lia.
From Stdlib.Strings Require Import Byte Ascii.
From stdpp Require Import gmap strings list.

Open Scope Z_scope.

(** ** Python exceptions and the state-and-exception monad *)

Inductive exn : Type :=
| ValueError (msg : string)
| AssertionError (msg : string)
| KeyError (msg : string)
| IOError (msg : string)
| RuntimeError (msg : string)
| NotImplementedError (msg : string)
| Exception (msg : string)
| OSError
| TypeError
| NameError
| AttributeError
| RecursionError
| StopIteration
| struct_error
| zlib_error.

Inductive result (A : Type) : Type :=
| Ok (a : A)
| Raise (e : exn).
Arguments Ok {A} a.
Arguments Raise {A} e.

Definition is_Ok {A} (r : result A) : bool :=
  match r with Ok _ => true | Raise _ => false end.

(** A method of an object of class [S]: it returns or raises, and in both
    cases leaves the object in some state. *)
Definition py (S A : Type) : Type := S → result A * S.

Global Instance py_ret {S} : MRet (py S) := λ A a s, (Ok a, s).
Global Instance py_bind {S} : MBind (py S) := λ A B f m s,
  match m s with
  | (Ok a, s') => f a s'
  | (Raise e, s') => (Raise e, s')
  end.

Definition raise {S A} (e : exn) : py S A := λ s, (Raise e, s).
Definition lift {S A} (r : result A) : py S A := λ s, (r, s).
Definition get {S} : py S S := λ s, (Ok s, s).
Definition modify {S} (f : S → S) : py S unit := λ s, (Ok tt, f s).

(** [try: body except <exception e>: handler] *)
Definition try_except {S A} (body : py S A) (catches : exn → bool)
    (handler : py S A) : py S A := λ s,
  match body s with
  | (Raise e, s') => if catches e then handler s' else (Raise e, s')
  | r => r
  end.

(** ** Byte strings and [struct] *)

Abbreviation bytes := (list byte).

Global Instance byte_eq_dec : EqDecision byte := Byte.byte_eq_dec.

Definition len {A} (l : list A) : Z := Z.of_nat (length l).

Definition byte_to_Z (b : byte) : Z := Z.of_N (Byte.to_N b).
Definition byte_of_Z (z : Z) : byte :=
  default x00 (Byte.of_N (Z.to_N (z mod 256))).

(** Little-endian value of a byte string, and the [n] low bytes of [z]. *)
Fixpoint le_decode (bs : bytes) : Z :=
  match bs with
  | [] => 0
  | b :: bs' => byte_to_Z b + 256 * le_decode bs'
  end.

Fixpoint le_encode (n : nat) (z : Z) : bytes :=
  match n with
  | O => []
  | S n' => byte_of_Z z :: le_encode n' (z / 256)
  end.

(** [struct.pack("<H", v)], [struct.pack("<I", v)], [struct.pack("<i", v)]:
    a value out of the format's range raises [struct.error]. *)
Definition pack_H (v : Z) : result bytes :=
  if (0 <=? v) && (v <? 2 ^ 16) then Ok (le_encode 2 v) else Raise struct_error.
Definition pack_I (v : Z) : result bytes :=
  if (0 <=? v) && (v <? 2 ^ 32) then Ok (le_encode 4 v) else Raise struct_error.
Definition pack_i (v : Z) : result bytes :=
  if (- 2 ^ 31 <=? v) && (v <? 2 ^ 31) then Ok (le_encode 4 v) else Raise struct_error.

(** [struct.unpack('<H', raw)[0]]: the buffer must be exactly 2 bytes. *)
Definition unpack_H (raw : bytes) : result Z :=
  match raw with
  | [_; _] => Ok (le_decode raw)
  | _ => Raise struct_error
  end.

(** [unpack_gzip_integrity = struct.Struct('<2I').unpack] *)
Definition _integrity_size : Z := 8.
Definition unpack_gzip_integrity (raw : bytes) : result (Z * Z) :=
  match raw with
  | [c0; c1; c2; c3; i0; i1; i2; i3] =>
      Ok (le_decode [c0; c1; c2; c3], le_decode [i0; i1; i2; i3])
  | _ => Raise struct_error
  end.

(** [unpack_bgzf_metaheader = struct.Struct('<4BI2BH2BH').unpack] *)
Record MetaHeader : Type := mkMeta {
  ID1 : Z; ID2 : Z; CM : Z; FLG : Z; MTIME : Z; XFL : Z; OS : Z;
  XLEN : Z; SI1 : Z; SI2 : Z; SLEN : Z }.

Definition _metaheader_size : Z := 16.
Definition unpack_bgzf_metaheader (raw : bytes) : result MetaHeader :=
  match raw with
  | [b0; b1; b2; b3; m0; m1; m2; m3; b8; b9; x0; x1; s1; s2; l0; l1] =>
      Ok {| ID1 := byte_to_Z b0; ID2 := byte_to_Z b1; CM := byte_to_Z b2;
            FLG := byte_to_Z b3; MTIME := le_decode [m0; m1; m2; m3];
            XFL := byte_to_Z b8; OS := byte_to_Z b9;
            XLEN := le_decode [x0; x1];
            SI1 := byte_to_Z s1; SI2 := byte_to_Z s2;
            SLEN := le_decode [l0; l1] |}
  | _ => Raise struct_error
  end.

(** ** Constants of the BGZF format *)

Definition _bgzf_header : bytes :=
  [x1f; x8b; x08; x04; x00; x00; x00; x00; x00; xff; x06; x00; x42; x43; x02; x00].

Definition _bgzf_eof : bytes :=
  [x1f; x8b; x08; x04; x00; x00; x00; x00; x00; xff; x06; x00; x42; x43; x02; x00;
   x1b; x00; x03; x00; x00; x00; x00; x00; x00; x00; x00; x00].

(** ** Binary file objects

    [open(path, 'rb')] gives a buffered reader: [read(n)] returns at most [n]
    bytes, [read(-1)] and [read()] everything up to the end of the file, and
    [read(n)] with [n < -1] raises [ValueError].  [seek] to a negative
    absolute position raises [OSError]; seeking past the end is allowed. *)

Record Handle : Type := mkHandle {
  name : string;
  content : bytes;
  position : Z }.

Definition set_position (p : Z) (h : Handle) : Handle :=
  {| name := name h; content := content h; position := p |}.

(** The bytes from the file position on. *)
Definition ahead (h : Handle) : bytes :=
  drop (Z.to_nat (position h)) (content h).

Definition handle_tell : py Handle Z := λ h, (Ok (position h), h).

Definition handle_read (n : Z) : py Handle bytes := λ h,
  if n <? -1 then
    (Raise (ValueError "read length must be non-negative or -1"), h)
  else
    let data := if n =? -1 then ahead h else take (Z.to_nat n) (ahead h) in
    (Ok data, set_position (position h + len data) h).

Definition handle_read_all : py Handle bytes := handle_read (-1).

Inductive whence : Type := SEEK_SET | SEEK_END.

Definition handle_seek (offset : Z) (w : whence) : py Handle Z := λ h,
  let target := match w with
                | SEEK_SET => offset
                | SEEK_END => len (content h) + offset
                end in
  if target <? 0 then (Raise OSError, h)
  else (Ok target, set_position target h).

(** [handle.write(data)] on a file opened with ['wb']. *)
Definition handle_write (data : bytes) : py Handle unit := λ h,
  let p := Z.to_nat (position h) in
  (Ok tt,
   {| name := name h;
      content := take p (content h) ++ data
                   ++ drop (p + length data) (content h);
      position := position h + len data |}).

(** ** The block codec *)

(** [zlib] is an external library.  [zlib_crc32] is [zlib.crc32] (signed on
    Python 2, unsigned on Python 3); [zlib_decompress data] is
    [d.decompress(data) + d.flush()] for a fresh raw-deflate
    [d = zlib.decompressobj(-15)], [None] standing for [zlib.error];
    [zlib_compress level block] is [c.compress(block) + c.flush()] for
    [c = zlib.compressobj(level, zlib.DEFLATED, -15, zlib.DEF_MEM_LEVEL, 0)]. *)
Class Zlib : Type := {
  zlib_crc32 : bytes → Z;
  zlib_decompress : bytes → option bytes;
  zlib_compress : Z → bytes → bytes }.

Section Codec.
Context `{Zlib}.

Definition header_checks (m : MetaHeader) : bool :=
  (ID1 m =? 31) && (ID2 m =? 139) && (CM m =? 8) && (FLG m =? 4)
  && (SI1 m =? 66) && (SI2 m =? 67) && (SLEN m =? 2).

Definition _bgzf_metaheader : py Handle (MetaHeader * bytes) :=
  meta_raw ← handle_read _metaheader_size;
  meta ← lift (unpack_bgzf_metaheader meta_raw);
  if negb (header_checks meta) then raise (ValueError "Malformed BGZF block")
  else mret (meta, meta_raw).

Definition decompress_raw (cdata : bytes) : result bytes :=
  match zlib_decompress cdata with
  | Some data => Ok data
  | None => Raise zlib_error
  end.

Definition _load_bgzf_block : py Handle (Z * bytes) :=
  '(header, _) ← _bgzf_metaheader;
  let XLEN := XLEN header in
  BSIZE_raw ← handle_read 2;
  BSIZE ← lift (unpack_H BSIZE_raw);
  let d_size := BSIZE - XLEN - 19 in
  cdata ← handle_read d_size;
  data ← lift (decompress_raw cdata);
  integrity_raw ← handle_read _integrity_size;
  '(CRC32, ISIZE) ← lift (unpack_gzip_integrity integrity_raw);
  let deflated_crc := zlib_crc32 data in
  let deflated_crc :=
    if deflated_crc <? 0 then deflated_crc mod (Z.shiftl 1 32) else deflated_crc in
  if negb (CRC32 =? deflated_crc) then raise (ValueError "CRCs are not equal")
  else if negb (ISIZE =? len data) then
    raise (ValueError "unequal uncompressed data size")
  else mret (BSIZE + 1, data).

(** *** The writer *)

Record BgzfWriter : Type := mkWriter {
  w_handle : Handle;
  w_buffer : bytes;
  compresslevel : Z }.

Definition on_w_handle {A} (m : py Handle A) : py BgzfWriter A := λ w,
  let '(r, h) := m (w_handle w) in
  (r, {| w_handle := h; w_buffer := w_buffer w; compresslevel := compresslevel w |}).

Definition py_assert {S} (b : bool) (msg : string) : py S unit :=
  if b then mret tt else raise (AssertionError msg).

Definition _write_block (block : bytes) : py BgzfWriter unit :=
  start_offset ← on_w_handle handle_tell;
  py_assert (len block <=? 65536) EmptyString;;
  w ← get;
  let compressed := zlib_compress (compresslevel w) block in
  py_assert (len compressed <? 65536)
    "TODO - Didn't compress enough, try less data in this block";;
  let crc := zlib_crc32 block in
  crc ← lift (if crc <? 0 then pack_i crc else pack_I crc);
  bsize ← lift (pack_H (len compressed + 25));
  crc ← lift (pack_I (Z.land (zlib_crc32 block) 4294967295));
  uncompressed_length ← lift (pack_I (len block));
  let data := _bgzf_header ++ bsize ++ compressed ++ crc ++ uncompressed_length in
  on_w_handle (handle_write data).

End Codec.

(** *** A reference instance of the [zlib] interface

    The CRC-32 of the gzip format, and the part of raw DEFLATE that
    needs no Huffman tables: stored blocks, and the two-byte empty block that
    makes up the compressed part of the end-of-file marker.  The concrete
    examples below run the codec with this instance. *)

Definition crc32_shift (c : Z) : Z :=
  if Z.testbit c 0 then Z.lxor (Z.shiftr c 1) 0xEDB88320 else Z.shiftr c 1.

Definition crc32_byte (c : Z) (b : byte) : Z :=
  Nat.iter 8 crc32_shift (Z.lxor c (byte_to_Z b)).

Definition crc32 (data : bytes) : Z :=
  Z.lxor (fold_left crc32_byte data 0xFFFFFFFF) 0xFFFFFFFF.

Fixpoint stored_blocks (fuel : nat) (block : bytes) : bytes :=
  match fuel with
  | O => []
  | S fuel' =>
      let chunk := take (Z.to_nat 65535) block in
      let rest := drop (Z.to_nat 65535) block in
      let final := match rest with [] => true | _ => false end in
      [if final then x01 else x00]
        ++ le_encode 2 (len chunk) ++ le_encode 2 (65535 - len chunk)
        ++ chunk ++ (if final then [] else stored_blocks fuel' rest)
  end.

Definition stored_compress (level : Z) (block : bytes) : bytes :=
  match block with
  | [] => [x03; x00]
  | _ => stored_blocks (S (length block)) block
  end.

(** A truncated stream gives the output decoded so far and bytes after the
    final block are left unused, neither is an error; a stored block whose
    two length fields disagree is. *)
Fixpoint stored_inflate (fuel : nat) (data : bytes) : option bytes :=
  match fuel with
  | O => Some []
  | S fuel' =>
      match data with
      | [] => Some []
      | hd :: tl =>
          let bfinal := Z.testbit (byte_to_Z hd) 0 in
          let btype := (byte_to_Z hd / 2) mod 4 in
          if btype =? 0 then
            match tl with
            | l0 :: l1 :: n0 :: n1 :: body =>
                let LEN := le_decode [l0; l1] in
                if negb (le_decode [n0; n1] =? 65535 - LEN) then None
                else
                  let chunk := take (Z.to_nat LEN) body in
                  if bfinal then Some chunk
                  else option_map (app chunk)
                         (stored_inflate fuel' (drop (Z.to_nat LEN) body))
            | _ => Some []
            end
          else
            match hd, tl with
            | x03, x00 :: _ => Some []
            | _, _ => None
            end
      end
  end.

Definition stored_decompress (data : bytes) : option bytes :=
  stored_inflate (S (length data)) data.

Definition reference_zlib : Zlib :=
  {| zlib_crc32 := crc32;
     zlib_decompress := stored_decompress;
     zlib_compress := stored_compress |}.

(** ** The interpreter

    The module runs on Python 2 and on Python 3, which differ where the
    code compares [None] with an integer, where a [StopIteration] leaves a
    generator body (PEP 479), and in whether the [warnings] module has an
    attribute [BytesWarning] (in CPython it has not: the class is a builtin). *)
Class PyRuntime : Type := {
  none_orderable : bool;
  pep479 : bool;
  warnings_has_BytesWarning : bool }.

Definition cpython3 : PyRuntime :=
  {| none_orderable := false; pep479 := true; warnings_has_BytesWarning := false |}.

(** Truth value of an optional string or integer argument. *)
Definition truthy_str (s : option string) : bool :=
  match s with Some s => negb (String.eqb s EmptyString) | None => false end.
Definition truthy_int (n : option Z) : bool :=
  match n with Some n => negb (n =? 0) | None => false end.

(** [l[lo:hi]] for a step of one. *)
Definition slice_index (n i : Z) : Z :=
  Z.max 0 (Z.min n (if i <? 0 then i + n else i)).
Definition py_slice {A} (l : list A) (lo hi : Z) : list A :=
  let lo' := slice_index (len l) lo in
  let hi' := slice_index (len l) hi in
  take (Z.to_nat (hi' - lo')) (drop (Z.to_nat lo') l).
Definition py_slice_from {A} (l : list A) (lo : Z) : list A :=
  drop (Z.to_nat (slice_index (len l) lo)) l.

(** ** The block cache

    The reader creates its cache with a capacity and then uses it through
    [in], [cache[key]] and [cache[key] = value] only.  [cache[key]] may
    reorder the cache, and the reader copes with a lookup that gives [None]. *)
Class BlockCache (C : Type) : Type := {
  cache_new : Z → C;
  cache_contains : Z → C → bool;
  cache_getitem : Z → C → option (bytes * Z) * C;
  cache_setitem : Z → bytes * Z → C → C }.

(** Modelled from the spec: [LruDict] of [bamnostic.utils], which is not among
    the sources.  A bounded map from block offsets to decoded blocks, least
    recently used entry first; a hit of [get] and every [put] make the key the
    most recent one, and a [put] of an absent key into a full cache evicts the
    least recently used entry. *)
Record LruDict : Type := mkLru {
  max_cache : nat;
  entries : list (Z * (bytes * Z)) }.

Definition lru_lookup (k : Z) (d : LruDict) : option (bytes * Z) :=
  (λ e, e.2.2) <$> list_find (λ e, e.1 = k) (entries d).

Definition lru_remove (k : Z) (es : list (Z * (bytes * Z))) :=
  filter (λ e, e.1 ≠ k) es.

Definition lru_contains (k : Z) (d : LruDict) : bool :=
  bool_decide (is_Some (lru_lookup k d)).

Definition lru_get (k : Z) (d : LruDict) : option (bytes * Z) * LruDict :=
  match lru_lookup k d with
  | Some v => (Some v, mkLru (max_cache d) (lru_remove k (entries d) ++ [(k, v)]))
  | None => (None, d)
  end.

Definition lru_put (k : Z) (v : bytes * Z) (d : LruDict) : LruDict :=
  let es := lru_remove k (entries d) ++ [(k, v)] in
  mkLru (max_cache d) (drop (length es - max_cache d)%nat es).

Global Instance LruDict_cache : BlockCache LruDict :=
  {| cache_new := λ max_cache, mkLru (Z.to_nat max_cache) [];
     cache_contains := lru_contains;
     cache_getitem := lru_get;
     cache_setitem := lru_put |}.

(** ** The reader *)

(** The header of the file: the reference table [refs] maps a reference id to
    the name and the length of the reference. *)
Record BAMheader : Type := mkBAMheader {
  refs : gmap Z (string * Z);
  n_refs : Z }.

(** The index: the per-reference counts and the query of the binning index,
    both provided by [bamnostic.bai]; [query tid start stop] is the virtual
    offset where the reads of the region may begin, if any. *)
Record Unmapped : Type := mkUnmapped {
  n_mapped : Z;
  n_unmapped : Z }.

Record Bai : Type := mkBai {
  unmapped : gmap Z Unmapped;
  n_no_coor : Z;
  query : Z → option Z → Z → option Z }.

(** What the reader looks at in a read; [nonempty] is its truth value. *)
Record AlignedSegment : Type := mkRead {
  reference_id : Z;
  reference_name : string;
  pos : Z;
  flag : Z;
  nonempty : bool }.

Record BgzfReader (C : Type) : Type := mkReader {
  _handle : Handle;
  _buffers : C;
  _text : bool;
  _buffer : bytes;
  _block_start_offset : option Z;
  _block_raw_length : option Z;
  _within_block_offset : Z;
  _random_access : bool;
  _check_idx : bool;
  _index : option Bai;
  _header : BAMheader;
  ref2tid : gmap string Z }.
Arguments mkReader {C}.
Arguments _handle {C}.
Arguments _buffers {C}.
Arguments _text {C}.
Arguments _buffer {C}.
Arguments _block_start_offset {C}.
Arguments _block_raw_length {C}.
Arguments _within_block_offset {C}.
Arguments _random_access {C}.
Arguments _check_idx {C}.
Arguments _index {C}.
Arguments _header {C}.
Arguments ref2tid {C}.

Section Setters.
Context {C : Type}.
Implicit Type r : BgzfReader C.

Definition set_handle (h : Handle) r : BgzfReader C :=
  mkReader h (_buffers r) (_text r) (_buffer r) (_block_start_offset r)
    (_block_raw_length r) (_within_block_offset r) (_random_access r)
    (_check_idx r) (_index r) (_header r) (ref2tid r).
Definition set_buffers (c : C) r : BgzfReader C :=
  mkReader (_handle r) c (_text r) (_buffer r) (_block_start_offset r)
    (_block_raw_length r) (_within_block_offset r) (_random_access r)
    (_check_idx r) (_index r) (_header r) (ref2tid r).
Definition set_buffer (b : bytes) r : BgzfReader C :=
  mkReader (_handle r) (_buffers r) (_text r) b (_block_start_offset r)
    (_block_raw_length r) (_within_block_offset r) (_random_access r)
    (_check_idx r) (_index r) (_header r) (ref2tid r).
Definition set_block_start_offset (o : option Z) r : BgzfReader C :=
  mkReader (_handle r) (_buffers r) (_text r) (_buffer r) o
    (_block_raw_length r) (_within_block_offset r) (_random_access r)
    (_check_idx r) (_index r) (_header r) (ref2tid r).
Definition set_block_raw_length (o : option Z) r : BgzfReader C :=
  mkReader (_handle r) (_buffers r) (_text r) (_buffer r) (_block_start_offset r)
    o (_within_block_offset r) (_random_access r)
    (_check_idx r) (_index r) (_header r) (ref2tid r).
Definition set_within_block_offset (w : Z) r : BgzfReader C :=
  mkReader (_handle r) (_buffers r) (_text r) (_buffer r) (_block_start_offset r)
    (_block_raw_length r) w (_random_access r)
    (_check_idx r) (_index r) (_header r) (ref2tid r).

(** A call on [self._handle]. *)
Definition on_handle {A} (m : py Handle A) : py (BgzfReader C) A := λ r,
  let '(a, h) := m (_handle r) in (a, set_handle h r).

End Setters.

(** Modelled from the spec: [make_virtual_offset] of [bamnostic.utils], which
    is not among the sources: [make(coffset, uoffset)] rejects
    [uoffset ≥ 2^16] or [coffset ≥ 2^48] with a domain error and otherwise
    gives [(coffset << 16) | uoffset]. *)
Definition make_virtual_offset (block_start_offset within_block_offset : Z)
    : result Z :=
  if (2 ^ 16 <=? within_block_offset) || (2 ^ 48 <=? block_start_offset) then
    Raise (ValueError "virtual offset out of range")
  else Ok (Z.lor (Z.shiftl block_start_offset 16) within_block_offset).

Section Cursor.
Context `{Zlib} `{BlockCache C}.

Definition is_StopIteration (e : exn) : bool :=
  match e with StopIteration => true | _ => false end.

Definition _load_block (start_offset : option Z) : py (BgzfReader C) unit :=
  self ← get;
  start_offset ←
    match start_offset with
    | None =>
        match _block_start_offset self, _block_raw_length self with
        | Some s, Some l => mret (s + l)
        | _, _ => raise TypeError
        end
    | Some s => mret s
    end;
  if bool_decide (Some start_offset = _block_start_offset self) then
    modify (set_within_block_offset 0)
  else if cache_contains start_offset (_buffers self) then
    let '(hit, buffers) := cache_getitem start_offset (_buffers self) in
    modify (set_buffers buffers);;
    match hit with
    | Some (buffer, raw_length) =>
        modify (set_buffer buffer);;
        modify (set_block_raw_length (Some raw_length))
    | None => mret tt
    end;;
    modify (set_within_block_offset 0);;
    modify (set_block_start_offset (Some start_offset))
  else
    on_handle (handle_seek start_offset SEEK_SET);;
    here ← on_handle handle_tell;
    modify (set_block_start_offset (Some here));;
    block_size ←
      try_except
        ('(block_size, buffer) ← on_handle _load_bgzf_block;
         modify (set_buffer buffer);;
         mret block_size)
        is_StopIteration
        (modify (set_buffer []);; mret 0);
    modify (set_within_block_offset 0);;
    modify (set_block_raw_length (Some block_size));;
    self ← get;
    modify (set_buffers
              (cache_setitem here (_buffer self, block_size) (_buffers self))).

Definition tell : py (BgzfReader C) Z :=
  self ← get;
  match _block_start_offset self with
  | Some start => lift (make_virtual_offset start (_within_block_offset self))
  | None => raise TypeError
  end.

Definition seek (virtual_offset : Z) : py (BgzfReader C) Z :=
  let start_offset := Z.shiftr virtual_offset 16 in
  let within_block := Z.lxor virtual_offset (Z.shiftl start_offset 16) in
  self ← get;
  (if bool_decide (Some start_offset ≠ _block_start_offset self) then
     _load_block (Some start_offset);;
     self ← get;
     py_assert (bool_decide (Some start_offset = _block_start_offset self))
       EmptyString
   else mret tt);;
  self ← get;
  (if len (_buffer self) <? within_block then
     if negb ((within_block =? 0) && (len (_buffer self) =? 0)) then
       raise (ValueError "Within offset %i but block size only %i")
     else mret tt
   else mret tt);;
  modify (set_within_block_offset within_block);;
  mret virtual_offset.

(** The first step of [seek]: the target block is made the current one,
    unless it is already. *)
Definition seek_load (vo : Z) : py (BgzfReader C) unit := λ self,
  if bool_decide (Some (Z.shiftr vo 16) ≠ _block_start_offset self)
  then _load_block (Some (Z.shiftr vo 16)) self
  else (Ok tt, self).

(** [read] calls itself once for every block boundary that the request
    crosses; [depth] is the interpreter's bound on nested calls. *)
Fixpoint read (depth : nat) (size : Z) : py (BgzfReader C) bytes :=
  match depth with
  | O => raise RecursionError
  | S depth' =>
      if size <? 0 then
        raise (NotImplementedError "Don't be greedy, that could be massive!")
      else if size =? 0 then mret []
      else
        self ← get;
        let within := _within_block_offset self in
        if within + size <=? len (_buffer self) then
          let data := py_slice (_buffer self) within (within + size) in
          modify (set_within_block_offset (within + size));;
          py_assert (negb (bool_decide (data = []))) EmptyString;;
          mret data
        else
          let data := py_slice_from (_buffer self) within in
          let size := size - len data in
          _load_block None;;
          self ← get;
          if bool_decide (_buffer self = []) then mret data
          else if negb (size =? 0) then
            rest ← read depth' size;
            mret (data ++ rest)
          else mret data
  end.

Definition get_index_stats : py (BgzfReader C) (list (Z * Z * Z)) :=
  self ← get;
  py_assert (_check_idx self) "No index available";;
  index ← match _index self with
          | Some index => mret index
          | None => raise AttributeError
          end;
  mret ((λ ref : Z,
           match unmapped index !! ref with
           | Some u => (n_mapped u, n_unmapped u, n_mapped u + n_unmapped u)
           | None => (0, 0, 0)
           end) <$> seqZ 0 (n_refs (_header self))).

End Cursor.

(** ** The region query *)

(** The arguments of [fetch] and [count].  A contig is given by name; the
    call with a ready-made [Roi] object in its place is not covered. *)
Record FetchArgs : Type := mkFetchArgs {
  arg_contig : option string;
  arg_start : option Z;
  arg_stop : option Z;
  arg_region : option string;
  arg_tid : option Z;
  arg_until_eof : bool;
  arg_multiple_iterators : bool;
  arg_reference : option string;
  arg_end : option Z }.

(** What [region_parser] of [bamnostic.utils] is called with: a string, a
    pair [(contig, start)] or a triple [(contig, start, stop)]. *)
Inductive RegionArg : Type :=
| RegionStr (s : string)
| RegionPair (contig : string) (start : Z)
| RegionTriple (contig : option string) (start stop : option Z).

Record Roi : Type := mkRoi {
  roi_contig : string;
  roi_start : Z;
  roi_stop : option Z }.

(** The parts of the package that the query relies on and that are defined
    outside of [bgzf.py]: the region parser, and the parser of one read
    ([bamnostic.AlignedSegment(reader)]), which consumes the read from the
    reader's cursor. *)
Class QueryParsers (C : Type) : Type := {
  region_parser : RegionArg → result Roi;
  AlignedSegment_init : py (BgzfReader C) AlignedSegment }.

(** A generator is resumed by [next]: it yields, returns or raises. *)
Inductive GenStep (A : Type) : Type :=
| Yield (a : A)
| Return
| Throw (e : exn).
Arguments Yield {A} a.
Arguments Return {A}.
Arguments Throw {A} e.

(** The generator object of [fetch]: not yet started, suspended at the
    [yield] inside the loop with its local variables, or finished. *)
Inductive FetchGen : Type :=
| FetchCreated (args : FetchArgs)
| FetchSuspended (contig : option string) (start : option Z) (stop : Z)
    (until_eof boundary_check : bool)
| FetchFinished.

Inductive ReadCallback : Type :=
| CallbackStr (tag : string)
| CallbackFunction (f : AlignedSegment → bool)
| CallbackOther.

(** [read_callback == tag] and [callable(read_callback)]. *)
Definition callback_eq (read_callback : ReadCallback) (tag : string) : bool :=
  match read_callback with
  | CallbackStr s => String.eqb s tag
  | _ => false
  end.

Definition callable (read_callback : ReadCallback) : bool :=
  match read_callback with
  | CallbackFunction _ => true
  | _ => false
  end.

(** The values of [read_callback] that [count] has a case for. *)
Definition callback_supported (read_callback : ReadCallback) : bool :=
  callback_eq read_callback "nofilter" || callback_eq read_callback "all"
  || callable read_callback.

Section Query.
Context `{PyRuntime} `{Zlib} `{BlockCache C} `{!QueryParsers C}.

Definition is_valid_tid (tid : Z) (self : BgzfReader C) : bool :=
  bool_decide (is_Some (refs (_header self) !! tid)).

Definition get_reference_name (tid : Z) : py (BgzfReader C) string :=
  self ← get;
  match refs (_header self) !! tid with
  | Some ref => mret ref.1
  | None => raise (KeyError "{} is not a valid TID/refID for this file.")
  end.

Definition get_tid (reference : string) : py (BgzfReader C) Z :=
  self ← get;
  let tid := default (-1) (ref2tid self !! reference) in
  if tid =? -1 then raise (KeyError "{} was not found in the file header")
  else mret tid.

Definition __next__ : py (BgzfReader C) AlignedSegment :=
  read ← AlignedSegment_init;
  if negb (nonempty read) then raise StopIteration else mret read.

(** [self.ref2tid[contig]] and [self._header.refs[tid]]. *)
Definition ref2tid_getitem (contig : option string) : py (BgzfReader C) Z :=
  self ← get;
  match contig ≫= (ref2tid self !!.) with
  | Some tid => mret tid
  | None => raise (KeyError EmptyString)
  end.

Definition refs_getitem (tid : option Z) : py (BgzfReader C) (string * Z) :=
  self ← get;
  match tid ≫= (refs (_header self) !!.) with
  | Some ref => mret ref
  | None => raise (KeyError EmptyString)
  end.

Definition is_KeyError (e : exn) : bool :=
  match e with KeyError _ => true | _ => false end.

(** [fetch] from its first line to the [seek]: [None] is the early [return]
    for a region without reads, otherwise the values of [contig], [start] and
    [stop] that the loop uses. *)
Definition fetch_prepare (args : FetchArgs)
    : py (BgzfReader C) (option (option string * option Z * Z)) :=
  let contig := arg_contig args in
  let start := arg_start args in
  let stop := arg_stop args in
  let tid := arg_tid args in
  let reference := arg_reference args in
  let end_ := arg_end args in
  self ← get;
  if negb (_random_access self) then
    raise (ValueError "Random access not available due to lack of index file")
  else if arg_multiple_iterators args then
    raise (NotImplementedError "multiple_iterators not yet implemented")
  else
  '(roi, contig, tid, stop) ←
    (if truthy_str (arg_region args) then
       roi ← lift (region_parser (RegionStr (default EmptyString (arg_region args))));
       mret (roi, contig, tid, stop)
     else
       contig ←
         (if truthy_str contig && truthy_str reference
             && bool_decide (contig ≠ reference) then
            raise (ValueError "either contig or reference must be set, not both")
          else if truthy_str reference && negb (truthy_str contig) then
            mret reference
          else if bool_decide (tid ≠ None) && negb (truthy_str contig) then
            name ← get_reference_name (default 0 tid); mret (Some name)
          else mret contig);
       tid ←
         (if truthy_str contig && bool_decide (tid = None) then
            t ← get_tid (default EmptyString contig); mret (Some t)
          else
            t ← ref2tid_getitem contig;
            if bool_decide (Some t ≠ tid) then
              raise (ValueError "tid and contig name do not match")
            else mret tid);
       stop ←
         (if truthy_int end_ && negb (truthy_int stop) then mret end_
          else if truthy_int stop && truthy_int end_
                  && bool_decide (stop ≠ end_) then
            raise (ValueError "either stop or end must be set, not both")
          else mret stop);
       roi ←
         lift (if truthy_str contig && negb (truthy_int start) then
                 region_parser (RegionStr (default EmptyString contig))
               else if truthy_str contig && negb (truthy_int stop) then
                 region_parser (RegionPair (default EmptyString contig) (default 0 start))
               else region_parser (RegionTriple contig start stop));
       mret (roi, contig, tid, stop));
  stop ←
    try_except
      (ref ← refs_getitem tid;
       if ref.2 <? roi_start roi then
         raise (ValueError "Genomic region out of bounds.")
       else
         let stop := default ref.2 (roi_stop roi) in
         py_assert (roi_start roi <=? stop)
           "Malformed region: start should be <= stop, you entered {}, {}";;
         mret stop)
      is_KeyError
      (raise (KeyError "{} was not found in the file header"));
  self ← get;
  index ← match _index self with
          | Some index => mret index
          | None => raise AttributeError
          end;
  let first_read_block := query index (default 0 tid) start stop in
  match first_read_block with
  | None => mret None
  | Some first_read_block =>
      seek first_read_block;;
      mret (Some (contig, start, stop))
  end.

(** [start < stop < next_read.pos], where [start] is the caller's argument
    and may still be [None]. *)
Definition past_the_region (start : option Z) (stop position : Z) : result bool :=
  match start with
  | Some start => Ok ((start <? stop) && (stop <? position))
  | None => if none_orderable then Ok (stop <? position) else Raise TypeError
  end.

Definition finished {A} (step : GenStep A) (self : BgzfReader C)
    : GenStep A * FetchGen * BgzfReader C :=
  (step, FetchFinished, self).

(** One turn of [while boundary_check: ...], up to the next [yield]. *)
Definition fetch_loop (contig : option string) (start : option Z) (stop : Z)
    (until_eof boundary_check : bool) (self : BgzfReader C)
    : GenStep AlignedSegment * FetchGen * BgzfReader C :=
  if negb boundary_check then finished Return self
  else
    match __next__ self with
    | (Raise e, self) =>
        if is_StopIteration e then
          if pep479 then
            finished (Throw (RuntimeError "generator raised StopIteration")) self
          else finished Return self
        else finished (Throw e) self
    | (Ok next_read, self) =>
        if negb until_eof then
          let boundary_check :=
            if bool_decide (Some (reference_name next_read) ≠ contig) then false
            else boundary_check in
          match past_the_region start stop (pos next_read) with
          | Raise e => finished (Throw e) self
          | Ok past =>
              let boundary_check := if past then false else boundary_check in
              if nonempty next_read then
                (Yield next_read,
                 FetchSuspended contig start stop until_eof boundary_check, self)
              else finished Return self
          end
        else
          (Yield next_read,
           FetchSuspended contig start stop until_eof boundary_check, self)
    end.

(** [next(g)] for the generator object [g] that [fetch] returned. *)
Definition fetch_next (g : FetchGen) (self : BgzfReader C)
    : GenStep AlignedSegment * FetchGen * BgzfReader C :=
  match g with
  | FetchCreated args =>
      match fetch_prepare args self with
      | (Raise e, self) => finished (Throw e) self
      | (Ok None, self) => finished Return self
      | (Ok (Some (contig, start, stop)), self) =>
          fetch_loop contig start stop (arg_until_eof args) true self
      end
  | FetchSuspended contig start stop until_eof boundary_check =>
      fetch_loop contig start stop until_eof boundary_check self
  | FetchFinished => finished Return self
  end.

(** Calling [fetch] runs none of its body. *)
Definition fetch (args : FetchArgs) : FetchGen := FetchCreated args.

(** The records that the generator yields within [fuel] resumptions, and how
    it ended, if it did. *)
Fixpoint fetch_run (fuel : nat) (g : FetchGen) (self : BgzfReader C)
    : list AlignedSegment * option (result unit) :=
  match fuel with
  | O => ([], None)
  | S fuel' =>
      match fetch_next g self with
      | (Yield read, g, self) =>
          let '(reads, ending) := fetch_run fuel' g self in (read :: reads, ending)
      | (Return, _, _) => ([], Some (Ok tt))
      | (Throw e, _, _) => ([], Some (Raise e))
      end
  end.

(** The loop [for read in roi_reads: ...] of [count]; [None] when [fuel]
    resumptions of the generator did not exhaust it. *)
Fixpoint count_loop (fuel : nat) (read_callback : ReadCallback) (count : Z)
    (roi_reads : FetchGen) (self : BgzfReader C)
    : option (result Z * BgzfReader C) :=
  match fuel with
  | O => None
  | S fuel' =>
      match fetch_next roi_reads self with
      | (Yield read, roi_reads, self) =>
          if callback_eq read_callback "nofilter" then
            count_loop fuel' read_callback (count + 1) roi_reads self
          else if callback_eq read_callback "all" then
            count_loop fuel' read_callback
              (if Z.land (flag read) 0x704 =? 0 then count + 1 else count)
              roi_reads self
          else
            match read_callback with
            | CallbackFunction f =>
                count_loop fuel' read_callback
                  (if f read then count + 1 else count) roi_reads self
            | _ =>
                Some (Raise (RuntimeError
                  "read_callback should be 'all', 'nofilter', or a custom function that returns a boolean"),
                      self)
            end
      | (Return, _, self) => Some (Ok count, self)
      | (Throw e, _, self) => Some (Raise e, self)
      end
  end.

(** [count] hands its arguments, without [read_callback], on to [fetch]. *)
Definition count (fuel : nat) (contig : option string) (start stop : option Z)
    (region : option string) (until_eof : bool) (tid : option Z)
    (read_callback : ReadCallback) (reference : option string)
    (end_ : option Z) (self : BgzfReader C)
    : option (result Z * BgzfReader C) :=
  let roi_reads :=
    fetch (mkFetchArgs contig start stop region tid until_eof false reference end_) in
  count_loop fuel read_callback 0 roi_reads self.

End Query.

(** ** Opening a file *)

Inductive FileArg : Type :=
| Path (path : string)
| FileObject (handle : Handle).

Global Instance Handle_eq_dec : EqDecision Handle.
Proof. solve_decision. Defined.
Global Instance FileArg_eq_dec : EqDecision FileArg.
Proof. solve_decision. Defined.

Definition truthy_file (f : option FileArg) : bool :=
  match f with
  | Some (Path p) => negb (String.eqb p EmptyString)
  | Some (FileObject _) => true
  | None => false
  end.

Record InitArgs : Type := mkInitArgs {
  filepath_or_object : option FileArg;
  mode : string;
  max_cache_arg : Z;
  index_filename : option string;
  filename : option FileArg;
  check_header : bool;
  check_sq : bool;
  reference_filename : option string;
  filepath_index : option string;
  require_index : bool;
  duplicate_filehandle : option bool;
  ignore_truncation : bool }.

(** [BgzfReader(path)]: every optional argument at its default. *)
Definition default_args (filepath_or_object : option FileArg) : InitArgs :=
  mkInitArgs filepath_or_object "rb" 128 None None false true None None false
    None false.

Definition with_ignore_truncation (b : bool) (a : InitArgs) : InitArgs :=
  mkInitArgs (filepath_or_object a) (mode a) (max_cache_arg a)
    (index_filename a) (filename a) (check_header a) (check_sq a)
    (reference_filename a) (filepath_index a) (require_index a)
    (duplicate_filehandle a) b.

(** ['b' in mode.lower()] *)
Definition mode_is_binary (mode : string) : bool :=
  existsb (λ c, Ascii.eqb c "b"%char || Ascii.eqb c "B"%char)
    (String.list_ascii_of_string mode).

(** What [__init__] needs from outside the module: the files on disk, and
    what follows the truncation check (the index, the first block and the
    header of the file), which is done with [bamnostic.bai] and
    [bamnostic.utils] and may issue warnings. *)
Class OpenEnv (C : Type) : Type := {
  filesystem : string → option bytes;
  init_rest : InitArgs → C → Handle → py (list string) (BgzfReader C) }.

Section Open.
Context `{PyRuntime} `{BlockCache C} `{!OpenEnv C}.

Definition _check_truncation : py Handle bool :=
  temp_pos ← handle_tell;
  handle_seek (-28) SEEK_END;;
  eof ← handle_read_all;
  handle_seek temp_pos SEEK_SET;;
  if bool_decide (eof = _bgzf_eof) then mret false
  else
    (* [warnings.BytesWarning(...)]: the attribute is looked up and the
       warning object is built and dropped; nothing is issued. *)
    (if warnings_has_BytesWarning then mret tt else raise AttributeError);;
    mret true.

(** [__init__], with the list of the warnings issued so far as the state.
    The state of the file object is that of [handle]. *)
Definition __init__ (args : InitArgs) : py (list string) (BgzfReader C) :=
  if max_cache_arg args <? 1 then
    raise (ValueError "Use max_cache with a minimum of 1")
  else
  let _buffers : C := cache_new (max_cache_arg args) in
  filepath_or_object ←
    (if truthy_file (filepath_or_object args) && truthy_file (filename args)
        && bool_decide (filename args ≠ filepath_or_object args) then
       raise (ValueError
         "filepath_or_object and filename parameters do not match. Try using only one")
     else if truthy_file (filepath_or_object args) then
       mret (filepath_or_object args)
     else if truthy_file (filename args) then mret (filename args)
     else raise (ValueError "either filepath_or_object or filename must be set"));
  handle ←
    match filepath_or_object with
    | Some (Path path) =>
        match filesystem path with
        | Some data => mret (mkHandle path data 0)
        | None => raise OSError
        end
    | _ => raise NameError
    end;
  let _text := negb (mode_is_binary (mode args)) in
  if negb (mode_is_binary (mode args)) then
    raise (IOError "BAM file requires binary mode ('rb')")
  else
  handle ←
    (if negb (ignore_truncation args) then
       match _check_truncation handle with
       | (Ok truncated, handle) =>
           if truncated then
             raise (Exception
               "BAM file may be truncated. Turn off ignore_truncation if you wish to continue")
           else mret handle
       | (Raise e, _) => raise e
       end
     else mret handle);
  init_rest args _buffers handle.

End Open.

(** ** A concrete reader for the examples

    A two-block file: a block of three reads and the end-of-file marker.  In
    place of the parser of [bamnostic.core], a read is three bytes here:
    reference id, position and flag.  The reads are at positions 5, 200 and
    210 of reference 0. *)

Section Examples.
#[local] Existing Instance reference_zlib.
#[local] Existing Instance cpython3.

Definition three_byte_read : py (BgzfReader LruDict) AlignedSegment :=
  raw ← read 1000 3;
  self ← get;
  match raw with
  | [tid; position; flag] =>
      mret (mkRead (byte_to_Z tid)
              (default EmptyString (fst <$> refs (_header self) !! byte_to_Z tid))
              (byte_to_Z position) (byte_to_Z flag) true)
  | _ => mret (mkRead (-1) EmptyString 0 0 false)
  end.

Definition plain_region_parser (region : RegionArg) : result Roi :=
  match region with
  | RegionStr contig => Ok (mkRoi contig 0 None)
  | RegionPair contig start => Ok (mkRoi contig start None)
  | RegionTriple (Some contig) (Some start) stop => Ok (mkRoi contig start stop)
  | _ => Raise (ValueError "Malformed region")
  end.

Definition example_parsers : QueryParsers LruDict :=
  {| region_parser := plain_region_parser;
     AlignedSegment_init := three_byte_read |}.

Definition example_reads : bytes :=
  [x00; x05; x00; x00; xc8; x00; x00; xd2; x00].

Definition example_bam : bytes :=
  content (w_handle
    (_write_block example_reads (mkWriter (mkHandle "example.bam" [] 0) [] 6)).2)
  ++ _bgzf_eof.

Definition example_header : BAMheader :=
  mkBAMheader {[ 0 := ("chr1", 1575); 1 := ("chr2", 1584) ]} 2.

(** The index has counts for [chr1] only, and reads for [chr1] only, from
    the start of the first block on. *)
Definition example_index : Bai :=
  mkBai {[ 0 := mkUnmapped 1446 18 ]} 0
    (λ tid _ _, if tid =? 0 then Some 0 else None).

Definition unloaded_reader (data : bytes) : BgzfReader LruDict :=
  mkReader (mkHandle "example.bam" data 0) (cache_new 128) false [] None None 0
    true true (Some example_index) example_header
    {[ "chr1" := 0; "chr2" := 1 ]}.

(** The reader with the first block loaded, and with the last one loaded. *)
Definition example_reader : BgzfReader LruDict :=
  (_load_block (Some 0) (unloaded_reader example_bam)).2.

Definition example_reader_at_end : BgzfReader LruDict :=
  (_load_block None example_reader).2.

(** A reader whose current block, at offset 0, holds 38 bytes. *)
Definition reader_38 : BgzfReader LruDict :=
  mkReader (mkHandle "example.bam" [] 0) (cache_new 128) false
    (replicate 38 x00) (Some 0) (Some 64) 0
    true true (Some example_index) example_header
    {[ "chr1" := 0; "chr2" := 1 ]}.

(** The files on disk: the example, and a file that ends without the
    marker.  What follows the truncation check is taken to succeed. *)
Definition example_env : OpenEnv LruDict :=
  {| filesystem := λ path,
       if String.eqb path "example.bam" then Some example_bam
       else if String.eqb path "cut.bam" then Some (take 40 example_bam)
       else None;
     init_rest := λ _ buffers handle log,
       (Ok (set_buffers buffers (set_handle handle (unloaded_reader []))), log) |}.

(** An interpreter whose [warnings] module has [BytesWarning]. *)
Definition with_BytesWarning : PyRuntime :=
  {| none_orderable := false; pep479 := true; warnings_has_BytesWarning := true |}.

End Examples.

(** ** Concrete files for the examples *)

(** The block that [_write_block] makes of the two bytes ["hi"] when the
    deflater stores them. *)
Definition hi_block : bytes :=
  _bgzf_header ++ [x20; x00] ++ [x01; x02; x00; xfd; xff; x68; x69]
    ++ [xac; x2a; x93; xd8] ++ [x02; x00; x00; x00].

(** The end-of-file marker with [BSIZE] lowered from 27 to 24, so that
    [BSIZE - XLEN - 19] is [-1]. *)
Definition short_bsize_block : bytes :=
  _bgzf_header ++ [x18; x00]
    ++ [x03; x00; x00; x00; x00; x00; x00; x00; x00; x00].

(** ** The rest of the writer: [write], [flush] and [close] *)

Module Writer.
Section Writer.
Context `{Zlib}.

Definition set_w_buffer (b : bytes) (w : BgzfWriter) : BgzfWriter :=
  mkWriter (w_handle w) b (compresslevel w).

(** [while len(self._buffer) >= 65536:
       self._write_block(self._buffer[:chunk])
       self._buffer = self._buffer[chunk:]]
    with [chunk] 65536 in [write] and 65535 in [flush].  Every turn shortens
    the buffer, so a [fuel] of the length of the buffer is never used up. *)
Fixpoint write_blocks (fuel : nat) (chunk : Z) : py BgzfWriter unit :=
  match fuel with
  | O => mret tt
  | S fuel' =>
      self ← get;
      if 65536 <=? len (w_buffer self) then
        _write_block (py_slice (w_buffer self) 0 chunk);;
        modify (set_w_buffer (py_slice_from (w_buffer self) chunk));;
        write_blocks fuel' chunk
      else mret tt
  end.

(** [write(data)] for [data] of type [bytes], which [_as_bytes] leaves as it
    is. *)
Definition write (data : bytes) : py BgzfWriter unit :=
  let data_len := len data in
  self ← get;
  if len (w_buffer self) + data_len <? 65536 then
    modify (set_w_buffer (w_buffer self ++ data))
  else
    modify (set_w_buffer (w_buffer self ++ data));;
    self ← get;
    write_blocks (length (w_buffer self)) 65536.

Definition flush : py BgzfWriter unit :=
  self ← get;
  write_blocks (length (w_buffer self)) 65535;;
  self ← get;
  _write_block (w_buffer self);;
  modify (set_w_buffer []).

Definition close : py BgzfWriter unit :=
  self ← get;
  (if negb (bool_decide (w_buffer self = [])) then flush else mret tt);;
  on_w_handle (handle_write _bgzf_eof).

End Writer.
End Writer.

(** ** [get_block]

    The block is read through a second file object, opened by the name of
    the first; [filesystem] gives the bytes of the file of a name. *)
Definition get_block (filesystem : string → option bytes) (handle : Handle)
    (offset : Z) : result bytes :=
  match filesystem (name handle) with
  | None => Raise OSError
  | Some data =>
      let header_handle := mkHandle (name handle) data 0 in
      fst ((handle_seek offset SEEK_SET;;
            '(_, meta_raw) ← _bgzf_metaheader;
            BSIZE_raw ← handle_read 2;
            BSIZE ← lift (unpack_H BSIZE_raw);
            block_tail ← handle_read (BSIZE - 5);
            mret (meta_raw ++ BSIZE_raw ++ block_tail)) header_handle)
  end.

(** ** Notions for the statements *)

(** The bytes that [_write_block] writes for [block] when it writes. *)
Definition bgzf_block `{Zlib} (level : Z) (block : bytes) : bytes :=
  let compressed := zlib_compress level block in
  _bgzf_header ++ le_encode 2 (len compressed + 25) ++ compressed
    ++ le_encode 4 (Z.land (zlib_crc32 block) 4294967295)
    ++ le_encode 4 (len block).

(** The [i]-th piece of [size] bytes of [data]. *)
Definition piece (size : nat) (data : bytes) (i : nat) : bytes :=
  take size (drop (i * size) data).

(** A writer whose file object appends: the position is the end of the
    file, as it is from the opening with ['wb'] on. *)
Definition appending (w : BgzfWriter) : Prop :=
  position (w_handle w) = len (content (w_handle w)).

(** The cursor points into the current payload or at its end. *)
Definition cursor_ok {C} (self : BgzfReader C) : Prop :=
  0 ≤ _within_block_offset self ≤ len (_buffer self).

(** Whether [count] counts a read, for a [read_callback] it has a case for. *)
Definition callback_counts (read_callback : ReadCallback) (read : AlignedSegment)
    : bool :=
  if callback_eq read_callback "nofilter" then true
  else if callback_eq read_callback "all" then Z.land (flag read) 0x704 =? 0
  else match read_callback with
       | CallbackFunction f => f read
       | _ => false
       end.

(** [self.ref2tid = {v[0]: k for k, v in self._header.refs.items()}] at the
    end of [__init__].  [BAMheader] fills [refs] with the ids from [0] to
    [n_refs - 1] in this order, so of two references of the same name the
    later one is kept. *)
Definition make_ref2tid (header : BAMheader) : gmap string Z :=
  foldl (λ ref2tid k,
           match refs header !! k with
           | Some v => <[v.1 := k]> ref2tid
           | None => ref2tid
           end)
        ∅ (seqZ 0 (n_refs header)).

(** ** A file of two data blocks

    The three reads of the example in two blocks, of one read and of two,
    and the end-of-file marker. *)
Definition two_block_bam : bytes :=
  let w := mkWriter (mkHandle "two.bam" [] 0) [] 6 in
  let w := (@_write_block reference_zlib [x00; x05; x00] w).2 in
  let w := (@_write_block reference_zlib [x00; xc8; x00; x00; xd2; x00] w).2 in
  content (w_handle w) ++ _bgzf_eof.

Definition two_block_reader : BgzfReader LruDict :=
  (@_load_block reference_zlib _ _ (Some 0) (unloaded_reader two_block_bam)).2.
(** * Properties *)

(** ** Bytes and little-endian integers *)

Lemma byte_to_Z_range b : 0 ≤ byte_to_Z b < 256.
Proof.
  unfold byte_to_Z. pose proof (Byte.to_N_bounded b). lia.
Qed.

Lemma byte_to_of_Z z : byte_to_Z (byte_of_Z z) = z mod 256.
Proof.
  unfold byte_to_Z, byte_of_Z.
  assert (Hz : 0 ≤ z mod 256 < 256) by (apply Z.mod_pos_bound; lia).
  destruct (Byte.of_N (Z.to_N (z mod 256))) as [b|] eqn:Hb.
  - apply Byte.to_of_N in Hb. simpl. rewrite Hb. lia.
  - apply Byte.of_N_None_iff in Hb. lia.
Qed.

Lemma length_le_encode n z : length (le_encode n z) = n.
Proof. revert z. induction n; intros; simpl; auto. Qed.

Lemma le_decode_encode n z :
  le_decode (le_encode n z) = z mod 256 ^ Z.of_nat n.
Proof.
  revert z. induction n as [|n IH]; intros z.
  - simpl. rewrite Z.mod_1_r. reflexivity.
  - cbn [le_encode le_decode]. rewrite byte_to_of_Z, IH.
    rewrite Nat2Z.inj_succ, Z.pow_succ_r by lia.
    rewrite Z.rem_mul_r by lia. lia.
Qed.

Lemma le_decode_encode_small n z :
  0 ≤ z < 256 ^ Z.of_nat n → le_decode (le_encode n z) = z.
Proof. intros. rewrite le_decode_encode. apply Z.mod_small. lia. Qed.

Lemma le_decode_range bs : 0 ≤ le_decode bs < 256 ^ len bs.
Proof.
  unfold len. induction bs as [|b bs IH].
  - simpl. lia.
  - cbn [le_decode length]. rewrite Nat2Z.inj_succ, Z.pow_succ_r by lia.
    pose proof (byte_to_Z_range b). lia.
Qed.

Lemma unpack_H_encode v : 0 ≤ v < 2 ^ 16 → unpack_H (le_encode 2 v) = Ok v.
Proof.
  intros Hv. change (unpack_H (le_encode 2 v)) with (Ok (A:=Z) (le_decode (le_encode 2 v))).
  rewrite le_decode_encode_small; [done | simpl; lia].
Qed.

Lemma unpack_gzip_integrity_encode c i :
  0 ≤ c < 2 ^ 32 → 0 ≤ i < 2 ^ 32 →
  unpack_gzip_integrity (le_encode 4 c ++ le_encode 4 i) = Ok (c, i).
Proof.
  intros Hc Hi.
  change (unpack_gzip_integrity (le_encode 4 c ++ le_encode 4 i))
    with (Ok (A:=Z*Z) (le_decode (le_encode 4 c), le_decode (le_encode 4 i))).
  rewrite !le_decode_encode_small; [done | simpl; lia ..].
Qed.

Lemma pack_H_Ok v b : pack_H v = Ok b → 0 ≤ v < 2 ^ 16 ∧ b = le_encode 2 v.
Proof.
  unfold pack_H. destruct (Z.leb_spec 0 v), (Z.ltb_spec v (2 ^ 16));
    simpl; intros [=]; subst; auto.
Qed.

Lemma pack_I_Ok v b : pack_I v = Ok b → 0 ≤ v < 2 ^ 32 ∧ b = le_encode 4 v.
Proof.
  unfold pack_I. destruct (Z.leb_spec 0 v), (Z.ltb_spec v (2 ^ 32));
    simpl; intros [=]; subst; auto.
Qed.

Lemma pack_i_Ok v b : pack_i v = Ok b → - 2 ^ 31 ≤ v < 2 ^ 31 ∧ b = le_encode 4 v.
Proof.
  unfold pack_i. destruct (Z.leb_spec (- 2 ^ 31) v), (Z.ltb_spec v (2 ^ 31));
    simpl; intros [=]; subst; auto.
Qed.

Lemma unpack_metaheader_length raw m :
  unpack_bgzf_metaheader raw = Ok m → length raw = 16%nat.
Proof.
  unfold unpack_bgzf_metaheader.
  do 17 (destruct raw as [|? raw]; try discriminate). done.
Qed.

(** ** Reading from a file object *)

Lemma ahead_set_position h p :
  ahead (set_position p h) = drop (Z.to_nat p) (content h).
Proof. reflexivity. Qed.

Lemma handle_read_ahead h data rest :
  0 ≤ position h → ahead h = data ++ rest →
  handle_read (len data) h = (Ok data, set_position (position h + len data) h)
  ∧ ahead (set_position (position h + len data) h) = rest.
Proof.
  intros Hp Hahead. unfold handle_read, len.
  destruct (Z.ltb_spec (Z.of_nat (length data)) (-1)); [lia|].
  destruct (Z.eqb_spec (Z.of_nat (length data)) (-1)); [lia|].
  rewrite Hahead, Nat2Z.id, take_app_length. split; [done|].
  rewrite ahead_set_position.
  replace (Z.to_nat (position h + Z.of_nat (length data)))
    with (Z.to_nat (position h) + length data)%nat by lia.
  rewrite <- drop_drop. fold (ahead h). rewrite Hahead.
  apply drop_app_length.
Qed.

(** ** The block codec *)

Section CodecFacts.
Context `{Zlib}.

(** Sixteen bytes that unpack to a header passing the checks. *)
Lemma bgzf_metaheader_ok h meta_raw meta rest :
  0 ≤ position h → ahead h = meta_raw ++ rest →
  unpack_bgzf_metaheader meta_raw = Ok meta → header_checks meta = true →
  _bgzf_metaheader h
    = (Ok (meta, meta_raw), set_position (position h + 16) h)
  ∧ ahead (set_position (position h + 16) h) = rest.
Proof.
  intros Hp Hahead Hmeta Hchk.
  pose proof (unpack_metaheader_length _ _ Hmeta) as Hlen.
  destruct (handle_read_ahead h meta_raw rest Hp Hahead) as [Hread Hrest].
  unfold len in Hread, Hrest. rewrite Hlen in Hread, Hrest.
  change (Z.of_nat 16) with 16 in *.
  unfold _bgzf_metaheader, mbind, py_bind, _metaheader_size.
  rewrite Hread. unfold lift. rewrite Hmeta, Hchk. simpl. done.
Qed.

(** A block laid out as the decoder reads it: 16 header bytes, [BSIZE], the
    deflated data, the stored CRC and the stored length. *)
Lemma load_bgzf_block_layout h meta_raw meta BSIZE cdata data CRC32 ISIZE rest :
  0 ≤ position h →
  ahead h = meta_raw ++ le_encode 2 BSIZE ++ cdata
              ++ (le_encode 4 CRC32 ++ le_encode 4 ISIZE) ++ rest →
  unpack_bgzf_metaheader meta_raw = Ok meta → header_checks meta = true →
  0 ≤ BSIZE < 2 ^ 16 → len cdata = BSIZE - XLEN meta - 19 →
  zlib_decompress cdata = Some data →
  0 ≤ CRC32 < 2 ^ 32 → 0 ≤ ISIZE < 2 ^ 32 →
  fst (_load_bgzf_block h) =
    let crc := zlib_crc32 data in
    let crc := if crc <? 0 then crc mod Z.shiftl 1 32 else crc in
    if negb (CRC32 =? crc) then Raise (ValueError "CRCs are not equal")
    else if negb (ISIZE =? len data) then
      Raise (ValueError "unequal uncompressed data size")
    else Ok (BSIZE + 1, data).
Proof.
  intros Hp Hahead Hmeta Hchk HB Hd Hz HC HI.
  destruct (bgzf_metaheader_ok h meta_raw meta _ Hp Hahead Hmeta Hchk)
    as [E1 A1].
  set (h1 := set_position (position h + 16) h) in *.
  assert (Hp1 : 0 ≤ position h1) by (simpl; lia).
  destruct (handle_read_ahead h1 (le_encode 2 BSIZE) _ Hp1 A1) as [E2 A2].
  unfold len in E2, A2. rewrite length_le_encode in E2, A2.
  change (Z.of_nat 2) with 2 in *.
  set (h2 := set_position (position h1 + 2) h1) in *.
  assert (Hp2 : 0 ≤ position h2) by (simpl; lia).
  destruct (handle_read_ahead h2 cdata _ Hp2 A2) as [E3 A3].
  rewrite Hd in E3, A3.
  set (h3 := set_position (position h2 + _) h2) in *.
  assert (Hp3 : 0 ≤ position h3) by (unfold len in Hd; simpl; lia).
  destruct (handle_read_ahead h3 (le_encode 4 CRC32 ++ le_encode 4 ISIZE) _ Hp3 A3)
    as [E4 _].
  unfold len in E4. rewrite length_app, !length_le_encode in E4.
  change (Z.of_nat (4 + 4)) with 8 in E4.
  unfold _load_bgzf_block, mbind, py_bind, _integrity_size.
  rewrite E1, E2. unfold lift at 1. rewrite unpack_H_encode by done.
  rewrite E3. unfold lift at 1, decompress_raw. rewrite Hz.
  rewrite E4. unfold lift at 1. rewrite unpack_gzip_integrity_encode by done.
  cbv zeta.
  destruct (negb (CRC32 =? _)); [done|].
  destruct (negb (ISIZE =? _)); done.
Qed.

Lemma handle_read_rest h :
  0 ≤ position h →
  handle_read (-1) h = (Ok (ahead h), set_position (position h + len (ahead h)) h)
  ∧ ahead (set_position (position h + len (ahead h)) h) = [].
Proof.
  intros Hp. split; [reflexivity|].
  rewrite ahead_set_position. unfold len.
  replace (Z.to_nat (position h + Z.of_nat (length (ahead h))))
    with (Z.to_nat (position h) + length (ahead h))%nat by lia.
  rewrite <- drop_drop. fold (ahead h). apply drop_all.
Qed.

Lemma handle_read_at_end h n :
  0 ≤ n → ahead h = [] → fst (handle_read n h) = Ok [].
Proof.
  intros Hn Hahead. unfold handle_read.
  destruct (Z.ltb_spec n (-1)); [lia|].
  destruct (Z.eqb_spec n (-1)); [lia|].
  rewrite Hahead, take_nil. reflexivity.
Qed.

(** A header whose fields pass the checks, followed by a [BSIZE] that makes
    the length of the deflated data negative. *)
Lemma load_bgzf_block_negative_d_size h meta_raw meta BSIZE rest :
  0 ≤ position h →
  ahead h = meta_raw ++ le_encode 2 BSIZE ++ rest →
  unpack_bgzf_metaheader meta_raw = Ok meta → header_checks meta = true →
  0 ≤ BSIZE < 2 ^ 16 →
  BSIZE - XLEN meta - 19 < 0 →
  fst (_load_bgzf_block h) =
    if BSIZE - XLEN meta - 19 <? -1 then
      Raise (ValueError "read length must be non-negative or -1")
    else match zlib_decompress rest with
         | None => Raise zlib_error
         | Some _ => Raise struct_error
         end.
Proof.
  intros Hp Hahead Hmeta Hchk HB Hd.
  destruct (bgzf_metaheader_ok h meta_raw meta _ Hp Hahead Hmeta Hchk)
    as [E1 A1].
  set (h1 := set_position (position h + 16) h) in *.
  assert (Hp1 : 0 ≤ position h1) by (simpl; lia).
  destruct (handle_read_ahead h1 (le_encode 2 BSIZE) _ Hp1 A1) as [E2 A2].
  unfold len in E2, A2. rewrite length_le_encode in E2, A2.
  change (Z.of_nat 2) with 2 in *.
  set (h2 := set_position (position h1 + 2) h1) in *.
  assert (Hp2 : 0 ≤ position h2) by (simpl; lia).
  unfold _load_bgzf_block, mbind, py_bind, _integrity_size.
  rewrite E1, E2. unfold lift at 1. rewrite unpack_H_encode by done.
  destruct (Z.ltb_spec (BSIZE - XLEN meta - 19) (-1)) as [Hlt|Hge].
  - unfold handle_read at 1.
    destruct (Z.ltb_spec (BSIZE - XLEN meta - 19) (-1)); [done | lia].
  - replace (BSIZE - XLEN meta - 19) with (-1) by lia.
    destruct (handle_read_rest h2 Hp2) as [E3 A3]. rewrite E3, A2.
    unfold lift at 1, decompress_raw.
    destruct (zlib_decompress rest) as [data|]; [|done].
    pose proof (handle_read_at_end _ 8 ltac:(lia) A3) as E4.
    rewrite A2 in E4.
    destruct (handle_read 8 _) as [r h4]. simpl in E4. subst r. done.
Qed.


Lemma land_ones_32 c :
  - 2 ^ 31 ≤ c < 2 ^ 32 →
  Z.land c 4294967295 = (if c <? 0 then c mod Z.shiftl 1 32 else c)
  ∧ 0 ≤ Z.land c 4294967295 < 2 ^ 32.
Proof.
  intros Hc. change 4294967295 with (Z.ones 32).
  rewrite Z.land_ones by lia. change (Z.shiftl 1 32) with (2 ^ 32).
  split.
  - destruct (Z.ltb_spec c 0); [done|]. apply Z.mod_small. lia.
  - apply Z.mod_pos_bound. lia.
Qed.

End CodecFacts.

Section CodecClaims.
Context `{Zlib}.

(** C7: a block whose stored CRC32 differs from the CRC32 of the inflated
    payload is rejected with an error, so is a block whose stored ISIZE
    differs from the length of the inflated payload, and when both match
    [_load_bgzf_block] returns [(BSIZE + 1, payload)]. *)
Theorem load_bgzf_block_checks_integrity
    h meta_raw meta BSIZE cdata data CRC32 ISIZE rest :
  0 ≤ position h →
  ahead h = meta_raw ++ le_encode 2 BSIZE ++ cdata
              ++ (le_encode 4 CRC32 ++ le_encode 4 ISIZE) ++ rest →
  unpack_bgzf_metaheader meta_raw = Ok meta → header_checks meta = true →
  0 ≤ BSIZE < 2 ^ 16 → len cdata = BSIZE - XLEN meta - 19 →
  zlib_decompress cdata = Some data →
  0 ≤ CRC32 < 2 ^ 32 → 0 ≤ ISIZE < 2 ^ 32 →
  let crc := if zlib_crc32 data <? 0 then zlib_crc32 data mod Z.shiftl 1 32
             else zlib_crc32 data in
  (CRC32 ≠ crc → ∃ msg, fst (_load_bgzf_block h) = Raise (ValueError msg))
  ∧ (ISIZE ≠ len data → ∃ msg, fst (_load_bgzf_block h) = Raise (ValueError msg))
  ∧ (CRC32 = crc → ISIZE = len data →
     fst (_load_bgzf_block h) = Ok (BSIZE + 1, data)).
Proof.
  intros Hp Hahead Hmeta Hchk HB Hd Hz HC HI crc.
  rewrite (load_bgzf_block_layout h meta_raw meta BSIZE cdata data CRC32 ISIZE rest)
    by assumption.
  cbv zeta. fold crc.
  destruct (Z.eqb_spec CRC32 crc) as [Hcrc|Hcrc];
    destruct (Z.eqb_spec ISIZE (len data)) as [Hisize|Hisize]; simpl;
    repeat split; intros; try contradiction; eauto.
Qed.

(** C5, as the code has it: there is no check of the sign of
    [d_size = BSIZE - XLEN - 19].  With [d_size < -1] the read of the
    deflated data raises [ValueError] and nothing is inflated; with
    [d_size = -1] the rest of the file is read and inflated, and the decoding
    fails in the inflater or, at the latest, when the eight bytes of CRC32 and
    ISIZE cannot be read.  In no case a block is returned. *)
Theorem load_bgzf_block_negative_size h meta_raw meta BSIZE rest :
  0 ≤ position h →
  ahead h = meta_raw ++ le_encode 2 BSIZE ++ rest →
  unpack_bgzf_metaheader meta_raw = Ok meta → header_checks meta = true →
  0 ≤ BSIZE < 2 ^ 16 →
  BSIZE - XLEN meta - 19 < 0 →
  fst (_load_bgzf_block h) =
    if BSIZE - XLEN meta - 19 <? -1 then
      Raise (ValueError "read length must be non-negative or -1")
    else match zlib_decompress rest with
         | None => Raise zlib_error
         | Some _ => Raise struct_error
         end.
Proof. apply load_bgzf_block_negative_d_size. Qed.


End CodecClaims.

(** ** Virtual offsets *)

Lemma within_block_land vo :
  Z.lxor vo (Z.shiftl (Z.shiftr vo 16) 16) = Z.land vo (Z.ones 16).
Proof.
  apply Z.bits_inj'. intros n Hn.
  rewrite Z.lxor_spec, Z.land_spec.
  destruct (Z.lt_ge_cases n 16).
  - rewrite Z.shiftl_spec_low, Z.ones_spec_low by lia.
    rewrite xorb_false_r, andb_true_r. done.
  - rewrite Z.shiftl_spec, Z.shiftr_spec, Z.ones_spec_high by lia.
    replace (n - 16 + 16) with n by lia.
    rewrite xorb_nilpotent, andb_false_r. done.
Qed.

Lemma within_block_range vo :
  0 ≤ Z.lxor vo (Z.shiftl (Z.shiftr vo 16) 16) < 2 ^ 16.
Proof.
  rewrite within_block_land, Z.land_ones by lia. apply Z.mod_pos_bound. lia.
Qed.

Lemma virtual_offset_rejoin vo :
  Z.lor (Z.shiftl (Z.shiftr vo 16) 16)
        (Z.lxor vo (Z.shiftl (Z.shiftr vo 16) 16)) = vo.
Proof.
  apply Z.bits_inj'. intros n Hn.
  rewrite Z.lor_spec, Z.lxor_spec.
  destruct (Z.lt_ge_cases n 16).
  - rewrite Z.shiftl_spec_low by lia. simpl. apply xorb_false_r.
  - rewrite Z.shiftl_spec, Z.shiftr_spec by lia.
    replace (n - 16 + 16) with n by lia.
    rewrite xorb_nilpotent. apply orb_false_r.
Qed.

Lemma make_virtual_offset_split vo :
  0 ≤ vo < 2 ^ 64 →
  make_virtual_offset (Z.shiftr vo 16)
    (Z.lxor vo (Z.shiftl (Z.shiftr vo 16) 16)) = Ok vo.
Proof.
  intros Hvo. unfold make_virtual_offset.
  pose proof (within_block_range vo).
  assert (Z.shiftr vo 16 < 2 ^ 48).
  { rewrite Z.shiftr_div_pow2 by lia. apply Z.div_lt_upper_bound; lia. }
  destruct (Z.leb_spec (2 ^ 16) (Z.lxor vo (Z.shiftl (Z.shiftr vo 16) 16))); [lia|].
  destruct (Z.leb_spec (2 ^ 48) (Z.shiftr vo 16)); [lia|].
  simpl. rewrite virtual_offset_rejoin. done.
Qed.

(** ** The cursor *)

Section CursorFacts.
Context `{Zlib} `{BlockCache C}.
Implicit Type self : BgzfReader C.

Lemma load_block_Ok_start self self' s :
  _load_block (Some s) self = (Ok tt, self') →
  _block_start_offset self' = Some s.
Proof.
  unfold _load_block, mbind, py_bind, get, mret, py_ret, modify. cbn beta iota.
  case_bool_decide as Hsame.
  - intros [= <-]. simpl. done.
  - destruct (cache_contains s (_buffers self)).
    + destruct (cache_getitem s (_buffers self)) as [[[buffer raw]|] buffers];
        cbn; intros [= <-]; done.
    + unfold on_handle, handle_seek, handle_tell, try_except.
      destruct (Z.ltb_spec s 0); cbn; [discriminate|].
      destruct (_load_bgzf_block _) as [[[bs buf]|e] h'] eqn:Hload; cbn.
      * intros [= <-]. done.
      * destruct (is_StopIteration e); cbn; [|discriminate].
        intros [= <-]. done.
Qed.

Lemma seek_unfold vo self :
  seek vo self =
    match seek_load vo self with
    | (Raise e, loaded) => (Raise e, loaded)
    | (Ok _, loaded) =>
        let within_block := Z.lxor vo (Z.shiftl (Z.shiftr vo 16) 16) in
        if len (_buffer loaded) <? within_block then
          (Raise (ValueError "Within offset %i but block size only %i"), loaded)
        else (Ok vo, set_within_block_offset within_block loaded)
    end.
Proof.
  unfold seek, seek_load, mbind, py_bind, get, mret, py_ret, modify.
  cbn beta iota zeta.
  set (start := Z.shiftr vo 16). set (within := Z.lxor vo _).
  assert (Hcheck : ∀ loaded : BgzfReader C,
    (if len (_buffer loaded) <? within
     then if negb ((within =? 0) && (len (_buffer loaded) =? 0))
          then raise (ValueError "Within offset %i but block size only %i")
          else λ s, (Ok tt, s)
     else λ s, (Ok tt, s)) loaded
    = if len (_buffer loaded) <? within
      then (Raise (ValueError "Within offset %i but block size only %i"), loaded)
      else (Ok tt, loaded)).
  { intros loaded. destruct (Z.ltb_spec (len (_buffer loaded)) within); [|done].
    destruct (Z.eqb_spec within 0); [|done].
    unfold len in *. lia. }
  case_bool_decide as Hcur.
  - destruct (_load_block (Some start) self) as [[[]|e] loaded] eqn:Hload; [|done].
    apply load_block_Ok_start in Hload. unfold py_assert.
    rewrite bool_decide_true by done. cbn.
    rewrite Hcheck. destruct (_ <? _); done.
  - cbn. rewrite Hcheck. destruct (_ <? _); done.
Qed.

Lemma seek_load_Ok_start vo self loaded :
  seek_load vo self = (Ok tt, loaded) →
  _block_start_offset loaded = Some (Z.shiftr vo 16).
Proof.
  unfold seek_load. case_bool_decide as Hcur.
  - apply load_block_Ok_start.
  - intros [= <-]. destruct (decide (Some (Z.shiftr vo 16) = _block_start_offset self));
      [done | contradiction].
Qed.

(** The physical end of the file: fewer than sixteen bytes are left, so the
    header of a block cannot be unpacked. *)
Lemma load_bgzf_block_at_end h :
  ahead h = [] → fst (_load_bgzf_block h) = Raise struct_error.
Proof.
  intros Hahead.
  unfold _load_bgzf_block, _bgzf_metaheader, mbind, py_bind, handle_read,
    _metaheader_size.
  cbn. rewrite Hahead. cbn. done.
Qed.

(** No path through the decoder raises [StopIteration], the one exception
    that [_load_block] handles. *)
Lemma load_bgzf_block_never_stops h :
  fst (_load_bgzf_block h) ≠ Raise StopIteration.
Proof.
  unfold _load_bgzf_block, _bgzf_metaheader, mbind, py_bind, lift, raise,
    mret, py_ret, decompress_raw.
  repeat match goal with
  | |- context [handle_read ?n ?h] =>
      let r := fresh "r" in let h' := fresh "h" in let E := fresh "E" in
      destruct (handle_read n h) as [r h'] eqn:E;
      unfold handle_read in E; destruct (n <? -1); injection E as <- <-
  | |- context [match unpack_bgzf_metaheader ?x with _ => _ end] =>
      destruct (unpack_bgzf_metaheader x) eqn:?
  | |- context [match unpack_H ?x with _ => _ end] =>
      destruct (unpack_H x) eqn:?
  | |- context [match unpack_gzip_integrity ?x with _ => _ end] =>
      destruct (unpack_gzip_integrity x) as [[??]|] eqn:?
  | |- context [match zlib_decompress ?x with _ => _ end] =>
      destruct (zlib_decompress x)
  | |- context [if ?b then _ else _] => destruct b
  | _ => progress cbn
  | _ => discriminate
  | H : unpack_bgzf_metaheader _ = Raise _ |- _ =>
      unfold unpack_bgzf_metaheader in H;
      repeat (case_match; try discriminate); injection H as <-
  | H : unpack_H _ = Raise _ |- _ =>
      unfold unpack_H in H;
      repeat (case_match; try discriminate); injection H as <-
  | H : unpack_gzip_integrity _ = Raise _ |- _ =>
      unfold unpack_gzip_integrity in H;
      repeat (case_match; try discriminate); injection H as <-
  end.
Qed.
End CursorFacts.

Section CursorClaims.
Context `{Zlib} `{BlockCache C}.
Implicit Type self : BgzfReader C.

(** C4: when [seek(vo)] returns for a virtual offset [vo], a 64-bit unsigned
    integer, it returns [vo], and [tell()] right after it returns [vo]. *)
Theorem seek_then_tell self self' vo v :
  0 ≤ vo < 2 ^ 64 →
  seek vo self = (Ok v, self') →
  v = vo ∧ tell self' = (Ok vo, self').
Proof.
  intros Hvo. rewrite seek_unfold.
  destruct (seek_load vo self) as [[[]|e] loaded] eqn:Hload; [|discriminate].
  apply seek_load_Ok_start in Hload.
  cbv zeta. destruct (_ <? _); [discriminate|].
  intros [= <- <-]. split; [done|].
  unfold tell, mbind, py_bind, get, lift. cbn.
  rewrite Hload, make_virtual_offset_split by done. done.
Qed.

(** C6: once the block that [vo] points into is the current block, with
    payload [P], [seek(vo)] raises [ValueError] whenever the offset within the
    block exceeds [len(P)]; the exemption for offset 0 in an empty block never
    applies, as 0 does not exceed 0.  In particular [seek(make(0, 42))] raises
    when block 0 is loaded and holds 38 bytes. *)
Theorem seek_beyond_block_raises :
  (∀ self loaded vo,
     seek_load vo self = (Ok tt, loaded) →
     len (_buffer loaded) < Z.land vo 65535 →
     seek vo self
       = (Raise (ValueError "Within offset %i but block size only %i"), loaded))
  ∧ (∀ self vo,
       _block_start_offset self = Some 0 → len (_buffer self) = 38 →
       make_virtual_offset 0 42 = Ok vo →
       seek vo self
         = (Raise (ValueError "Within offset %i but block size only %i"), self)).
Proof.
  split.
  - intros self loaded vo Hload Hlen. rewrite seek_unfold, Hload. cbv zeta.
    rewrite within_block_land. change (Z.ones 16) with 65535.
    destruct (Z.ltb_spec (len (_buffer loaded)) (Z.land vo 65535)); [done | lia].
  - intros self vo Hstart Hlen [= <-].
    change (Z.lor (Z.shiftl 0 16) 42) with 42.
    rewrite seek_unfold. unfold seek_load. rewrite Hstart.
    change (Z.shiftr 42 16) with 0.
    rewrite bool_decide_false by (intros Hne; by apply Hne).
    cbv zeta. rewrite Hlen. done.
Qed.

(** C2, as the code has it: when the current block is the last block of the
    file, loading the following block raises [struct.error], because the
    sixteen header bytes cannot be read; the handler for [StopIteration] that
    would give the empty payload is never entered.  The payload stays what it
    was, and a [read(n)], [n > 0], from the end of the payload raises the
    same error. *)
Theorem load_past_last_block_raises self s l :
  _block_start_offset self = Some s → _block_raw_length self = Some l →
  0 ≤ s → 0 < l →
  len (content (_handle self)) ≤ s + l →
  cache_contains (s + l) (_buffers self) = false →
  (∃ self', _load_block None self = (Raise struct_error, self')
            ∧ _buffer self' = _buffer self
            ∧ _block_start_offset self' = Some (s + l))
  ∧ (∀ depth n,
       _within_block_offset self = len (_buffer self) → 0 < n →
       fst (read (S depth) n self) = Raise struct_error).
Proof.
  intros Hs Hl Hs0 Hl0 Hend Hcache.
  assert (Hload : ∃ self', _load_block None self = (Raise struct_error, self')
            ∧ _buffer self' = _buffer self
            ∧ _block_start_offset self' = Some (s + l)).
  { unfold _load_block, mbind, py_bind, get, mret, py_ret, modify.
    cbn beta iota. rewrite Hs, Hl. cbn beta iota.
    rewrite bool_decide_false by (intros [=]; lia).
    rewrite Hcache.
    unfold on_handle, handle_seek, handle_tell, try_except.
    destruct (Z.ltb_spec (s + l) 0); [lia|]. cbn.
    pose proof (load_bgzf_block_at_end (set_position (s + l) (_handle self))) as Hraise.
    destruct (_load_bgzf_block _) as [r h'] eqn:Hblock.
    cbn in Hraise. rewrite Hraise.
    - cbn. eexists. split; [reflexivity|]. done.
    - rewrite ahead_set_position. apply drop_ge. unfold len in Hend. lia. }
  split; [done|].
  intros depth n Hwithin Hn.
  destruct Hload as (self' & Hload & _).
  cbn [read]. destruct (Z.ltb_spec n 0); [lia|].
  destruct (Z.eqb_spec n 0); [lia|].
  unfold mbind, py_bind, get. cbn beta iota zeta.
  destruct (Z.leb_spec (_within_block_offset self + n) (len (_buffer self))); [lia|].
  rewrite Hload. done.
Qed.

End CursorClaims.

(** ** The index statistics and the region query *)

Section QueryClaims.
Context `{PyRuntime} `{Zlib} `{BlockCache C} `{!QueryParsers C}.
Implicit Type self : BgzfReader C.

(** C9: with an index loaded, [get_index_stats] returns one tuple for each
    reference id [0 .. n_refs - 1], in this order: the counts of the index
    for the reference and their sum, and [(0, 0, 0)], not an error, for a
    reference id that the statistics of the index do not have. *)
Theorem get_index_stats_per_reference self index :
  _check_idx self = true → _index self = Some index →
  ∃ stats,
    get_index_stats self = (Ok stats, self)
    ∧ len stats = Z.max 0 (n_refs (_header self))
    ∧ ∀ ref, 0 ≤ ref < n_refs (_header self) →
        stats !! Z.to_nat ref =
          Some (match unmapped index !! ref with
                | Some u => (n_mapped u, n_unmapped u, n_mapped u + n_unmapped u)
                | None => (0, 0, 0)
                end).
Proof.
  intros Hidx Hindex.
  unfold get_index_stats, mbind, py_bind, get, py_assert, mret, py_ret.
  rewrite Hidx, Hindex. cbn beta iota.
  eexists. split; [reflexivity|]. split.
  - unfold len. rewrite length_fmap, length_seqZ. lia.
  - intros ref Href. rewrite list_lookup_fmap.
    rewrite lookup_seqZ_lt by lia. cbn. rewrite Z2Nat.id by lia. done.
Qed.

(** C10: when the generator of the region query ends without a read,
    [count] returns 0 whatever [read_callback] is, a string that is no filter
    included; calling [fetch] runs nothing, and the [RuntimeError] for such a
    [read_callback] is raised when the generator hands over its first read. *)
Theorem count_checks_callback_per_read
    fuel contig start stop region until_eof tid read_callback reference end_ self :
  let roi_reads :=
    fetch (mkFetchArgs contig start stop region tid until_eof false reference end_) in
  (∀ g self',
     fetch_next roi_reads self = (Return, g, self') →
     count (S fuel) contig start stop region until_eof tid read_callback
       reference end_ self = Some (Ok 0, self'))
  ∧ (∀ read g self',
       callback_supported read_callback = false →
       fetch_next roi_reads self = (Yield read, g, self') →
       count (S fuel) contig start stop region until_eof tid read_callback
         reference end_ self
       = Some (Raise (RuntimeError
           "read_callback should be 'all', 'nofilter', or a custom function that returns a boolean"),
               self')).
Proof.
  cbv zeta. unfold count. split.
  - intros g self' Hstep. cbn [count_loop]. rewrite Hstep. done.
  - intros read g self' Hcb Hstep. cbn [count_loop]. rewrite Hstep.
    unfold callback_supported in Hcb.
    apply orb_false_iff in Hcb as [Hcb Hcallable].
    apply orb_false_iff in Hcb as [-> ->].
    destruct read_callback; [done | discriminate | done].
Qed.

(** C1, as the code has it: with [until_eof] off, the read that ends the
    iteration is itself yielded.  When the next read of the file lies past
    [stop], or is of another reference than [contig], the loop clears
    [boundary_check] and then yields this read. *)
Theorem fetch_yields_read_out_of_region contig start stop self self' next_read :
  __next__ self = (Ok next_read, self') →
  start < stop < pos next_read ∨ Some (reference_name next_read) ≠ contig →
  fetch_next (FetchSuspended contig (Some start) stop false true) self
    = (Yield next_read, FetchSuspended contig (Some start) stop false false, self').
Proof.
  intros Hnext Hout. cbn [fetch_next]. unfold fetch_loop. cbn [negb].
  rewrite Hnext. cbn [past_the_region].
  assert (Htruth : nonempty next_read = true).
  { unfold __next__, mbind, py_bind in Hnext.
    destruct (AlignedSegment_init self) as [[read|e] s]; [|discriminate].
    destruct (nonempty read) eqn:Hne; cbn in Hnext; [|discriminate].
    injection Hnext as <- <-. done. }
  rewrite Htruth.
  destruct Hout as [[Hlt Hpast]|Hname].
  - replace ((start <? stop) && (stop <? pos next_read)) with true
      by (symmetry; apply andb_true_iff; split; apply Z.ltb_lt; done).
    reflexivity.
  - rewrite bool_decide_true by done.
    destruct (_ && _); done.
Qed.

End QueryClaims.

(** ** Opening a file *)

Section OpenClaims.
Context `{PyRuntime} `{BlockCache C} `{!OpenEnv C}.

(** What [_check_truncation] does on a freshly opened file. *)
Lemma check_truncation_fresh path data :
  py_slice_from data (-28) ≠ _bgzf_eof →
  fst (_check_truncation (mkHandle path data 0)) =
    if len data <? 28 then Raise OSError
    else if warnings_has_BytesWarning then Ok true
    else Raise AttributeError.
Proof.
  intros Hmarker.
  unfold _check_truncation, mbind, py_bind, handle_tell, handle_seek,
    handle_read_all, handle_read.
  cbn [content position set_position fst snd].
  destruct (Z.ltb_spec (len data) 28) as [Hshort|Hlong].
  - destruct (Z.ltb_spec (len data + -28) 0); [done | lia].
  - destruct (Z.ltb_spec (len data + -28) 0); [lia|].
    cbn -[_bgzf_eof].
    rewrite bool_decide_false.
    + destruct warnings_has_BytesWarning; done.
    + intros Heq. apply Hmarker. rewrite <- Heq.
      unfold py_slice_from, ahead, slice_index.
      cbn [content position set_position].
      change (-28 <? 0) with true. cbn iota. f_equal. lia.
Qed.

(** C8, as the code has it: the check of the end-of-file marker is on by
    default and its failure is fatal.  Opening a file whose last 28 bytes are
    not the marker with the default options raises and constructs no reader;
    with [ignore_truncation=True] the marker is not looked at and the opening
    goes on, whatever the file ends with. *)
Theorem init_checks_truncation_by_default path data (log : list string) :
  path ≠ EmptyString → filesystem path = Some data →
  py_slice_from data (-28) ≠ _bgzf_eof →
  (∃ e log', __init__ (default_args (Some (Path path))) log = (Raise e, log'))
  ∧ __init__ (with_ignore_truncation true (default_args (Some (Path path)))) log
    = init_rest (with_ignore_truncation true (default_args (Some (Path path))))
        (cache_new 128) (mkHandle path data 0) log.
Proof.
  intros Hpath Hfs Hmarker.
  assert (Htruthy : negb (String.eqb path EmptyString) = true).
  { apply negb_true_iff, String.eqb_neq. done. }
  split.
  - pose proof (check_truncation_fresh path data Hmarker) as Hcheck.
    unfold __init__, mbind, py_bind, mret, py_ret, raise.
    cbn [default_args max_cache_arg filepath_or_object filename mode
         ignore_truncation truthy_file andb negb].
    rewrite Htruthy. cbn [andb Z.ltb Z.compare]. rewrite Hfs.
    change (mode_is_binary "rb") with true. cbn [negb].
    destruct (_check_truncation _) as [[truncated|e] h]; cbn [fst] in Hcheck.
    + destruct (Z.ltb_spec (len data) 28); [discriminate|].
      destruct warnings_has_BytesWarning; [|discriminate].
      injection Hcheck as ->. eauto.
    + eauto.
  - unfold __init__, mbind, py_bind, mret, py_ret, raise.
    cbn [default_args with_ignore_truncation max_cache_arg filepath_or_object
         filename mode ignore_truncation truthy_file andb negb].
    rewrite Htruthy. cbn [andb Z.ltb Z.compare]. rewrite Hfs.
    change (mode_is_binary "rb") with true. cbn [negb]. done.
Qed.

End OpenClaims.

(** ** The properties at the concrete files *)

Ltac by_evaluation :=
  vm_compute; repeat split;
  first [ reflexivity | discriminate | intros ?; discriminate ].

Lemma load_bgzf_block_checks_integrity_witness :
  fst (@_load_bgzf_block reference_zlib (mkHandle "hi.bam" hi_block 0))
    = Ok (32 + 1, [x68; x69]).
Proof.
  refine (proj2 (proj2
    (@load_bgzf_block_checks_integrity reference_zlib
       (mkHandle "hi.bam" hi_block 0) _bgzf_header
       (mkMeta 31 139 8 4 0 0 255 6 66 67 2) 32
       [x01; x02; x00; xfd; xff; x68; x69] [x68; x69] 0xd8932aac 2 []
       _ _ _ _ _ _ _ _ _)) _ _); by_evaluation.
Defined.

Lemma load_bgzf_block_negative_size_witness :
  fst (@_load_bgzf_block reference_zlib (mkHandle "short.bam" short_bsize_block 0))
    = Raise struct_error.
Proof.
  refine (@load_bgzf_block_negative_size reference_zlib
            (mkHandle "short.bam" short_bsize_block 0) _bgzf_header
            (mkMeta 31 139 8 4 0 0 255 6 66 67 2) 24
            [x03; x00; x00; x00; x00; x00; x00; x00; x00; x00] _ _ _ _ _ _);
    by_evaluation.
Defined.

(** The header of [short_bsize_block] passes the checks and its [d_size] is
    [-1]; the decoder has the rest of the file inflated and raises
    [struct.error], not the error for a malformed block. *)
Lemma load_bgzf_block_negative_size_not_malformed :
  let h := mkHandle "short.bam" short_bsize_block 0 in
  (∃ meta, fst (_bgzf_metaheader h) = Ok (meta, _bgzf_header)
           ∧ unpack_H [x18; x00] = Ok 24 ∧ 24 - XLEN meta - 19 = -1)
  ∧ fst (@_load_bgzf_block reference_zlib h) = Raise struct_error
  ∧ fst (@_load_bgzf_block reference_zlib h)
      ≠ Raise (ValueError "Malformed BGZF block").
Proof.
  cbv zeta. split; [|split].
  - exists (mkMeta 31 139 8 4 0 0 255 6 66 67 2). by_evaluation.
  - by_evaluation.
  - by_evaluation.
Qed.


Lemma seek_then_tell_witness :
  let self' := (@seek reference_zlib _ _ 2621440 example_reader).2 in
  2621440 = 2621440 ∧ tell self' = (Ok 2621440, self').
Proof.
  refine (@seek_then_tell reference_zlib LruDict _ example_reader _ 2621440 2621440 _ _);
    by_evaluation.
Defined.

Lemma seek_beyond_block_raises_witness :
  @seek reference_zlib _ _ 42 example_reader
    = (Raise (ValueError "Within offset %i but block size only %i"), example_reader)
  ∧ @seek reference_zlib _ _ 42 reader_38
    = (Raise (ValueError "Within offset %i but block size only %i"), reader_38).
Proof.
  destruct (@seek_beyond_block_raises reference_zlib LruDict _) as [general block0].
  split.
  - apply general; by_evaluation.
  - apply block0; by_evaluation.
Defined.

Lemma load_past_last_block_raises_witness :
  fst (@_load_block reference_zlib _ _ None example_reader_at_end)
    = Raise struct_error
  ∧ fst (@read reference_zlib _ _ 1 1 example_reader_at_end) = Raise struct_error.
Proof.
  assert (Hlast : _block_start_offset example_reader_at_end = Some 40
                  ∧ _block_raw_length example_reader_at_end = Some 28
                  ∧ len (content (_handle example_reader_at_end)) ≤ 40 + 28
                  ∧ cache_contains (40 + 28) (_buffers example_reader_at_end) = false)
    by by_evaluation.
  destruct Hlast as (Hs & Hl & Hend & Hcache).
  destruct (@load_past_last_block_raises reference_zlib LruDict _
              example_reader_at_end 40 28 Hs Hl ltac:(lia) ltac:(lia) Hend Hcache)
    as [(self' & Hload & _) Hread].
  split.
  - rewrite Hload. reflexivity.
  - apply Hread; by_evaluation.
Defined.

(** Reading the example file to its end and on: the nine bytes of the
    first block, then the empty string when the marker block is entered, and
    [struct.error] from every further [read]. *)
Example read_to_the_end_and_on :
  let r0 := example_reader in
  let '(a, r1) := @read reference_zlib _ _ 10 9 r0 in
  let '(b, r2) := @read reference_zlib _ _ 10 1 r1 in
  let '(c, r3) := @read reference_zlib _ _ 10 1 r2 in
  let '(d, r4) := @read reference_zlib _ _ 10 1 r3 in
  a = Ok example_reads ∧ b = Ok [] ∧ c = Raise struct_error
  ∧ d = Raise struct_error ∧ _buffer r2 = [] ∧ _block_start_offset r2 = Some 40
  ∧ _block_start_offset r3 = Some 68 ∧ _block_raw_length r3 = Some 28.
Proof. vm_compute. repeat split. Qed.

Lemma get_index_stats_per_reference_witness :
  ∃ stats,
    get_index_stats example_reader = (Ok stats, example_reader)
    ∧ len stats = Z.max 0 (n_refs (_header example_reader))
    ∧ ∀ ref, 0 ≤ ref < n_refs (_header example_reader) →
        stats !! Z.to_nat ref =
          Some (match unmapped example_index !! ref with
                | Some u => (n_mapped u, n_unmapped u, n_mapped u + n_unmapped u)
                | None => (0, 0, 0)
                end).
Proof.
  refine (@get_index_stats_per_reference LruDict example_reader example_index _ _);
    by_evaluation.
Defined.

Example get_index_stats_example :
  fst (get_index_stats example_reader) = Ok [(1446, 18, 1464); (0, 0, 0)].
Proof. vm_compute. reflexivity. Qed.

Lemma count_checks_callback_per_read_witness :
  fst <$> @count cpython3 reference_zlib _ _ example_parsers 1
            (Some "chr2") (Some 1) (Some 100) None false None
            (CallbackStr "bogus") None None example_reader
    = Some (Ok 0)
  ∧ fst <$> @count cpython3 reference_zlib _ _ example_parsers 1
              (Some "chr1") (Some 1) (Some 100) None false None
              (CallbackStr "bogus") None None example_reader
    = Some (Raise (RuntimeError
        "read_callback should be 'all', 'nofilter', or a custom function that returns a boolean")).
Proof.
  split.
  - rewrite (proj1 (@count_checks_callback_per_read cpython3 reference_zlib
               LruDict _ example_parsers 0 (Some "chr2") (Some 1) (Some 100) None
               false None (CallbackStr "bogus") None None example_reader)
             FetchFinished example_reader); by_evaluation.
  - rewrite (proj2 (@count_checks_callback_per_read cpython3 reference_zlib
               LruDict _ example_parsers 0 (Some "chr1") (Some 1) (Some 100) None
               false None (CallbackStr "bogus") None None example_reader)
             (mkRead 0 "chr1" 5 0 true)
             (FetchSuspended (Some "chr1") (Some 1) 100 false true)
             (set_within_block_offset 3 example_reader)); by_evaluation.
Defined.

Lemma fetch_yields_read_out_of_region_witness :
  @fetch_next cpython3 reference_zlib _ _ example_parsers
    (FetchSuspended (Some "chr1") (Some 1) 100 false true)
    (set_within_block_offset 3 example_reader)
  = (Yield (mkRead 0 "chr1" 200 0 true),
     FetchSuspended (Some "chr1") (Some 1) 100 false false,
     set_within_block_offset 6 example_reader).
Proof.
  apply (@fetch_yields_read_out_of_region cpython3 reference_zlib LruDict _
           example_parsers (Some "chr1") 1 100).
  - by_evaluation.
  - left. by_evaluation.
Defined.

(** [fetch('chr1', 1, 100)] on the example file yields the read at position 5
    and then the read at position 200, which is past [stop]. *)
Example fetch_chr1_1_100 :
  @fetch_run cpython3 reference_zlib _ _ example_parsers 10
    (fetch (mkFetchArgs (Some "chr1") (Some 1) (Some 100) None None false false
              None None))
    example_reader
  = ([mkRead 0 "chr1" 5 0 true; mkRead 0 "chr1" 200 0 true], Some (Ok tt)).
Proof. vm_compute. reflexivity. Qed.

Lemma init_checks_truncation_by_default_witness :
  (∃ e log', @__init__ cpython3 _ _ example_env
                (default_args (Some (Path "cut.bam"))) [] = (Raise e, log'))
  ∧ @__init__ cpython3 _ _ example_env
      (with_ignore_truncation true (default_args (Some (Path "cut.bam")))) []
    = @init_rest _ example_env
        (with_ignore_truncation true (default_args (Some (Path "cut.bam"))))
        (cache_new 128) (mkHandle "cut.bam" (take 40 example_bam) 0) [].
Proof.
  refine (@init_checks_truncation_by_default cpython3 LruDict _ example_env
            "cut.bam" (take 40 example_bam) [] _ _ _); by_evaluation.
Defined.

(** The file [cut.bam] is one whole block and no marker.  With the default
    options the reader is not constructed: the lookup of
    [warnings.BytesWarning] fails in [_check_truncation], and on an
    interpreter that has the attribute [__init__] raises its own exception. *)
Lemma init_default_rejects_missing_marker :
  @filesystem _ example_env "cut.bam" = Some (take 40 example_bam)
  ∧ py_slice_from (take 40 example_bam) (-28) ≠ _bgzf_eof
  ∧ @__init__ cpython3 _ _ example_env (default_args (Some (Path "cut.bam"))) []
    = (Raise AttributeError, [])
  ∧ @__init__ with_BytesWarning _ _ example_env
      (default_args (Some (Path "cut.bam"))) []
    = (Raise (Exception
         "BAM file may be truncated. Turn off ignore_truncation if you wish to continue"),
       []).
Proof. repeat split; by_evaluation. Qed.

Example init_accepts_marker :
  is_Ok (fst (@__init__ cpython3 _ _ example_env
                (default_args (Some (Path "example.bam"))) [])) = true.
Proof. vm_compute. reflexivity. Qed.

(** * Further properties of the module *)

(** ** The decoder, read backwards *)

Lemma handle_read_Ok n h data h' :
  0 ≤ position h → handle_read n h = (Ok data, h') →
  ahead h = data ++ ahead h'
  ∧ position h' = position h + len data
  ∧ content h' = content h
  ∧ name h' = name h
  ∧ (0 ≤ n → data = take (Z.to_nat n) (ahead h))
  ∧ (n < 0 → ahead h' = []).
Proof.
  intros Hp. unfold handle_read.
  destruct (Z.ltb_spec n (-1)); [discriminate|].
  intros [= <- <-]. cbn [position content name set_position].
  rewrite ahead_set_position.
  assert (Hdrop : ∀ d : bytes,
    drop (Z.to_nat (position h + len d)) (content h) = drop (length d) (ahead h)).
  { intros d. unfold ahead, len. rewrite drop_drop. f_equal. lia. }
  rewrite Hdrop.
  destruct (Z.eqb_spec n (-1)) as [->|].
  - rewrite drop_all, app_nil_r. repeat split; try done; lia.
  - rewrite length_take.
    assert (Hsplit : take (Z.to_nat n) (ahead h)
                       ++ drop (Z.to_nat n `min` length (ahead h)) (ahead h) = ahead h).
    { destruct (Nat.le_ge_cases (Z.to_nat n) (length (ahead h))).
      - rewrite Nat.min_l by done. apply take_drop.
      - rewrite Nat.min_r by done. rewrite drop_all, take_ge by done.
        apply app_nil_r. }
    repeat split; try done; lia.
Qed.

Lemma unpack_H_Ok raw v : unpack_H raw = Ok v → length raw = 2%nat.
Proof.
  unfold unpack_H. do 3 (destruct raw as [|? raw]; try discriminate). done.
Qed.

Lemma unpack_gzip_integrity_Ok raw v :
  unpack_gzip_integrity raw = Ok v → length raw = 8%nat.
Proof.
  unfold unpack_gzip_integrity.
  do 9 (destruct raw as [|? raw]; try discriminate). done.
Qed.

Section CodecMore.
Context `{Zlib}.

Lemma bgzf_metaheader_Ok h h' meta meta_raw :
  0 ≤ position h → _bgzf_metaheader h = (Ok (meta, meta_raw), h') →
  ahead h = meta_raw ++ ahead h'
  ∧ position h' = position h + 16 ∧ content h' = content h ∧ name h' = name h
  ∧ unpack_bgzf_metaheader meta_raw = Ok meta ∧ header_checks meta = true.
Proof.
  intros Hp. unfold _bgzf_metaheader, mbind, py_bind, lift, raise, mret, py_ret.
  destruct (handle_read _ h) as [[raw|e] h1] eqn:Hread; [|discriminate].
  destruct (unpack_bgzf_metaheader raw) as [m|e] eqn:Hmeta; [|discriminate].
  destruct (header_checks m) eqn:Hchk; cbn; [|discriminate].
  intros [= <- <- <-].
  destruct (handle_read_Ok _ _ _ _ Hp Hread) as (Ha & Hpos & Hc & Hn & _).
  apply unpack_metaheader_length in Hmeta as Hlen.
  unfold len in Hpos. rewrite Hlen in Hpos. repeat split; try done.
Qed.

(** X1: Whatever [_load_bgzf_block] returns has passed every check: the bytes
    consumed are a header with the fixed fields, [BSIZE], exactly
    [BSIZE - XLEN - 19] bytes that inflate to the payload returned, and a
    CRC32 and an ISIZE that match the payload.  The file position has
    advanced by the raw length returned when [XLEN] is 6, and by
    [6 - XLEN] more in general. *)
Theorem load_bgzf_block_sound h h' n data :
  0 ≤ position h →
  _load_bgzf_block h = (Ok (n, data), h') →
  ∃ meta_raw meta BSIZE_raw BSIZE cdata integrity_raw CRC32 ISIZE,
    ahead h = meta_raw ++ BSIZE_raw ++ cdata ++ integrity_raw ++ ahead h'
    ∧ unpack_bgzf_metaheader meta_raw = Ok meta ∧ header_checks meta = true
    ∧ unpack_H BSIZE_raw = Ok BSIZE ∧ n = BSIZE + 1
    ∧ len cdata = BSIZE - XLEN meta - 19
    ∧ zlib_decompress cdata = Some data
    ∧ unpack_gzip_integrity integrity_raw = Ok (CRC32, ISIZE)
    ∧ CRC32 = (if zlib_crc32 data <? 0 then zlib_crc32 data mod Z.shiftl 1 32
               else zlib_crc32 data)
    ∧ ISIZE = len data
    ∧ position h' = position h + n + (6 - XLEN meta)
    ∧ content h' = content h.
Proof.
  intros Hp. unfold _load_bgzf_block, mbind, py_bind.
  destruct (_bgzf_metaheader h) as [[[meta meta_raw]|e] h1] eqn:Hmeta;
    [|discriminate].
  destruct (bgzf_metaheader_Ok _ _ _ _ Hp Hmeta) as (A1 & P1 & C1 & _ & U1 & K1).
  destruct (handle_read 2 h1) as [[BSIZE_raw|e] h2] eqn:H2; [|discriminate].
  assert (Hp1 : 0 ≤ position h1) by lia.
  destruct (handle_read_Ok _ _ _ _ Hp1 H2) as (A2 & P2 & C2 & _ & _ & _).
  unfold lift at 1.
  destruct (unpack_H BSIZE_raw) as [BSIZE|e] eqn:U2; [|discriminate].
  apply unpack_H_Ok in U2 as L2.
  destruct (handle_read (BSIZE - XLEN meta - 19) h2) as [[cdata|e] h3] eqn:H3;
    [|discriminate].
  assert (Hp2 : 0 ≤ position h2) by (unfold len in *; lia).
  destruct (handle_read_Ok _ _ _ _ Hp2 H3) as (A3 & P3 & C3 & _ & T3 & E3).
  unfold lift at 1, decompress_raw.
  destruct (zlib_decompress cdata) as [data'|] eqn:Hz; [|discriminate].
  destruct (handle_read _integrity_size h3) as [[integrity_raw|e] h4] eqn:H4;
    [|discriminate].
  assert (Hp3 : 0 ≤ position h3) by (unfold len in *; lia).
  destruct (handle_read_Ok _ _ _ _ Hp3 H4) as (A4 & P4 & C4 & _ & T4 & _).
  unfold lift at 1.
  destruct (unpack_gzip_integrity integrity_raw) as [[CRC32 ISIZE]|e] eqn:U4;
    [|discriminate].
  apply unpack_gzip_integrity_Ok in U4 as L4.
  cbv zeta.
  destruct (Z.eqb_spec CRC32
              (if zlib_crc32 data' <? 0 then zlib_crc32 data' mod Z.shiftl 1 32
               else zlib_crc32 data')) as [Hcrc|]; [|discriminate].
  destruct (Z.eqb_spec ISIZE (len data')) as [Hisize|]; [|discriminate].
  cbn. intros [= <- <- <-].
  (* the deflated data is as long as the header says *)
  assert (Hd : len cdata = BSIZE - XLEN meta - 19).
  { destruct (Z.lt_ge_cases (BSIZE - XLEN meta - 19) 0) as [Hneg|Hnn].
    - rewrite (E3 Hneg) in A4. apply (f_equal length) in A4.
      rewrite length_app in A4. cbn in A4. lia.
    - specialize (T3 Hnn). rewrite T3. unfold len. rewrite length_take.
      destruct (Nat.le_gt_cases (Z.to_nat (BSIZE - XLEN meta - 19))
                  (length (ahead h2))); [lia|].
      exfalso. rewrite T3, take_ge in A3 by lia.
      apply (f_equal length) in A3. rewrite length_app in A3.
      assert (length (ahead h3) = 0%nat) as Hnil by lia.
      apply (f_equal length) in A4. rewrite length_app, Hnil in A4. lia. }
  exists meta_raw, meta, BSIZE_raw, BSIZE, cdata, integrity_raw, CRC32, ISIZE.
  repeat split; try done.
  - rewrite A1, A2, A3, A4. done.
  - unfold len in *. lia.
  - congruence.
Qed.

Lemma byte_to_Z_inj a b : byte_to_Z a = byte_to_Z b → a = b.
Proof.
  unfold byte_to_Z. intros Heq. apply N2Z.inj in Heq.
  pose proof (Byte.of_to_N a) as Ha. rewrite Heq, Byte.of_to_N in Ha.
  congruence.
Qed.

Lemma le_decode_2_inj a0 a1 b0 b1 :
  le_decode [a0; a1] = le_decode [b0; b1] → a0 = b0 ∧ a1 = b1.
Proof.
  cbn [le_decode]. intros Heq.
  pose proof (byte_to_Z_range a0). pose proof (byte_to_Z_range a1).
  pose proof (byte_to_Z_range b0). pose proof (byte_to_Z_range b1).
  split; apply byte_to_Z_inj; lia.
Qed.

Lemma header_checks_bytes b0 b1 b2 b3 m0 m1 m2 m3 xfl os x0 x1 s1 s2 l0 l1 meta :
  unpack_bgzf_metaheader
    [b0; b1; b2; b3; m0; m1; m2; m3; xfl; os; x0; x1; s1; s2; l0; l1] = Ok meta →
  header_checks meta = true
  ↔ [b0; b1; b2; b3] = [x1f; x8b; x08; x04]
    ∧ [s1; s2; l0; l1] = [x42; x43; x02; x00].
Proof.
  intros [= <-]. unfold header_checks.
  cbn [ID1 ID2 CM FLG SI1 SI2 SLEN].
  rewrite !andb_true_iff, !Z.eqb_eq.
  change 31 with (byte_to_Z x1f). change 139 with (byte_to_Z x8b).
  change 8 with (byte_to_Z x08). change 4 with (byte_to_Z x04).
  change 66 with (byte_to_Z x42). change 67 with (byte_to_Z x43).
  change 2 with (le_decode [x02; x00]).
  split.
  - intros ((((((H0 & H1) & H2) & H3) & H12) & H13) & H14).
    apply byte_to_Z_inj in H0, H1, H2, H3, H12, H13.
    apply le_decode_2_inj in H14 as [? ?]. subst. done.
  - intros [[= -> -> -> ->] [= -> -> -> ->]]. done.
Qed.

(** X2: The sixteen header bytes are accepted exactly when bytes 0 to 3 are
    [1f 8b 08 04] and bytes 12 to 15 are [42 43 02 00]; MTIME, XFL, OS and
    XLEN may be anything.  Every other header makes the decoder raise
    [ValueError('Malformed BGZF block')]. *)
Theorem bgzf_metaheader_fixed_bytes
    h b0 b1 b2 b3 m0 m1 m2 m3 xfl os x0 x1 s1 s2 l0 l1 rest :
  0 ≤ position h →
  ahead h = [b0; b1; b2; b3; m0; m1; m2; m3; xfl; os; x0; x1; s1; s2; l0; l1]
              ++ rest →
  let raw := [b0; b1; b2; b3; m0; m1; m2; m3; xfl; os; x0; x1; s1; s2; l0; l1] in
  let fixed := [b0; b1; b2; b3] = [x1f; x8b; x08; x04]
               ∧ [s1; s2; l0; l1] = [x42; x43; x02; x00] in
  (fixed → ∃ meta, fst (_bgzf_metaheader h) = Ok (meta, raw)
                   ∧ XLEN meta = le_decode [x0; x1]
                   ∧ MTIME meta = le_decode [m0; m1; m2; m3])
  ∧ (¬ fixed →
     fst (_bgzf_metaheader h) = Raise (ValueError "Malformed BGZF block")
     ∧ fst (_load_bgzf_block h) = Raise (ValueError "Malformed BGZF block")).
Proof.
  intros Hp Hahead raw fixed.
  destruct (handle_read_ahead h raw rest Hp Hahead) as [Hread _].
  change (len raw) with 16 in Hread.
  destruct (unpack_bgzf_metaheader raw) as [meta|] eqn:Hmeta; [|discriminate].
  pose proof (header_checks_bytes _ _ _ _ _ _ _ _ _ _ _ _ _ _ _ _ _ Hmeta) as Hiff.
  fold fixed in Hiff.
  assert (Hrun : _bgzf_metaheader h =
            if header_checks meta
            then (Ok (meta, raw), set_position (position h + 16) h)
            else (Raise (ValueError "Malformed BGZF block"),
                  set_position (position h + 16) h)).
  { unfold _bgzf_metaheader, mbind, py_bind, _metaheader_size.
    rewrite Hread. unfold lift. rewrite Hmeta. destruct (header_checks meta); done. }
  split.
  - intros Hfixed. apply Hiff in Hfixed. rewrite Hrun, Hfixed.
    exists meta. injection Hmeta as <-. done.
  - intros Hfixed.
    assert (header_checks meta = false) as Hchk.
    { destruct (header_checks meta); [|done]. destruct Hfixed. by apply Hiff. }
    unfold _load_bgzf_block, mbind, py_bind. rewrite Hrun, Hchk. done.
Qed.

(** X3: A file that ends within the sixteen header bytes of a block makes the
    decoder raise [struct.error]; this includes a position at or past the end
    of the file. *)
Theorem load_bgzf_block_truncated_header h :
  len (ahead h) < 16 →
  fst (_bgzf_metaheader h) = Raise struct_error
  ∧ fst (_load_bgzf_block h) = Raise struct_error.
Proof.
  intros Hshort.
  assert (Hmeta : fst (_bgzf_metaheader h) = Raise struct_error).
  { unfold _bgzf_metaheader, mbind, py_bind, handle_read, _metaheader_size.
    cbn -[unpack_bgzf_metaheader take].
    rewrite take_ge by (unfold len in Hshort; lia).
    unfold lift.
    destruct (unpack_bgzf_metaheader (ahead h)) as [m|e] eqn:Hm.
    - apply unpack_metaheader_length in Hm. unfold len in Hshort. lia.
    - unfold unpack_bgzf_metaheader in Hm.
      repeat (case_match; try discriminate); injection Hm as <-; done. }
  split; [done|].
  unfold _load_bgzf_block, mbind, py_bind.
  destruct (_bgzf_metaheader h) as [[[meta raw]|e] h1]; cbn in Hmeta;
    [discriminate|]. injection Hmeta as ->. done.
Qed.

(** ** The encoder *)

Lemma writer_eta (w : BgzfWriter) :
  mkWriter (w_handle w) (w_buffer w) (compresslevel w) = w.
Proof. destruct w. done. Qed.

(** [_write_block] for a handle that appends. *)
Lemma handle_write_append data h :
  position h = len (content h) →
  (handle_write data h).2
    = mkHandle (name h) (content h ++ data) (len (content h ++ data)).
Proof.
  intros Hpos. unfold handle_write, len in *. cbn [snd].
  rewrite Hpos, Nat2Z.id, take_ge, drop_ge by lia.
  rewrite app_nil_r, length_app. f_equal. lia.
Qed.

Lemma write_block_cases block (w : BgzfWriter) :
  let compressed := zlib_compress (compresslevel w) block in
  let data := _bgzf_header ++ le_encode 2 (len compressed + 25) ++ compressed
                ++ le_encode 4 (Z.land (zlib_crc32 block) 4294967295)
                ++ le_encode 4 (len block) in
  let fits := len block ≤ 65536 ∧ len compressed ≤ 65510
              ∧ - 2 ^ 31 ≤ zlib_crc32 block < 2 ^ 32 in
  (fits →
   _write_block block w
     = (Ok tt, mkWriter (handle_write data (w_handle w)).2 (w_buffer w)
                 (compresslevel w))
   ∧ len data = len compressed + 26)
  ∧ (¬ fits → ∃ e, _write_block block w = (Raise e, w)).
Proof.
  cbv zeta.
  set (compressed := zlib_compress (compresslevel w) block).
  assert (Hrun : _write_block block w =
    if len block <=? 65536 then
      if len compressed <? 65536 then
        match (if zlib_crc32 block <? 0 then pack_i (zlib_crc32 block)
               else pack_I (zlib_crc32 block)) with
        | Ok _ =>
            match pack_H (len compressed + 25) with
            | Ok bsize =>
                match pack_I (Z.land (zlib_crc32 block) 4294967295) with
                | Ok crc =>
                    match pack_I (len block) with
                    | Ok isize =>
                        (Ok tt,
                         mkWriter
                           (handle_write
                              (_bgzf_header ++ bsize ++ compressed ++ crc ++ isize)
                              (w_handle w)).2
                           (w_buffer w) (compresslevel w))
                    | Raise e => (Raise e, w)
                    end
                | Raise e => (Raise e, w)
                end
            | Raise e => (Raise e, w)
            end
        | Raise e => (Raise e, w)
        end
      else (Raise (AssertionError
              "TODO - Didn't compress enough, try less data in this block"), w)
    else (Raise (AssertionError EmptyString), w)).
  { unfold _write_block, mbind, py_bind, on_w_handle, handle_tell, py_assert,
      get, lift, mret, py_ret, raise.
    cbn [w_handle w_buffer compresslevel]. rewrite writer_eta.
    destruct (len block <=? 65536); [|done]. cbn [compresslevel].
    fold compressed. destruct (len compressed <? 65536); [|done].
    repeat (case_match; try done). }
  rewrite Hrun. clear Hrun.
  assert (HI : ∀ v, 0 ≤ v < 2 ^ 32 → pack_I v = Ok (le_encode 4 v)).
  { intros v Hv. unfold pack_I. destruct (Z.leb_spec 0 v); [|lia].
    destruct (Z.ltb_spec v (2 ^ 32)); [done|lia]. }
  split.
  - intros (Hb & Hc & Hcrc). split.
    + destruct (Z.leb_spec (len block) 65536); [|lia].
      destruct (Z.ltb_spec (len compressed) 65536); [|lia].
      assert (pack_H (len compressed + 25) = Ok (le_encode 2 (len compressed + 25)))
        as ->.
      { unfold pack_H. destruct (Z.leb_spec 0 (len compressed + 25));
          [|unfold len in *; lia].
        destruct (Z.ltb_spec (len compressed + 25) (2 ^ 16)); [done|lia]. }
      destruct (land_ones_32 (zlib_crc32 block) Hcrc) as [_ Hrange].
      rewrite (HI (Z.land _ _)) by done.
      rewrite (HI (len block)) by (unfold len in *; lia).
      assert ((if zlib_crc32 block <? 0 then pack_i (zlib_crc32 block)
               else pack_I (zlib_crc32 block))
              = Ok (le_encode 4 (zlib_crc32 block))) as ->; [|done].
      destruct (Z.ltb_spec (zlib_crc32 block) 0).
      * unfold pack_i.
        destruct (Z.leb_spec (- 2 ^ 31) (zlib_crc32 block)); [|lia].
        destruct (Z.ltb_spec (zlib_crc32 block) (2 ^ 31)); [done|lia].
      * apply HI. lia.
    + unfold len. rewrite !length_app, !length_le_encode. simpl. lia.
  - intros Hnot.
    destruct (Z.leb_spec (len block) 65536); [|eauto].
    destruct (Z.ltb_spec (len compressed) 65536); [|eauto].
    destruct (if zlib_crc32 block <? 0 then _ else _) as [c0|] eqn:Hc0; [|eauto].
    destruct (pack_H _) as [bsize|] eqn:Hbsize; [|eauto].
    exfalso. apply Hnot. apply pack_H_Ok in Hbsize as [? _].
    repeat split; try lia;
      destruct (Z.ltb_spec (zlib_crc32 block) 0);
        [apply pack_i_Ok in Hc0 | apply pack_I_Ok in Hc0
        |apply pack_i_Ok in Hc0 | apply pack_I_Ok in Hc0]; lia.
Qed.


(** X5: When the deflater turns the empty string into the two bytes [03 00] and
    its CRC is 0, as zlib does, the block written for the empty payload is
    the 28-byte end-of-file marker. *)
Theorem write_block_empty_is_eof_marker (w : BgzfWriter) :
  zlib_compress (compresslevel w) [] = [x03; x00] → zlib_crc32 [] = 0 →
  position (w_handle w) = len (content (w_handle w)) →
  ∃ w', _write_block [] w = (Ok tt, w')
        ∧ content (w_handle w') = content (w_handle w) ++ _bgzf_eof
        ∧ position (w_handle w') = position (w_handle w) + 28
        ∧ w_buffer w' = w_buffer w.
Proof.
  intros Hz Hcrc Hpos.
  destruct (write_block_cases [] w) as [Hfits _].
  cbv zeta in Hfits. rewrite Hz, Hcrc in Hfits.
  destruct Hfits as [Hrun _]; [vm_compute; repeat split; discriminate|].
  eexists. split; [exact Hrun|].
  cbn [w_handle w_buffer]. rewrite handle_write_append by done.
  cbn [content position]. repeat split.
  rewrite Hpos. unfold len. rewrite length_app. cbn. lia.
Qed.

End CodecMore.

(** ** [get_block] *)

(** X6: [get_block] reads [BSIZE - 5] bytes after the [BSIZE] field, where the
    block has [BSIZE - 17] left: it returns the block at [offset] together
    with the twelve bytes of the file that follow it, or with what there is
    of them. *)
Theorem get_block_twelve_bytes_more
    filesystem handle offset data pre meta_raw meta BSIZE tail rest :
  filesystem (name handle) = Some data →
  data = pre ++ (meta_raw ++ le_encode 2 BSIZE ++ tail) ++ rest →
  len pre = offset →
  unpack_bgzf_metaheader meta_raw = Ok meta → header_checks meta = true →
  0 ≤ BSIZE < 2 ^ 16 →
  len (meta_raw ++ le_encode 2 BSIZE ++ tail) = BSIZE + 1 →
  get_block filesystem handle offset
    = Ok ((meta_raw ++ le_encode 2 BSIZE ++ tail) ++ take 12 rest).
Proof.
  intros Hfs Hdata Hpre Hmeta Hchk HB Hlen.
  pose proof (unpack_metaheader_length _ _ Hmeta) as Hraw.
  assert (Htail : len tail = BSIZE - 17).
  { unfold len in *. rewrite !length_app, length_le_encode in Hlen. lia. }
  unfold get_block. rewrite Hfs. cbv zeta.
  unfold mbind at 1, py_bind at 1, handle_seek.
  destruct (Z.ltb_spec offset 0); [unfold len in Hpre; lia|].
  set (h0 := set_position offset _).
  assert (Hp0 : 0 ≤ position h0) by done.
  assert (A0 : ahead h0 = meta_raw ++ le_encode 2 BSIZE ++ tail ++ rest).
  { unfold ahead, h0. cbn [position content set_position].
    rewrite Hdata, <- Hpre. unfold len. rewrite Nat2Z.id, drop_app_length.
    rewrite <- !app_assoc. done. }
  destruct (bgzf_metaheader_ok h0 meta_raw meta _ Hp0 A0 Hmeta Hchk) as [E1 A1].
  set (h1 := set_position (position h0 + 16) h0) in *.
  assert (Hp1 : 0 ≤ position h1) by (cbn; lia).
  destruct (handle_read_ahead h1 (le_encode 2 BSIZE) _ Hp1 A1) as [E2 A2].
  unfold len in E2, A2. rewrite length_le_encode in E2, A2.
  change (Z.of_nat 2) with 2 in *.
  set (h2 := set_position (position h1 + 2) h1) in *.
  unfold mbind, py_bind. rewrite E1, E2. unfold lift.
  rewrite unpack_H_encode by done.
  unfold handle_read.
  destruct (Z.ltb_spec (BSIZE - 5) (-1)); [unfold len in Htail; lia|].
  destruct (Z.eqb_spec (BSIZE - 5) (-1)); [unfold len in Htail; lia|].
  rewrite A2. cbn [fst mret py_ret].
  replace (Z.to_nat (BSIZE - 5)) with (length tail + 12)%nat
    by (unfold len in Htail; lia).
  rewrite take_app_add. rewrite <- !app_assoc. done.
Qed.

(** ** The writer *)

Lemma py_slice_0 {A} (l : list A) n :
  0 ≤ n → py_slice l 0 n = take (Z.to_nat n) l.
Proof.
  intros Hn. unfold py_slice, slice_index, len.
  change (0 <? 0) with false. cbn iota.
  destruct (Z.ltb_spec n 0); [lia|].
  replace (Z.to_nat (0 `max` (Z.of_nat (length l) `min` 0))) with 0%nat by lia.
  rewrite drop_0.
  destruct (Z.le_ge_cases n (Z.of_nat (length l))).
  - f_equal. lia.
  - rewrite !take_ge by lia. done.
Qed.

Lemma py_slice_from_nonneg {A} (l : list A) n :
  0 ≤ n → py_slice_from l n = drop (Z.to_nat n) l.
Proof.
  intros Hn. unfold py_slice_from, slice_index, len.
  destruct (Z.ltb_spec n 0); [lia|].
  destruct (Z.le_ge_cases n (Z.of_nat (length l))).
  - f_equal. lia.
  - rewrite !drop_ge by lia. done.
Qed.

Section WriterFacts.
Context `{Zlib}.

Lemma write_block_outcome block (w : BgzfWriter) :
  appending w →
  (_write_block block w
     = (Ok tt,
        mkWriter (mkHandle (name (w_handle w))
                    (content (w_handle w) ++ bgzf_block (compresslevel w) block)
                    (len (content (w_handle w) ++ bgzf_block (compresslevel w) block)))
          (w_buffer w) (compresslevel w))
   ∧ len block ≤ 65536
   ∧ len (zlib_compress (compresslevel w) block) ≤ 65510
   ∧ - 2 ^ 31 ≤ zlib_crc32 block < 2 ^ 32)
  ∨ ∃ e, _write_block block w = (Raise e, w).
Proof.
  intros Happ. unfold appending in Happ.
  destruct (write_block_cases block w) as [Hfits Hnot]. cbv zeta in *.
  destruct (decide (len block ≤ 65536
                    ∧ len (zlib_compress (compresslevel w) block) ≤ 65510
                    ∧ - 2 ^ 31 ≤ zlib_crc32 block < 2 ^ 32)) as [Hyes|Hno].
  - left. destruct (Hfits Hyes) as [-> _].
    rewrite handle_write_append by done. split; [done | done].
  - right. auto.
Qed.

Lemma piece_drop size (data : bytes) i :
  piece size (drop size data) i = piece size data (S i).
Proof. unfold piece. rewrite drop_drop. done. Qed.

(** The loop of [write] and [flush]. *)
Lemma write_blocks_outcome fuel chunk (w : BgzfWriter) r w' :
  0 < chunk ≤ 65536 → appending w → (length (w_buffer w) ≤ fuel)%nat →
  Writer.write_blocks fuel chunk w = (r, w') →
  ∃ k,
    w_buffer w' = drop (k * Z.to_nat chunk) (w_buffer w)
    ∧ (k * Z.to_nat chunk ≤ length (w_buffer w))%nat
    ∧ content (w_handle w')
      = content (w_handle w)
          ++ concat ((λ i, bgzf_block (compresslevel w)
                             (piece (Z.to_nat chunk) (w_buffer w) i)) <$> seq 0 k)
    ∧ appending w' ∧ compresslevel w' = compresslevel w
    ∧ name (w_handle w') = name (w_handle w)
    ∧ (r = Ok tt → len (w_buffer w') < 65536)
    ∧ (len (w_buffer w) < 65536 → r = Ok tt ∧ k = 0%nat).
Proof.
  intros Hchunk. revert w. induction fuel as [|fuel IH]; intros w Happ Hfuel.
  - cbn. intros [= <- <-]. exists 0%nat. cbn. rewrite app_nil_r.
    unfold len. repeat split; try done; lia.
  - cbn [Writer.write_blocks]. unfold mbind, py_bind, get, modify. cbn beta iota.
    destruct (Z.leb_spec 65536 (len (w_buffer w))) as [Hbig|Hsmall].
    + rewrite py_slice_0, py_slice_from_nonneg by lia.
      destruct (write_block_outcome (take (Z.to_nat chunk) (w_buffer w)) w Happ)
        as [[-> _]|[e ->]].
      * set (w1 := Writer.set_w_buffer _ _).
        intros Hrun. apply IH in Hrun as (k & Hbuf & Hle & Hcontent & Happ' & Hlvl
                                            & Hname & Hok & _).
        -- exists (S k). cbn [w1 Writer.set_w_buffer w_buffer w_handle content
                              compresslevel name] in *.
           rewrite drop_drop in Hbuf. rewrite length_drop in Hle.
           repeat split; try done; try (unfold len in *; lia).
           ++ rewrite Hcontent. cbn [seq fmap list_fmap concat].
              rewrite <- app_assoc. f_equal. f_equal.
              rewrite <- seq_shift, <- list_fmap_compose.
              f_equal. apply list_fmap_ext. intros _ i _. cbn.
              rewrite piece_drop. done.
        -- done.
        -- cbn. rewrite length_drop. unfold len in Hbig. lia.
      * intros [= <- <-]. exists 0%nat. cbn. rewrite app_nil_r.
        repeat split; try done; try lia.
    + cbn. intros [= <- <-]. exists 0%nat. cbn. rewrite app_nil_r.
      repeat split; try done; lia.
Qed.

(** X7: [write] cuts the buffered bytes and the new ones into blocks of 65536
    bytes, in order, and keeps the rest: whether it returns or raises, the
    file has grown by the blocks of the first [k] pieces and the buffer holds
    everything after them, so no byte is lost or written twice.  When it
    returns, fewer than 65536 bytes are left in the buffer; a [write] that
    stays below 65536 buffered bytes writes nothing to the file. *)
Theorem write_splits_into_blocks data (w : BgzfWriter) r w' :
  appending w → Writer.write data w = (r, w') →
  let all := w_buffer w ++ data in
  ∃ k : nat,
    w_buffer w' = drop (k * Z.to_nat 65536) all
    ∧ content (w_handle w')
      = content (w_handle w)
          ++ concat ((λ i, bgzf_block (compresslevel w)
                             (piece (Z.to_nat 65536) all i)) <$> seq 0 k)
    ∧ (r = Ok tt → len (w_buffer w') < 65536 ∧ Z.of_nat k = len all / 65536)
    ∧ (len all < 65536 → r = Ok tt ∧ k = 0%nat).
Proof.
  intros Happ. unfold Writer.write, mbind, py_bind, get, modify. cbn beta iota zeta.
  assert (Hlen : len (w_buffer w ++ data) = len (w_buffer w) + len data).
  { unfold len. rewrite length_app. lia. }
  destruct (Z.ltb_spec (len (w_buffer w) + len data) 65536) as [Hsmall|Hbig].
  - intros [= <- <-]. exists 0%nat. cbn. rewrite app_nil_r.
    repeat split; try done; try lia.
    symmetry. apply Z.div_small. unfold len in *. lia.
  - set (w1 := Writer.set_w_buffer (w_buffer w ++ data) w).
    intros Hrun.
    apply (write_blocks_outcome _ 65536 w1) in Hrun
      as (k & Hbuf & Hle & Hcontent & _ & _ & _ & Hok & Hnone);
      [|lia|done|done].
    exists k. cbn [w1 Writer.set_w_buffer w_buffer w_handle compresslevel] in *.
    split; [done|]. split; [done|]. split; [|lia].
    intros ->. specialize (Hok eq_refl). split; [done|].
    rewrite Hbuf in Hok. unfold len in Hok. rewrite length_drop in Hok.
    apply (Z.div_unique_pos _ _ _
             (len (w_buffer w ++ data) - Z.of_nat k * 65536));
      unfold len in *; lia.
Qed.

Lemma flush_outcome (w : BgzfWriter) r w' :
  appending w → Writer.flush w = (r, w') →
  appending w' ∧ name (w_handle w') = name (w_handle w)
  ∧ (∃ body, content (w_handle w') = content (w_handle w) ++ body)
  ∧ (r = Ok tt → w_buffer w' = [])
  ∧ (len (w_buffer w) < 65536 →
     (r = Ok tt
      ∧ content (w_handle w')
        = content (w_handle w) ++ bgzf_block (compresslevel w) (w_buffer w)
      ∧ len (zlib_compress (compresslevel w) (w_buffer w)) ≤ 65510
      ∧ - 2 ^ 31 ≤ zlib_crc32 (w_buffer w) < 2 ^ 32)
     ∨ (∃ e, r = Raise e) ∧ w' = w).
Proof.
  intros Happ. unfold Writer.flush, mbind, py_bind, get, modify. cbn beta iota.
  destruct (Writer.write_blocks _ 65535 w) as [r1 w1] eqn:Hloop.
  apply write_blocks_outcome in Hloop
    as (k & Hbuf & Hle & Hcontent & Happ1 & Hlvl & Hname & Hok & Hnone);
    [|lia|done|done].
  destruct r1 as [[]|e].
  - destruct (write_block_outcome (w_buffer w1) w1 Happ1)
      as [[-> (_ & Hfit1 & Hfit2)]|[e ->]].
    + cbn. intros [= <- <-]. cbn. unfold appending. cbn.
      repeat split; try done.
      * rewrite Hcontent, <- app_assoc. eauto.
      * intros Hsmall. left. split; [done|].
        destruct (Hnone Hsmall) as [_ ->]. cbn in *.
        rewrite drop_0 in Hbuf.
        rewrite Hcontent, app_nil_r, Hbuf, Hlvl in *. done.
    + intros [= <- <-]. repeat split; try done.
      * rewrite Hcontent. eauto.
      * intros Hsmall. right. split; [eauto|].
        destruct (Hnone Hsmall) as [_ ->]. cbn in *.
        rewrite app_nil_r in Hcontent.
        destruct w as [[n c p] b l], w1 as [[n1 c1 p1] b1 l1].
        unfold appending in *. cbn in *. rewrite drop_0 in Hbuf. congruence.
  - intros [= <- <-]. repeat split; try done.
    + rewrite Hcontent. eauto.
    + intros Hsmall. destruct (Hnone Hsmall) as [[=] _].
Qed.

(** X8: With fewer than 65536 bytes buffered, [flush] writes the buffer as one
    block and empties it, or raises and changes nothing.  The block is written
    for an empty buffer too. *)
Theorem flush_writes_one_block (w : BgzfWriter) :
  appending w → len (w_buffer w) < 65536 →
  (∃ w', Writer.flush w = (Ok tt, w')
         ∧ content (w_handle w')
           = content (w_handle w) ++ bgzf_block (compresslevel w) (w_buffer w)
         ∧ w_buffer w' = [])
  ∨ ∃ e, Writer.flush w = (Raise e, w).
Proof.
  intros Happ Hsmall.
  destruct (Writer.flush w) as [r w'] eqn:Hrun.
  destruct (flush_outcome w r w' Happ Hrun) as (_ & _ & _ & Hbuf & Hone).
  destruct (Hone Hsmall) as [[-> (Hcontent & _)]|[[e ->] ->]].
  - left. exists w'. auto.
  - right. eauto.
Qed.

End WriterFacts.

(** ** The check for the end-of-file marker *)

Section TruncationFacts.
Context `{PyRuntime}.

Lemma check_truncation_outcome h :
  0 ≤ position h →
  _check_truncation h =
    (if len (content h) <? 28 then Raise OSError
     else if bool_decide (drop (length (content h) - 28) (content h) = _bgzf_eof)
          then Ok false
     else if warnings_has_BytesWarning then Ok true
     else Raise AttributeError,
     h).
Proof.
  intros Hp. destruct h as [nm data p]. cbn [position content] in *.
  unfold _check_truncation, mbind, py_bind, handle_tell, handle_seek,
    handle_read_all, handle_read.
  cbn [content position set_position fst snd name].
  destruct (Z.ltb_spec (len data) 28) as [Hshort|Hlong].
  - destruct (Z.ltb_spec (len data + -28) 0); [done | lia].
  - destruct (Z.ltb_spec (len data + -28) 0); [lia|].
    cbn -[_bgzf_eof].
    destruct (Z.ltb_spec p 0); [lia|]. cbn -[_bgzf_eof].
    unfold ahead. cbn [content position set_position name].
    replace (Z.to_nat (len data + -28)) with (length data - 28)%nat
      by (unfold len in *; lia).
    unfold mret, py_ret, raise.
    case_bool_decide; [done|].
    destruct warnings_has_BytesWarning; done.
Qed.

(** X9: [_check_truncation] leaves the file object as it found it, whatever it
    returns or raises, and it returns [False] exactly when the file has at
    least 28 bytes and its last 28 bytes are the marker. *)
Theorem check_truncation_restores_position h r h' :
  0 ≤ position h → _check_truncation h = (r, h') →
  h' = h
  ∧ (r = Ok false
     ↔ 28 ≤ len (content h)
       ∧ drop (length (content h) - 28) (content h) = _bgzf_eof).
Proof.
  intros Hp. rewrite check_truncation_outcome by done.
  intros [= <- <-]. split; [done|].
  destruct (Z.ltb_spec (len (content h)) 28).
  - split; [discriminate | lia].
  - case_bool_decide.
    + split; auto.
    + destruct warnings_has_BytesWarning; (split; [discriminate | tauto]).
Qed.

End TruncationFacts.

Section WriterReader.
Context `{PyRuntime} `{Zlib}.

Lemma ends_with_marker_checks nm (body : bytes) :
  fst (_check_truncation (mkHandle nm (body ++ _bgzf_eof) 0)) = Ok false.
Proof.
  rewrite check_truncation_outcome by done. cbn [fst content].
  assert (Hlen : length (body ++ _bgzf_eof) = (length body + 28)%nat)
    by (rewrite length_app; done).
  destruct (Z.ltb_spec (len (body ++ _bgzf_eof)) 28); [unfold len in *; lia|].
  rewrite bool_decide_true; [done|].
  rewrite Hlen. replace (length body + 28 - 28)%nat with (length body) by lia.
  apply drop_app_length.
Qed.

Lemma close_outcome (w w' : BgzfWriter) :
  appending w → Writer.close w = (Ok tt, w') →
  w_buffer w' = []
  ∧ (∃ body, content (w_handle w') = content (w_handle w) ++ body ++ _bgzf_eof)
  ∧ (len (w_buffer w) < 65536 →
     content (w_handle w')
     = content (w_handle w)
         ++ (if bool_decide (w_buffer w = []) then []
             else bgzf_block (compresslevel w) (w_buffer w))
         ++ _bgzf_eof)
  ∧ fst (_check_truncation
           (mkHandle (name (w_handle w')) (content (w_handle w')) 0)) = Ok false.
Proof.
  intros Happ. unfold Writer.close, mbind, py_bind, get. cbn beta iota.
  assert (Hmain : ∀ (w1 : BgzfWriter) body1,
    appending w1 → content (w_handle w1) = content (w_handle w) ++ body1 →
    on_w_handle (handle_write _bgzf_eof) w1 = (Ok tt, w') →
    w_buffer w' = w_buffer w1
    ∧ content (w_handle w') = content (w_handle w) ++ body1 ++ _bgzf_eof).
  { intros w1 body1 Happ1 Hc1. unfold on_w_handle.
    pose proof (handle_write_append _bgzf_eof (w_handle w1) Happ1) as Hw.
    destruct (handle_write _bgzf_eof (w_handle w1)) as [r1 h1] eqn:Hh.
    cbn [snd] in Hw. subst h1. intros [= _ <-]. cbn -[_bgzf_eof].
    rewrite Hc1, <- app_assoc. done. }
  assert (Hcheck : ∀ body,
    content (w_handle w') = content (w_handle w) ++ body ++ _bgzf_eof →
    fst (_check_truncation
           (mkHandle (name (w_handle w')) (content (w_handle w')) 0)) = Ok false).
  { intros body ->. rewrite !app_assoc. apply ends_with_marker_checks. }
  case_bool_decide as Hempty; cbn [negb].
  - unfold mret, py_ret. intros Hrun.
    destruct (Hmain w [] Happ (eq_sym (app_nil_r _)) Hrun) as [Hbuf Hcontent].
    repeat split; [congruence | eauto | done | by eapply Hcheck].
  - destruct (Writer.flush w) as [r1 w1] eqn:Hflush.
    destruct (flush_outcome w r1 w1 Happ Hflush)
      as (Happ1 & _ & [body Hbody] & Hbuf1 & Hone).
    destruct r1 as [[]|e]; [|discriminate]. intros Hrun.
    destruct (Hmain w1 body Happ1 Hbody Hrun) as [Hbuf Hcontent].
    repeat split; [rewrite Hbuf; auto | eauto | | by eapply Hcheck].
    intros Hsmall. destruct (Hone Hsmall) as [[_ (Hc & _)]|[[e [=]] _]].
    rewrite Hcontent. f_equal. rewrite Hbody in Hc.
    apply app_inv_head in Hc. rewrite Hc. done.
Qed.

(** X10: When [close] returns, the buffer is empty and the file ends with the
    end-of-file marker, after the block of what was buffered (for fewer than
    65536 buffered bytes: one block, and none for an empty buffer); opened
    for reading, the file passes [_check_truncation]. *)
Theorem close_ends_with_marker (w w' : BgzfWriter) :
  appending w → Writer.close w = (Ok tt, w') →
  w_buffer w' = []
  ∧ (∃ body, content (w_handle w') = content (w_handle w) ++ body ++ _bgzf_eof)
  ∧ (len (w_buffer w) < 65536 →
     content (w_handle w')
     = content (w_handle w)
         ++ (if bool_decide (w_buffer w = []) then []
             else bgzf_block (compresslevel w) (w_buffer w))
         ++ _bgzf_eof)
  ∧ fst (_check_truncation
           (mkHandle (name (w_handle w')) (content (w_handle w')) 0)) = Ok false.
Proof. apply close_outcome. Qed.

End WriterReader.

(** ** The cursor stays inside the payload *)

Section CursorInvariant.
Context `{Zlib} `{BlockCache C}.
Implicit Type self : BgzfReader C.

Lemma load_block_cursor_ok o self r self' :
  cursor_ok self → _load_block o self = (r, self') → cursor_ok self'.
Proof.
  intros Hok. unfold cursor_ok in *.
  unfold _load_block, mbind, py_bind, get, mret, py_ret, modify, raise.
  cbn beta iota.
  assert (Hzero : ∀ b : bytes, 0 ≤ 0 ≤ len b) by (intros; unfold len; lia).
  destruct o as [s|];
    [|destruct (_block_start_offset self) as [s0|];
      [destruct (_block_raw_length self) as [l0|]|]];
    cbn beta iota; try (intros [= <- <-]; done).
  all: match goal with
       | |- context [bool_decide (Some ?s = _)] => set (start := s)
       end.
  all: case_bool_decide; [intros [= <- <-]; cbn; done|].
  all: destruct (cache_contains start (_buffers self));
    [destruct (cache_getitem start (_buffers self)) as [[[buffer raw]|] buffers];
     cbn; intros [= <- <-]; cbn; done|].
  all: unfold on_handle, handle_seek, handle_tell, try_except.
  all: destruct (Z.ltb_spec start 0); cbn; [intros [= <- <-]; done|].
  all: destruct (_load_bgzf_block _) as [[[bs buf]|e] h'] eqn:Hload; cbn;
    [intros [= <- <-]; cbn; done|].
  all: destruct (is_StopIteration e); cbn; intros [= <- <-]; cbn; done.
Qed.

Lemma seek_cursor_ok vo self r self' :
  cursor_ok self → seek vo self = (r, self') → cursor_ok self'.
Proof.
  intros Hok. rewrite seek_unfold.
  destruct (seek_load vo self) as [r1 loaded] eqn:Hload.
  assert (Hloaded : cursor_ok loaded).
  { unfold seek_load in Hload. case_bool_decide.
    - by eapply load_block_cursor_ok.
    - by injection Hload as <- <-. }
  destruct r1 as [[]|e]; [|by intros [= <- <-]].
  cbv zeta. destruct (Z.ltb_spec (len (_buffer loaded))
                        (Z.lxor vo (Z.shiftl (Z.shiftr vo 16) 16))).
  - by intros [= <- <-].
  - intros [= <- <-]. unfold cursor_ok. cbn.
    pose proof (within_block_range vo). lia.
Qed.

Lemma read_cursor_ok depth size self r self' :
  cursor_ok self → read depth size self = (r, self') → cursor_ok self'.
Proof.
  revert size self r self'. induction depth as [|depth IH];
    intros size self r self' Hok.
  - cbn. by intros [= <- <-].
  - cbn [read]. destruct (Z.ltb_spec size 0); [by intros [= <- <-]|].
    destruct (Z.eqb_spec size 0); [by intros [= <- <-]|].
    unfold mbind, py_bind, get, modify, mret, py_ret. cbn beta iota zeta.
    destruct (Z.leb_spec (_within_block_offset self + size) (len (_buffer self)))
      as [Hfit|Hmore].
    + assert (Hnew : cursor_ok (set_within_block_offset
                                  (_within_block_offset self + size) self)).
      { unfold cursor_ok in *. cbn. lia. }
      unfold py_assert. destruct (negb _); cbn; by intros [= <- <-].
    + destruct (_load_block None self) as [r1 self1] eqn:Hload.
      apply load_block_cursor_ok in Hload; [|done].
      destruct r1 as [[]|e]; [|by intros [= <- <-]].
      case_bool_decide; [by intros [= <- <-]|].
      destruct (size - _ =? 0); cbn; [by intros [= <- <-]|].
      destruct (read depth _ self1) as [r2 self2] eqn:Hrec.
      apply IH in Hrec; [|done].
      destruct r2; by intros [= <- <-].
Qed.

(** X11: The within-block offset never leaves the current payload: if it is
    between 0 and the length of the payload, it still is after
    [_load_block], [seek] and [read], whether they return or raise. *)
Theorem cursor_stays_in_payload self :
  cursor_ok self →
  (∀ start_offset r self',
     _load_block start_offset self = (r, self') → cursor_ok self')
  ∧ (∀ virtual_offset r self',
       seek virtual_offset self = (r, self') → cursor_ok self')
  ∧ (∀ depth size r self',
       read depth size self = (r, self') → cursor_ok self').
Proof.
  intros Hok. split; [|split]; intros.
  - by eapply load_block_cursor_ok.
  - by eapply seek_cursor_ok.
  - by eapply read_cursor_ok.
Qed.

End CursorInvariant.

(** ** Loading a block *)

Section LoadFacts.
Context `{Zlib} `{BlockCache C}.
Implicit Type self : BgzfReader C.

Lemma load_block_Ok_within o self self' :
  _load_block o self = (Ok tt, self') → _within_block_offset self' = 0.
Proof.
  unfold _load_block, mbind, py_bind, get, mret, py_ret, modify, raise.
  cbn beta iota.
  destruct o as [s|];
    [|destruct (_block_start_offset self) as [s0|];
      [destruct (_block_raw_length self) as [l0|]|]];
    cbn beta iota; try discriminate.
  all: match goal with
       | |- context [bool_decide (Some ?s = _)] => set (start := s)
       end.
  all: case_bool_decide; [intros [= <-]; cbn; done|].
  all: destruct (cache_contains start (_buffers self));
    [destruct (cache_getitem start (_buffers self)) as [[[buffer raw]|] buffers];
     cbn; intros [= <-]; cbn; done|].
  all: unfold on_handle, handle_seek, handle_tell, try_except.
  all: destruct (Z.ltb_spec start 0); cbn; [discriminate|].
  all: destruct (_load_bgzf_block _) as [[[bs buf]|e] h'] eqn:Hload; cbn;
    [intros [= <-]; cbn; done|].
  all: destruct (is_StopIteration e); cbn; [|discriminate].
  all: intros [= <-]; done.
Qed.

(** The path of [_load_block] through the file. *)
Lemma load_block_from_file start self n data h' :
  Some start ≠ _block_start_offset self →
  cache_contains start (_buffers self) = false →
  0 ≤ start →
  _load_bgzf_block (set_position start (_handle self)) = (Ok (n, data), h') →
  _load_block (Some start) self
    = (Ok tt,
       mkReader h' (cache_setitem start (data, n) (_buffers self)) (_text self)
         data (Some start) (Some n) 0 (_random_access self) (_check_idx self)
         (_index self) (_header self) (ref2tid self)).
Proof.
  intros Hcur Hcache Hstart Hblock.
  unfold _load_block, mbind, py_bind, get, mret, py_ret, modify.
  cbn beta iota. rewrite bool_decide_false by done. rewrite Hcache.
  unfold on_handle, handle_seek, handle_tell, try_except.
  destruct (Z.ltb_spec start 0); [lia|]. cbn. rewrite Hblock. cbn. done.
Qed.

Lemma load_block_None self s l :
  _block_start_offset self = Some s → _block_raw_length self = Some l →
  _load_block None self = _load_block (Some (s + l)) self.
Proof.
  intros Hs Hl. unfold _load_block, mbind, py_bind, get, mret, py_ret.
  cbn beta iota. rewrite Hs, Hl. done.
Qed.

(** X12: When the block that follows the current one is not in the cache and the
    decoder returns [(n, data)] for it, [_load_block()] makes it the current
    block: the payload is [data], the raw length [n], the offset within the
    block 0, and the block is put into the cache under its offset. *)
Theorem load_block_advances self s l n data h' :
  _block_start_offset self = Some s → _block_raw_length self = Some l →
  0 ≤ s → 0 < l →
  cache_contains (s + l) (_buffers self) = false →
  _load_bgzf_block (set_position (s + l) (_handle self)) = (Ok (n, data), h') →
  ∃ self',
    _load_block None self = (Ok tt, self')
    ∧ _block_start_offset self' = Some (s + l)
    ∧ _block_raw_length self' = Some n
    ∧ _buffer self' = data
    ∧ _within_block_offset self' = 0
    ∧ _buffers self' = cache_setitem (s + l) (data, n) (_buffers self)
    ∧ _handle self' = h'.
Proof.
  intros Hs Hl Hs0 Hl0 Hcache Hblock.
  rewrite (load_block_None self s l) by done.
  rewrite (load_block_from_file (s + l) self n data h');
    [|rewrite Hs; intros [=]; lia|done|lia|done].
  eexists. split; [reflexivity|]. cbn. done.
Qed.

(** X13: A block that is in the cache is made current without a look at the
    file: [_load_block] returns with the file object untouched.  The payload
    and the raw length are the cached ones; when the lookup gives nothing, the
    old payload is kept under the new offset. *)
Theorem load_block_cache_hit start self hit buffers :
  Some start ≠ _block_start_offset self →
  cache_contains start (_buffers self) = true →
  cache_getitem start (_buffers self) = (hit, buffers) →
  ∃ self',
    _load_block (Some start) self = (Ok tt, self')
    ∧ _handle self' = _handle self
    ∧ _buffers self' = buffers
    ∧ _block_start_offset self' = Some start
    ∧ _within_block_offset self' = 0
    ∧ match hit with
      | Some (buffer, raw_length) =>
          _buffer self' = buffer ∧ _block_raw_length self' = Some raw_length
      | None =>
          _buffer self' = _buffer self
          ∧ _block_raw_length self' = _block_raw_length self
      end.
Proof.
  intros Hcur Hin Hget.
  unfold _load_block, mbind, py_bind, get, mret, py_ret, modify.
  cbn beta iota. rewrite bool_decide_false by done. rewrite Hin, Hget.
  destruct hit as [[buffer raw]|]; cbn; eexists; (split; [reflexivity|]); done.
Qed.

End LoadFacts.

(** ** Reading *)

Lemma py_slice_in_range {A} (l : list A) lo hi :
  0 ≤ lo ≤ hi → hi ≤ len l →
  py_slice l lo hi = take (Z.to_nat (hi - lo)) (drop (Z.to_nat lo) l).
Proof.
  intros Hlo Hhi. unfold py_slice, slice_index.
  destruct (Z.ltb_spec lo 0); [lia|]. destruct (Z.ltb_spec hi 0); [lia|].
  f_equal; [|f_equal]; lia.
Qed.

Section ReadFacts.
Context `{Zlib} `{BlockCache C}.
Implicit Type self : BgzfReader C.

Lemma read_within depth size self :
  0 < size → 0 ≤ _within_block_offset self →
  _within_block_offset self + size ≤ len (_buffer self) →
  read (S depth) size self
    = (Ok (take (Z.to_nat size)
             (drop (Z.to_nat (_within_block_offset self)) (_buffer self))),
       set_within_block_offset (_within_block_offset self + size) self).
Proof.
  intros Hsize Hw Hfit. cbn [read].
  destruct (Z.ltb_spec size 0); [lia|]. destruct (Z.eqb_spec size 0); [lia|].
  unfold mbind, py_bind, get, modify, mret, py_ret. cbn beta iota zeta.
  destruct (Z.leb_spec (_within_block_offset self + size) (len (_buffer self)));
    [|lia].
  rewrite py_slice_in_range by lia.
  replace (_within_block_offset self + size - _within_block_offset self)
    with size by lia.
  unfold py_assert. rewrite bool_decide_false; [done|].
  intros Hnil. apply (f_equal length) in Hnil.
  rewrite length_take, length_drop in Hnil. unfold len in *. cbn in Hnil. lia.
Qed.

Lemma read_across depth size self next :
  0 < size → cursor_ok self →
  len (_buffer self) < _within_block_offset self + size →
  _load_block None self = (Ok tt, next) →
  let tail := drop (Z.to_nat (_within_block_offset self)) (_buffer self) in
  read (S depth) size self =
    if bool_decide (_buffer next = []) then (Ok tail, next)
    else
      let '(r, self') := read depth (size - len tail) next in
      (match r with Ok rest => Ok (tail ++ rest) | Raise e => Raise e end, self').
Proof.
  intros Hsize [Hw Hle] Hmore Hload. cbn [read].
  destruct (Z.ltb_spec size 0); [lia|]. destruct (Z.eqb_spec size 0); [lia|].
  unfold mbind, py_bind, get, modify, mret, py_ret. cbn beta iota zeta.
  destruct (Z.leb_spec (_within_block_offset self + size) (len (_buffer self)));
    [lia|].
  rewrite Hload, py_slice_from_nonneg by done.
  case_bool_decide; [done|].
  destruct (Z.eqb_spec (size - len (drop (Z.to_nat (_within_block_offset self))
                                      (_buffer self))) 0) as [Hzero|_].
  - unfold len in *. rewrite length_drop in Hzero. lia.
  - cbn. destruct (read depth _ next) as [[rest|e] self']; done.
Qed.

(** X14: A [read] that the current payload can serve returns the next [size]
    bytes of the payload and moves the offset within the block by [size];
    the file and the cache are not touched and no block is loaded, also when
    the offset reaches the end of the payload. *)
Theorem read_within_block depth size self :
  0 < size → 0 ≤ _within_block_offset self →
  _within_block_offset self + size ≤ len (_buffer self) →
  ∃ data,
    read (S depth) size self
      = (Ok data,
         set_within_block_offset (_within_block_offset self + size) self)
    ∧ len data = size
    ∧ data = take (Z.to_nat size)
               (drop (Z.to_nat (_within_block_offset self)) (_buffer self)).
Proof.
  intros Hsize Hw Hfit. eexists. split; [by apply read_within|]. split; [|done].
  unfold len in *. rewrite length_take, length_drop. lia.
Qed.

(** X15: A [read] of more than the current payload has left loads the following
    block.  When that block is empty, as the end-of-file marker is, [read]
    returns what was left of the payload, which may be nothing; otherwise it
    returns what was left followed by the first bytes of the new payload, and
    the cursor stands behind them in the new block. *)
Theorem read_across_boundary depth size self next :
  0 < size → cursor_ok self →
  len (_buffer self) < _within_block_offset self + size →
  _load_block None self = (Ok tt, next) →
  let tail := drop (Z.to_nat (_within_block_offset self)) (_buffer self) in
  let more := size - len tail in
  (_buffer next = [] → read (S depth) size self = (Ok tail, next))
  ∧ (_buffer next ≠ [] → more ≤ len (_buffer next) →
     read (S (S depth)) size self
       = (Ok (tail ++ take (Z.to_nat more) (_buffer next)),
          set_within_block_offset more next)).
Proof.
  intros Hsize Hok Hmore Hload tail more.
  pose proof (load_block_Ok_within _ _ _ Hload) as Hzero.
  split.
  - intros Hnil. rewrite (read_across depth size self next) by done.
    rewrite bool_decide_true by done. done.
  - intros Hdata Hfit. rewrite (read_across (S depth) size self next) by done.
    rewrite bool_decide_false by done. cbv zeta. fold tail. fold more.
    assert (0 < more).
    { unfold more, tail, len. rewrite length_drop.
      destruct Hok as [Hw Hle]. unfold len in *. lia. }
    rewrite read_within by (rewrite ?Hzero; lia).
    rewrite Hzero. cbn. done.
Qed.

(** X16: [seek] to an offset in the current block loads nothing: the file and the
    cache stay as they are.  It moves the cursor to the low 16 bits of the
    virtual offset, or raises [ValueError] when these exceed the length of the
    payload, and then changes nothing. *)
Theorem seek_in_current_block vo self :
  _block_start_offset self = Some (Z.shiftr vo 16) →
  seek vo self =
    if len (_buffer self) <? Z.land vo 65535 then
      (Raise (ValueError "Within offset %i but block size only %i"), self)
    else (Ok vo, set_within_block_offset (Z.land vo 65535) self).
Proof.
  intros Hcur. rewrite seek_unfold. unfold seek_load.
  rewrite bool_decide_false by (intros Hne; by apply Hne).
  cbv zeta. rewrite within_block_land. done.
Qed.

(** X17: Random access: after a [seek] that returns, the block of the virtual
    offset is the current one and the offset within it is the low 16 bits of
    the virtual offset; a [read] that the payload can serve returns the bytes
    of the payload from this offset on. *)
Theorem seek_then_read vo self v sought depth size :
  seek vo self = (Ok v, sought) →
  0 < size → Z.land vo 65535 + size ≤ len (_buffer sought) →
  v = vo
  ∧ _block_start_offset sought = Some (Z.shiftr vo 16)
  ∧ _within_block_offset sought = Z.land vo 65535
  ∧ read (S depth) size sought
    = (Ok (take (Z.to_nat size)
             (drop (Z.to_nat (Z.land vo 65535)) (_buffer sought))),
       set_within_block_offset (Z.land vo 65535 + size) sought).
Proof.
  rewrite seek_unfold.
  destruct (seek_load vo self) as [[[]|e] loaded] eqn:Hload; [|discriminate].
  apply seek_load_Ok_start in Hload. cbv zeta.
  rewrite within_block_land. change (Z.ones 16) with 65535.
  destruct (_ <? _); [discriminate|]. intros [= <- <-] Hsize Hfit.
  assert (Hu : 0 ≤ Z.land vo 65535).
  { change 65535 with (Z.ones 16). rewrite Z.land_ones by lia.
    apply Z.mod_pos_bound. lia. }
  repeat split; try done.
  rewrite read_within by (cbn in *; lia). done.
Qed.

End ReadFacts.

(** ** From the writer to the reader *)

Section RoundTrip.
Context `{Zlib} `{BlockCache C}.
Implicit Type self : BgzfReader C.

Lemma decode_written_block level block h rest :
  0 ≤ position h → ahead h = bgzf_block level block ++ rest →
  len block ≤ 65536 → len (zlib_compress level block) ≤ 65510 →
  - 2 ^ 31 ≤ zlib_crc32 block < 2 ^ 32 →
  zlib_decompress (zlib_compress level block) = Some block →
  fst (_load_bgzf_block h) = Ok (len (bgzf_block level block), block).
Proof.
  intros Hp Hahead Hb Hc Hcrc Hz.
  destruct (land_ones_32 _ Hcrc) as [Hland Hrange].
  assert (Hlen : len (bgzf_block level block)
                  = len (zlib_compress level block) + 25 + 1).
  { unfold bgzf_block, len. rewrite !length_app, !length_le_encode. simpl. lia. }
  rewrite Hlen.
  rewrite (load_bgzf_block_layout h _bgzf_header
             (mkMeta 31 139 8 4 0 0 255 6 66 67 2)
             (len (zlib_compress level block) + 25)
             (zlib_compress level block) block
             (Z.land (zlib_crc32 block) 4294967295) (len block) rest);
    try done; try (unfold len in *; simpl; lia).
  - cbv zeta. rewrite <- Hland, !Z.eqb_refl. done.
  - rewrite Hahead. unfold bgzf_block. rewrite <- !app_assoc. done.
Qed.

(** X18: What one [write] of fewer than 65536 bytes and a [close] put into a new
    file, a reader gets back: the first block loads, its raw length is the
    length of the file without the 28 bytes of the marker, and a [read] of
    the length of the data returns the data. *)
Theorem write_close_then_read nm level data (w1 w2 : BgzfWriter) self depth :
  0 < len data < 65536 →
  zlib_decompress (zlib_compress level data) = Some data →
  Writer.write data (mkWriter (mkHandle nm [] 0) [] level) = (Ok tt, w1) →
  Writer.close w1 = (Ok tt, w2) →
  content (_handle self) = content (w_handle w2) →
  _block_start_offset self = None →
  cache_contains 0 (_buffers self) = false →
  ∃ loaded,
    _load_block (Some 0) self = (Ok tt, loaded)
    ∧ _block_raw_length loaded = Some (len (content (w_handle w2)) - 28)
    ∧ read (S depth) (len data) loaded
      = (Ok data, set_within_block_offset (len data) loaded).
Proof.
  intros Hlen Hz Hwrite Hclose Hfile Hstart Hcache.
  (* the write only fills the buffer *)
  unfold Writer.write, mbind, py_bind, get, modify in Hwrite.
  cbn beta iota zeta in Hwrite. cbn [w_buffer app] in Hwrite.
  change (len (@nil byte)) with 0 in Hwrite.
  destruct (Z.ltb_spec (0 + len data) 65536); [|lia].
  injection Hwrite as <-.
  set (w1 := Writer.set_w_buffer data _) in *.
  assert (Happ : appending w1) by done.
  (* the close writes one block and the marker *)
  unfold Writer.close, mbind, py_bind, get in Hclose. cbn beta iota in Hclose.
  rewrite bool_decide_false in Hclose
    by (cbn; intros ->; unfold len in Hlen; cbn in Hlen; lia).
  cbn [negb] in Hclose.
  destruct (Writer.flush w1) as [r f] eqn:Hflush.
  destruct (flush_outcome w1 r f Happ Hflush) as (Happf & _ & _ & _ & Hone).
  destruct Hone as [(-> & Hcontent & Hfit1 & Hfit2)|[[e ->] _]];
    [cbn; lia| |discriminate].
  cbn [w1 Writer.set_w_buffer w_buffer w_handle content compresslevel app]
    in Hcontent, Hfit1, Hfit2.
  unfold on_w_handle in Hclose.
  pose proof (handle_write_append _bgzf_eof (w_handle f) Happf) as Hw.
  destruct (handle_write _bgzf_eof (w_handle f)) as [r1 h1].
  cbn [snd] in Hw. subst h1. injection Hclose as _ <-.
  cbn [w_handle content] in Hfile |- *. rewrite Hcontent in Hfile |- *.
  (* the reader decodes the block *)
  set (h0 := set_position 0 (_handle self)).
  assert (Hdecode : fst (_load_bgzf_block h0)
                    = Ok (len (bgzf_block level data), data)).
  { apply (decode_written_block level data h0 _bgzf_eof); try done; lia. }
  destruct (_load_bgzf_block h0) as [r0 h'] eqn:Hblock.
  cbn [fst] in Hdecode. subst r0.
  eexists. split; [|split].
  - apply load_block_from_file; try done. rewrite Hstart. done.
  - cbn [_block_raw_length app]. f_equal. unfold len.
    rewrite length_app. change (length _bgzf_eof) with 28%nat. lia.
  - rewrite read_within; cbn; try lia.
    rewrite drop_0. unfold len. rewrite Nat2Z.id, firstn_all. done.
Qed.

End RoundTrip.

(** ** The region query *)

Section QueryMore.
Context `{PyRuntime} `{Zlib} `{BlockCache C} `{!QueryParsers C}.
Implicit Type self : BgzfReader C.

Lemma fetch_prepare_call c s e until_eof self t nm length roi :
  _random_access self = true → c ≠ EmptyString → s ≠ 0 → e ≠ 0 →
  ref2tid self !! c = Some t → t ≠ -1 →
  refs (_header self) !! t = Some (nm, length) →
  region_parser (RegionTriple (Some c) (Some s) (Some e)) = Ok roi →
  fetch_prepare (mkFetchArgs (Some c) (Some s) (Some e) None None until_eof
                   false None None) self
  = if length <? roi_start roi then
      (Raise (ValueError "Genomic region out of bounds."), self)
    else
      let stop := default length (roi_stop roi) in
      if roi_start roi <=? stop then
        match _index self with
        | Some index =>
            match query index t (Some s) stop with
            | None => (Ok None, self)
            | Some first_read_block =>
                match seek first_read_block self with
                | (Ok _, self') => (Ok (Some (Some c, Some s, stop)), self')
                | (Raise err, self') => (Raise err, self')
                end
            end
        | None => (Raise AttributeError, self)
        end
      else
        (Raise (AssertionError
           "Malformed region: start should be <= stop, you entered {}, {}"), self).
Proof.
  intros Hra Hc Hs He Ht Htid Href Hroi.
  assert (Htruthy : negb (String.eqb c EmptyString) = true)
    by (apply negb_true_iff, String.eqb_neq; done).
  assert (Hs' : negb (s =? 0) = true) by (apply negb_true_iff, Z.eqb_neq; done).
  assert (He' : negb (e =? 0) = true) by (apply negb_true_iff, Z.eqb_neq; done).
  unfold fetch_prepare, mbind, py_bind, get, mret, py_ret, raise, lift,
    try_except, get_tid, refs_getitem, py_assert.
  cbn [arg_contig arg_start arg_stop arg_region arg_tid arg_until_eof
       arg_multiple_iterators arg_reference arg_end truthy_str truthy_int
       andb negb from_option id].
  rewrite Hra, Htruthy, Hs', He'. cbn [andb negb].
  unfold mbind, py_bind, get, mret, py_ret, raise. cbn beta iota.
  rewrite (bool_decide_false (None ≠ None)) by (intros Hn; by apply Hn).
  cbn [andb]. cbn beta iota. cbn [truthy_str]. rewrite Htruthy.
  rewrite (bool_decide_true (None = None)) by done. cbn [andb from_option id].
  cbn beta iota. rewrite Ht. cbn [from_option id].
  destruct (Z.eqb_spec t (-1)); [done|]. cbn beta iota.
  cbn [truthy_int]. rewrite He'. cbn [negb andb]. rewrite Hroi. cbn beta iota.
  cbn [option_bind]. rewrite Href. cbn [snd].
  destruct (length <? roi_start roi); [done|].
  cbn beta iota zeta.
  destruct (roi_start roi <=? default length (roi_stop roi)); [|done].
  cbn beta iota.
  destruct (_index self) as [index|]; [|done]. cbn beta iota.
  cbn [from_option id].
  destruct (query index t (Some s) _) as [vo|]; [|done].
  destruct (seek vo self) as [[v|err] self']; done.
Qed.

(** X19: [fetch(contig, start, stop)] for a contig of the header, by its first
    resumption: a region that starts past the end of the reference raises
    [ValueError], one that starts after its stop raises [AssertionError], and
    for a region without a chunk in the index the generator ends without a
    read.  In all three cases the reader is as it was. *)
Theorem fetch_validates_region c s e until_eof self t nm length roi :
  _random_access self = true → c ≠ EmptyString → s ≠ 0 → e ≠ 0 →
  ref2tid self !! c = Some t → t ≠ -1 →
  refs (_header self) !! t = Some (nm, length) →
  region_parser (RegionTriple (Some c) (Some s) (Some e)) = Ok roi →
  let g := fetch (mkFetchArgs (Some c) (Some s) (Some e) None None until_eof
                    false None None) in
  let stop := default length (roi_stop roi) in
  (length < roi_start roi →
   fetch_next g self
     = (Throw (ValueError "Genomic region out of bounds."), FetchFinished, self))
  ∧ (roi_start roi ≤ length → stop < roi_start roi →
     fetch_next g self
       = (Throw (AssertionError
            "Malformed region: start should be <= stop, you entered {}, {}"),
          FetchFinished, self))
  ∧ (roi_start roi ≤ length → roi_start roi ≤ stop →
     ∀ index, _index self = Some index → query index t (Some s) stop = None →
     fetch_next g self = (Return, FetchFinished, self)).
Proof.
  intros Hra Hc Hs He Ht Htid Href Hroi g stop.
  unfold g, fetch. cbn [fetch_next].
  rewrite (fetch_prepare_call c s e until_eof self t nm length roi) by done.
  cbv zeta. fold stop.
  split; [|split].
  - intros Hout. destruct (Z.ltb_spec length (roi_start roi)); [done|lia].
  - intros Hin Hbad. destruct (Z.ltb_spec length (roi_start roi)); [lia|].
    destruct (Z.leb_spec (roi_start roi) stop); [lia|done].
  - intros Hin Hgood index Hindex Hquery.
    destruct (Z.ltb_spec length (roi_start roi)); [lia|].
    destruct (Z.leb_spec (roi_start roi) stop); [|lia].
    rewrite Hindex, Hquery. done.
Qed.

(** X20: [fetch] for a contig that the header does not have raises [KeyError] at
    its first resumption, whatever [start] and [stop] are, and leaves the
    reader as it was. *)
Theorem fetch_unknown_contig c start stop until_eof self :
  _random_access self = true → c ≠ EmptyString →
  ref2tid self !! c = None →
  fetch_next (fetch (mkFetchArgs (Some c) start stop None None until_eof false
                       None None)) self
  = (Throw (KeyError "{} was not found in the file header"), FetchFinished, self).
Proof.
  intros Hra Hc Ht.
  assert (Htruthy : negb (String.eqb c EmptyString) = true)
    by (apply negb_true_iff, String.eqb_neq; done).
  unfold fetch. cbn [fetch_next].
  unfold fetch_prepare, mbind, py_bind, get, mret, py_ret, raise, lift,
    try_except, get_tid, refs_getitem, py_assert.
  cbn [arg_contig arg_start arg_stop arg_region arg_tid arg_until_eof
       arg_multiple_iterators arg_reference arg_end truthy_str truthy_int
       andb negb from_option id].
  rewrite Hra, Htruthy. cbn [andb negb].
  unfold mbind, py_bind, get, mret, py_ret, raise. cbn beta iota.
  rewrite (bool_decide_false (None ≠ None)) by (intros Hn; by apply Hn).
  cbn [andb]. cbn beta iota. cbn [truthy_str]. rewrite Htruthy.
  rewrite (bool_decide_true (None = None)) by done. cbn [andb from_option id].
  cbn beta iota. rewrite Ht. cbn [from_option id]. done.
Qed.

(** X21: A query by region string alone has no [tid] to look the reference up
    with: when the string parses, the first resumption raises [KeyError],
    whatever the region and whatever [contig], [start] and [stop] are. *)
Theorem fetch_region_string_raises
    contig start stop region until_eof reference end_ self roi :
  _random_access self = true → region ≠ EmptyString →
  region_parser (RegionStr region) = Ok roi →
  fetch_next (fetch (mkFetchArgs contig start stop (Some region) None until_eof
                       false reference end_)) self
  = (Throw (KeyError "{} was not found in the file header"), FetchFinished, self).
Proof.
  intros Hra Hregion Hroi.
  assert (Htruthy : negb (String.eqb region EmptyString) = true)
    by (apply negb_true_iff, String.eqb_neq; done).
  unfold fetch. cbn [fetch_next].
  unfold fetch_prepare, mbind, py_bind, get, mret, py_ret, raise, lift,
    try_except, refs_getitem, py_assert.
  cbn [arg_contig arg_start arg_stop arg_region arg_tid arg_until_eof
       arg_multiple_iterators arg_reference arg_end truthy_str
       andb negb from_option id].
  rewrite Hra, Htruthy. cbn [andb negb]. rewrite Hroi. cbn. done.
Qed.


(** X22: With a contig and a [start] of [None] or [0], [fetch] asks the region
    parser about the contig alone: the [stop] of the call has no effect on
    what the generator does. *)
Theorem fetch_without_start_ignores_stop c start stop stop' until_eof self :
  c ≠ EmptyString → truthy_int start = false →
  fetch_next (fetch (mkFetchArgs (Some c) start stop None None until_eof false
                       None None)) self
  = fetch_next (fetch (mkFetchArgs (Some c) start stop' None None until_eof
                         false None None)) self.
Proof.
  intros Hc Hstart.
  assert (Htruthy : negb (String.eqb c EmptyString) = true)
    by (apply negb_true_iff, String.eqb_neq; done).
  unfold fetch. cbn [fetch_next arg_until_eof]. f_equal.
  unfold fetch_prepare, mbind, py_bind, get, mret, py_ret, raise, lift,
    try_except, get_tid, refs_getitem, py_assert.
  cbn [arg_contig arg_start arg_stop arg_region arg_tid arg_until_eof
       arg_multiple_iterators arg_reference arg_end truthy_str truthy_int
       andb negb from_option id].
  destruct (_random_access self); cbn [negb]; [|done].
  rewrite Htruthy. cbn [andb negb].
  rewrite (bool_decide_false (None ≠ None)) by (intros Hn; by apply Hn).
  cbn beta iota.
  rewrite (bool_decide_true (None = None)) by done. cbn [andb from_option id].
  cbn [truthy_str]. rewrite !Htruthy, !andb_false_r, Hstart.
  cbn [andb negb]. unfold mbind, py_bind, get, mret, py_ret, raise.
  destruct (default (-1) (ref2tid self !! c) =? -1); [done|].
  cbn beta iota. destruct (region_parser (RegionStr c)); done.
Qed.


Lemma fetch_run_suspended fuel contig start stop b self reads ending :
  fetch_run fuel (FetchSuspended contig start stop false b) self
    = (reads, ending) →
  (b = false → reads = [])
  ∧ ∀ i r, reads !! i = Some r →
      nonempty r = true
      ∧ ((S i < length reads)%nat →
         Some (reference_name r) = contig
         ∧ past_the_region start stop (pos r) = Ok false).
Proof.
  revert b self reads ending.
  induction fuel as [|fuel IH]; intros b self reads ending.
  { cbn. intros [= <- <-]. split; [done|]. intros i r Hi. done. }
  cbn [fetch_run fetch_next]. unfold fetch_loop, finished.
  destruct b; cbn [negb]; [|intros [= <- <-]; split; [done|intros i r Hi; done]].
  destruct (__next__ self) as [[next_read|e] self1].
  2: { destruct (is_StopIteration e), pep479;
       intros [= <- <-]; split; try done; intros i r Hi; done. }
  cbn [negb].
  destruct (past_the_region start stop (pos next_read)) as [past|e] eqn:Hpast.
  2: { intros [= <- <-]; split; [done|intros i r Hi; done]. }
  destruct (nonempty next_read) eqn:Hnonempty.
  2: { intros [= <- <-]; split; [done|intros i r Hi; done]. }
  destruct (fetch_run fuel _ self1) as [reads' ending'] eqn:Hrest.
  intros [= <- <-]. apply IH in Hrest as [Hstop Hreads].
  split; [done|]. intros [|i] r Hi; cbn in Hi.
  - injection Hi as <-. split; [done|]. cbn [length]. intros Hmore.
    destruct past.
    + rewrite Hstop in Hmore by done. cbn in Hmore. lia.
    + case_bool_decide as Hname.
      * rewrite Hstop in Hmore by done. cbn in Hmore. lia.
      * split; [|done].
        destruct (decide (Some (reference_name next_read) = contig)) as [|Hne];
          [done|by destruct Hname].
  - destruct (Hreads i r Hi) as [Hne Hin]. split; [done|].
    cbn [length]. intros Hmore. apply Hin. lia.
Qed.

(** X23: The reads of a region query ([until_eof] off): every read that the
    generator yields is a non-empty record, and every yielded read except the
    last one is on the queried contig and not past the region.  So at most
    the last read of a query lies outside of the region. *)
Theorem fetch_reads_in_region
    fuel args self contig start stop ready reads ending :
  arg_until_eof args = false →
  fetch_prepare args self = (Ok (Some (contig, start, stop)), ready) →
  fetch_run fuel (fetch args) self = (reads, ending) →
  ∀ i r, reads !! i = Some r →
    nonempty r = true
    ∧ ((S i < length reads)%nat →
       Some (reference_name r) = contig
       ∧ past_the_region start stop (pos r) = Ok false).
Proof.
  intros Huntil Hprepare Hrun.
  assert (Hsame : fetch_run fuel (fetch args) self
                  = fetch_run fuel (FetchSuspended contig start stop false true)
                      ready).
  { destruct fuel; [done|]. unfold fetch. cbn [fetch_run fetch_next].
    rewrite Hprepare, Huntil. done. }
  rewrite Hsame in Hrun.
  by apply fetch_run_suspended in Hrun as [_ Hreads].
Qed.

Lemma count_loop_fetch_run fuel read_callback c g self :
  callback_supported read_callback = true →
  match fetch_run fuel g self with
  | (reads, Some (Ok _)) =>
      ∃ self', count_loop fuel read_callback c g self
               = Some (Ok (c + len (List.filter (callback_counts read_callback)
                                      reads)), self')
  | (_, Some (Raise e)) =>
      ∃ self', count_loop fuel read_callback c g self = Some (Raise e, self')
  | (_, None) => count_loop fuel read_callback c g self = None
  end.
Proof.
  intros Hsupported. revert c g self.
  induction fuel as [|fuel IH]; intros c g self; [done|].
  cbn [fetch_run count_loop].
  destruct (fetch_next g self) as [[[read| |e] g'] self'].
  - assert (Hstep :
      (if callback_eq read_callback "nofilter"
       then count_loop fuel read_callback (c + 1) g' self'
       else if callback_eq read_callback "all"
       then count_loop fuel read_callback
              (if Z.land (flag read) 0x704 =? 0 then c + 1 else c) g' self'
       else match read_callback with
            | CallbackFunction f =>
                count_loop fuel read_callback
                  (if f read then c + 1 else c) g' self'
            | _ => Some (Raise (RuntimeError
                     "read_callback should be 'all', 'nofilter', or a custom function that returns a boolean"),
                         self')
            end)
      = count_loop fuel read_callback
          (if callback_counts read_callback read then c + 1 else c) g' self').
    { unfold callback_counts. unfold callback_supported in Hsupported.
      destruct (callback_eq read_callback "nofilter"); [done|].
      destruct (callback_eq read_callback "all"); [done|].
      destruct read_callback; done. }
    rewrite Hstep.
    specialize (IH (if callback_counts read_callback read then c + 1 else c)
                  g' self').
    destruct (fetch_run fuel g' self') as [reads [[[]|e]|]]; [|done..].
    destruct IH as [self'' ->]. exists self''. cbn [List.filter].
    destruct (callback_counts read_callback read); unfold len; cbn [length];
      do 3 f_equal; lia.
  - exists self'. unfold len. cbn [List.filter length]. do 3 f_equal. lia.
  - by exists self'.
Qed.

(** X24: [count] is the number of reads of the [fetch] generator that the
    [read_callback] accepts: all of them for ['nofilter'], those without one
    of the flag bits [0x704] for ['all'], those the function accepts
    otherwise; and an exception of the generator is an exception of [count]. *)
Theorem count_is_filtered_fetch
    fuel contig start stop region until_eof tid read_callback reference end_
    self reads ending :
  callback_supported read_callback = true →
  fetch_run fuel (fetch (mkFetchArgs contig start stop region tid until_eof
                           false reference end_)) self
    = (reads, Some ending) →
  ∃ self',
    count fuel contig start stop region until_eof tid read_callback reference
      end_ self
    = Some (match ending with
            | Ok _ => Ok (len (List.filter (callback_counts read_callback) reads))
            | Raise e => Raise e
            end, self').
Proof.
  intros Hsupported Hrun. unfold count.
  pose proof (count_loop_fetch_run fuel read_callback 0
                (fetch (mkFetchArgs contig start stop region tid until_eof
                          false reference end_)) self Hsupported) as Hloop.
  rewrite Hrun in Hloop. destruct ending as [[]|e]; done.
Qed.

End QueryMore.

Section Names.
Context `{PyRuntime} `{Zlib} `{BlockCache C} `{!QueryParsers C}.
Implicit Type self : BgzfReader C.

Lemma make_ref2tid_upto (rs : gmap Z (string * Z)) (n : nat) nm t :
  foldl (λ ref2tid k,
           match rs !! k with
           | Some v => <[v.1 := k]> ref2tid
           | None => ref2tid
           end)
        (∅ : gmap string Z) (seqZ 0 (Z.of_nat n)) !! nm = Some t
  ↔ 0 ≤ t < Z.of_nat n
    ∧ (∃ length, rs !! t = Some (nm, length))
    ∧ ∀ t' v, t < t' < Z.of_nat n → rs !! t' = Some v → v.1 ≠ nm.
Proof.
  induction n as [|n IH].
  { rewrite seqZ_nil by lia. cbn [foldl]. rewrite lookup_empty.
    split; [done|]. lia. }
  replace (Z.of_nat (S n)) with (Z.of_nat n + 1) by lia.
  rewrite seqZ_app by lia. rewrite foldl_app.
  change (seqZ (0 + Z.of_nat n) 1) with [0 + Z.of_nat n]. cbn [foldl].
  rewrite Z.add_0_l.
  destruct (rs !! Z.of_nat n) as [[nm' length']|] eqn:Hn.
  - cbn [fst]. destruct (decide (nm' = nm)) as [->|Hne].
    + rewrite lookup_insert_eq. split.
      * intros [= <-]. split; [lia|]. split; [by eexists|]. intros; lia.
      * intros (Hrange & [length Ht] & Hlast).
        destruct (decide (t = Z.of_nat n)) as [->|Hother]; [done|].
        exfalso. apply (Hlast (Z.of_nat n) (nm, length')); [lia|done..].
    + rewrite lookup_insert_ne by done. rewrite IH. split.
      * intros (Hrange & Hname & Hlast). split; [lia|]. split; [done|].
        intros t' v Ht' Hv.
        destruct (decide (t' = Z.of_nat n)) as [->|Hother].
        -- rewrite Hn in Hv. injection Hv as <-. done.
        -- apply (Hlast t' v); [lia|done].
      * intros (Hrange & [length Ht] & Hlast).
        assert (t ≠ Z.of_nat n) by (intros ->; congruence).
        split; [lia|]. split; [by eexists|].
        intros t' v Ht' Hv. apply (Hlast t' v); [lia|done].
  - rewrite IH. split.
    + intros (Hrange & Hname & Hlast). split; [lia|]. split; [done|].
      intros t' v Ht' Hv.
      destruct (decide (t' = Z.of_nat n)) as [->|Hother]; [congruence|].
      apply (Hlast t' v); [lia|done].
    + intros (Hrange & [length Ht] & Hlast).
      assert (t ≠ Z.of_nat n) by (intros ->; congruence).
      split; [lia|]. split; [by eexists|].
      intros t' v Ht' Hv. apply (Hlast t' v); [lia|done].
Qed.

Lemma make_ref2tid_lookup header nm t :
  make_ref2tid header !! nm = Some t
  ↔ 0 ≤ t < n_refs header
    ∧ (∃ length, refs header !! t = Some (nm, length))
    ∧ ∀ t' v, t < t' < n_refs header → refs header !! t' = Some v → v.1 ≠ nm.
Proof.
  unfold make_ref2tid. destruct (Z.le_gt_cases 0 (n_refs header)) as [Hn|Hn].
  - rewrite <- (Z2Nat.id (n_refs header)) by done. apply make_ref2tid_upto.
  - rewrite seqZ_nil by lia. cbn [foldl]. rewrite lookup_empty.
    split; [done|]. lia.
Qed.

(** X25: For a reader whose [ref2tid] is the one that [__init__] builds from the
    header: the id that [get_tid] gives for a name is an id of the header
    whose reference has this name, so [get_reference_name] takes it back to
    the name; and it is the last such id when several references share the
    name. *)
Theorem get_tid_then_get_reference_name self nm t self' :
  ref2tid self = make_ref2tid (_header self) →
  get_tid nm self = (Ok t, self') →
  self' = self
  ∧ 0 ≤ t < n_refs (_header self)
  ∧ is_valid_tid t self = true
  ∧ get_reference_name t self = (Ok nm, self)
  ∧ ∀ t' nm', t < t' < n_refs (_header self) →
      get_reference_name t' self = (Ok nm', self) → nm' ≠ nm.
Proof.
  intros Hinit. unfold get_tid, get_reference_name, is_valid_tid, mbind,
    py_bind, get, mret, py_ret, raise.
  destruct (ref2tid self !! nm) as [t0|] eqn:Hlookup; cbn [from_option id];
    [|done].
  destruct (Z.eqb_spec t0 (-1)); [done|]. intros [= -> <-].
  rewrite Hinit in Hlookup.
  apply make_ref2tid_lookup in Hlookup as (Hrange & [length Ht] & Hlast).
  split; [done|]. split; [done|]. rewrite Ht. cbn [fst].
  split; [by apply bool_decide_eq_true|]. split; [done|].
  intros t' nm' Ht'.
  destruct (refs (_header self) !! t') as [v|] eqn:Hv; [|done].
  intros [= <-]. by apply (Hlast t' v).
Qed.

(** X26: The other way round: for a reference of the header that is the last of
    its name, [get_tid] of the name that [get_reference_name] gives is the
    id again. *)
Theorem get_reference_name_then_get_tid self t nm self' :
  ref2tid self = make_ref2tid (_header self) →
  0 ≤ t < n_refs (_header self) →
  (∀ t' v, t < t' < n_refs (_header self) →
     refs (_header self) !! t' = Some v → v.1 ≠ nm) →
  get_reference_name t self = (Ok nm, self') →
  get_tid nm self = (Ok t, self).
Proof.
  intros Hinit Hrange Hlast.
  unfold get_tid, get_reference_name, mbind, py_bind, get, mret, py_ret, raise.
  destruct (refs (_header self) !! t) as [[nm0 length]|] eqn:Ht; [|done].
  cbn [fst]. intros [= -> <-].
  assert (Hlookup : ref2tid self !! nm = Some t).
  { rewrite Hinit. apply make_ref2tid_lookup. split; [done|].
    split; [by eexists|done]. }
  rewrite Hlookup. cbn [from_option id].
  destruct (Z.eqb_spec t (-1)); [lia|done].
Qed.

End Names.

Section OpenMore.
Context `{PyRuntime} `{BlockCache C} `{!OpenEnv C}.

(** X27: [__init__] never makes a reader from a file object: the branch for one
    uses the name [fileobj], which nothing defines.  Unless an argument
    check fails before it, the call ends in [NameError]; no warning is
    issued either way. *)
Theorem init_rejects_file_object args h log :
  filepath_or_object args = Some (FileObject h) →
  ∃ e, __init__ args log = (Raise e, log)
       ∧ (1 ≤ max_cache_arg args →
          truthy_file (filename args) = false
          ∨ filename args = filepath_or_object args →
          e = NameError).
Proof.
  intros Hobject. unfold __init__, mbind, py_bind, mret, py_ret, raise.
  rewrite Hobject. cbn [truthy_file andb].
  destruct (Z.ltb_spec (max_cache_arg args) 1) as [Hsmall|Hcache].
  { eexists. split; [done|]. lia. }
  destruct (truthy_file (filename args)) eqn:Hfilename; cbn [andb].
  - case_bool_decide as Hdiffer.
    + eexists. split; [done|]. intros _ [|]; [done|]. by destruct Hdiffer.
    + eexists. split; done.
  - eexists. split; done.
Qed.

(** X28: Opening by path a file that ends with the end-of-file marker, or any
    file with [ignore_truncation] on: the truncation check leaves no trace,
    and the rest of [__init__] starts from the file at position 0 and an
    empty cache of [max_cache] blocks. *)
Theorem init_complete_file_proceeds args path data log :
  1 ≤ max_cache_arg args →
  filepath_or_object args = Some (Path path) → path ≠ EmptyString →
  filename args = None →
  mode_is_binary (mode args) = true →
  filesystem path = Some data →
  ignore_truncation args = true
  ∨ (28 ≤ len data ∧ drop (length data - 28) data = _bgzf_eof) →
  __init__ args log
  = init_rest args (cache_new (max_cache_arg args)) (mkHandle path data 0) log.
Proof.
  intros Hcache Hpath Hnonempty Hfilename Hmode Hfile Hcomplete.
  unfold __init__, mbind, py_bind, mret, py_ret, raise.
  destruct (Z.ltb_spec (max_cache_arg args) 1); [lia|].
  assert (Htruthy : negb (String.eqb path EmptyString) = true)
    by (apply negb_true_iff, String.eqb_neq; done).
  rewrite Hpath, Hfilename, Hmode. cbn [truthy_file andb negb].
  rewrite Htruthy. cbn [andb negb]. rewrite Hfile. cbn beta iota.
  destruct (ignore_truncation args); cbn [negb]; [done|].
  destruct Hcomplete as [|[Hlong Hmarker]]; [done|].
  rewrite check_truncation_outcome by done. cbn [content].
  destruct (Z.ltb_spec (len data) 28); [lia|].
  rewrite bool_decide_true by done. done.
Qed.

End OpenMore.

(** ** The theorems at concrete files and readers *)

Section Instances.
#[local] Existing Instance reference_zlib.
#[local] Existing Instance cpython3.
#[local] Existing Instance example_parsers.
#[local] Existing Instance example_env.

Lemma load_bgzf_block_sound_witness :
  let h := mkHandle "hi.bam" hi_block 0 in
  let h' := (_load_bgzf_block h).2 in
  let n := 33 in
  let data := [x68; x69] in
  ∃ meta_raw meta BSIZE_raw BSIZE cdata integrity_raw CRC32 ISIZE,
    ahead h = meta_raw ++ BSIZE_raw ++ cdata ++ integrity_raw ++ ahead h'
    ∧ unpack_bgzf_metaheader meta_raw = Ok meta ∧ header_checks meta = true
    ∧ unpack_H BSIZE_raw = Ok BSIZE ∧ n = BSIZE + 1
    ∧ len cdata = BSIZE - XLEN meta - 19
    ∧ zlib_decompress cdata = Some data
    ∧ unpack_gzip_integrity integrity_raw = Ok (CRC32, ISIZE)
    ∧ CRC32 = (if zlib_crc32 data <? 0 then zlib_crc32 data mod Z.shiftl 1 32
               else zlib_crc32 data)
    ∧ ISIZE = len data
    ∧ position h' = position h + n + (6 - XLEN meta)
    ∧ content h' = content h.
Proof.
  intros h h' n data. apply (load_bgzf_block_sound h h' n data); by_evaluation.
Defined.

Lemma bgzf_metaheader_fixed_bytes_witness :
  (∃ meta, fst (_bgzf_metaheader (mkHandle "hi.bam" hi_block 0))
             = Ok (meta, _bgzf_header)
           ∧ XLEN meta = le_decode [x06; x00]
           ∧ MTIME meta = le_decode [x00; x00; x00; x00])
  ∧ fst (_load_bgzf_block (mkHandle "bad.bam" (x1e :: drop 1 hi_block) 0))
    = Raise (ValueError "Malformed BGZF block").
Proof.
  split.
  - refine (proj1 (bgzf_metaheader_fixed_bytes (mkHandle "hi.bam" hi_block 0)
              x1f x8b x08 x04 x00 x00 x00 x00 x00 xff x06 x00 x42 x43 x02 x00
              (drop 16 hi_block) _ _) _); by_evaluation.
  - refine (proj2 (proj2 (bgzf_metaheader_fixed_bytes
              (mkHandle "bad.bam" (x1e :: drop 1 hi_block) 0)
              x1e x8b x08 x04 x00 x00 x00 x00 x00 xff x06 x00 x42 x43 x02 x00
              (drop 16 hi_block) _ _) _)); [by_evaluation..|].
    intros [Hmagic _]. discriminate Hmagic.
Defined.

Lemma load_bgzf_block_truncated_header_witness :
  let h := mkHandle "cut.bam" (take 10 hi_block) 0 in
  fst (_bgzf_metaheader h) = Raise struct_error
  ∧ fst (_load_bgzf_block h) = Raise struct_error.
Proof.
  intros h. apply (load_bgzf_block_truncated_header h). by_evaluation.
Defined.


Lemma write_block_empty_is_eof_marker_witness :
  let w := mkWriter (mkHandle "out.bam" hi_block 33) [] 6 in
  ∃ w', _write_block [] w = (Ok tt, w')
        ∧ content (w_handle w') = content (w_handle w) ++ _bgzf_eof
        ∧ position (w_handle w') = position (w_handle w) + 28
        ∧ w_buffer w' = w_buffer w.
Proof.
  intros w. apply (write_block_empty_is_eof_marker w); by_evaluation.
Defined.

Lemma get_block_twelve_bytes_more_witness :
  get_block filesystem (mkHandle "example.bam" [] 0) 0
  = Ok ((_bgzf_header ++ le_encode 2 39 ++ drop 18 (take 40 example_bam))
          ++ take 12 _bgzf_eof).
Proof.
  refine (get_block_twelve_bytes_more filesystem (mkHandle "example.bam" [] 0) 0
            example_bam [] _bgzf_header (mkMeta 31 139 8 4 0 0 255 6 66 67 2) 39
            (drop 18 (take 40 example_bam)) _bgzf_eof _ _ _ _ _ _ _);
    by_evaluation.
Defined.

Lemma write_splits_into_blocks_witness :
  let w := mkWriter (mkHandle "out.bam" [] 0) [x68] 6 in
  let data := [x69] in
  let r := (Writer.write data w).1 in
  let w' := (Writer.write data w).2 in
  let all := w_buffer w ++ data in
  ∃ k : nat,
    w_buffer w' = drop (k * Z.to_nat 65536) all
    ∧ content (w_handle w')
      = content (w_handle w)
          ++ concat ((λ i, bgzf_block (compresslevel w)
                             (piece (Z.to_nat 65536) all i)) <$> seq 0 k)
    ∧ (r = Ok tt → len (w_buffer w') < 65536 ∧ Z.of_nat k = len all / 65536)
    ∧ (len all < 65536 → r = Ok tt ∧ k = 0%nat).
Proof.
  intros w data r w'. apply (write_splits_into_blocks data w r w'); by_evaluation.
Defined.

Lemma flush_writes_one_block_witness :
  let w := mkWriter (mkHandle "out.bam" [] 0) [x68; x69] 6 in
  (∃ w', Writer.flush w = (Ok tt, w')
         ∧ content (w_handle w')
           = content (w_handle w) ++ bgzf_block (compresslevel w) (w_buffer w)
         ∧ w_buffer w' = [])
  ∨ ∃ e, Writer.flush w = (Raise e, w).
Proof.
  intros w. apply (flush_writes_one_block w); by_evaluation.
Defined.

Lemma check_truncation_restores_position_witness :
  let h := mkHandle "example.bam" example_bam 17 in
  let r := (_check_truncation h).1 in
  let h' := (_check_truncation h).2 in
  h' = h
  ∧ (r = Ok false
     ↔ 28 ≤ len (content h)
       ∧ drop (length (content h) - 28) (content h) = _bgzf_eof).
Proof.
  intros h r h'. apply (check_truncation_restores_position h r h');
    by_evaluation.
Defined.

Lemma close_ends_with_marker_witness :
  let w := mkWriter (mkHandle "out.bam" [] 0) [x68; x69] 6 in
  let w' := (Writer.close w).2 in
  w_buffer w' = []
  ∧ (∃ body, content (w_handle w') = content (w_handle w) ++ body ++ _bgzf_eof)
  ∧ (len (w_buffer w) < 65536 →
     content (w_handle w')
     = content (w_handle w)
         ++ (if bool_decide (w_buffer w = []) then []
             else bgzf_block (compresslevel w) (w_buffer w))
         ++ _bgzf_eof)
  ∧ fst (_check_truncation
           (mkHandle (name (w_handle w')) (content (w_handle w')) 0)) = Ok false.
Proof.
  intros w w'. apply (close_ends_with_marker w w'); by_evaluation.
Defined.

Lemma cursor_stays_in_payload_witness :
  let self := example_reader in
  (∀ start_offset r self',
     _load_block start_offset self = (r, self') → cursor_ok self')
  ∧ (∀ virtual_offset r self',
       seek virtual_offset self = (r, self') → cursor_ok self')
  ∧ (∀ depth size r self',
       read depth size self = (r, self') → cursor_ok self').
Proof.
  intros self. apply (cursor_stays_in_payload self). by_evaluation.
Defined.

Lemma load_block_advances_witness :
  let self := example_reader in
  let h' := (_load_bgzf_block (set_position 40 (_handle self))).2 in
  ∃ self',
    _load_block None self = (Ok tt, self')
    ∧ _block_start_offset self' = Some (0 + 40)
    ∧ _block_raw_length self' = Some 28
    ∧ _buffer self' = []
    ∧ _within_block_offset self' = 0
    ∧ _buffers self' = cache_setitem (0 + 40) ([], 28) (_buffers self)
    ∧ _handle self' = h'.
Proof.
  intros self h'. apply (load_block_advances self 0 40 28 [] h'); by_evaluation.
Defined.

Lemma load_block_cache_hit_witness :
  let self := example_reader_at_end in
  let hit := (cache_getitem 0 (_buffers self)).1 in
  let buffers := (cache_getitem 0 (_buffers self)).2 in
  ∃ self',
    _load_block (Some 0) self = (Ok tt, self')
    ∧ _handle self' = _handle self
    ∧ _buffers self' = buffers
    ∧ _block_start_offset self' = Some 0
    ∧ _within_block_offset self' = 0
    ∧ match hit with
      | Some (buffer, raw_length) =>
          _buffer self' = buffer ∧ _block_raw_length self' = Some raw_length
      | None =>
          _buffer self' = _buffer self
          ∧ _block_raw_length self' = _block_raw_length self
      end.
Proof.
  intros self hit buffers. apply (load_block_cache_hit 0 self hit buffers);
    by_evaluation.
Defined.

Lemma read_within_block_witness :
  let self := example_reader in
  ∃ data,
    read 1 3 self
      = (Ok data, set_within_block_offset (_within_block_offset self + 3) self)
    ∧ len data = 3
    ∧ data = take (Z.to_nat 3)
               (drop (Z.to_nat (_within_block_offset self)) (_buffer self)).
Proof.
  intros self. apply (read_within_block 0 3 self); by_evaluation.
Defined.

Lemma read_across_boundary_witness :
  read 1 10 example_reader = (Ok example_reads, example_reader_at_end)
  ∧ read 2 5 two_block_reader
    = (Ok [x00; x05; x00; x00; xc8],
       set_within_block_offset 2 (_load_block None two_block_reader).2).
Proof.
  split.
  - refine (proj1 (read_across_boundary 0 10 example_reader
                     example_reader_at_end _ _ _ _) _); by_evaluation.
  - assert (Hsize : 0 < 5) by by_evaluation.
    assert (Hcursor : cursor_ok two_block_reader) by by_evaluation.
    assert (Hbeyond : len (_buffer two_block_reader)
                      < _within_block_offset two_block_reader + 5)
      by by_evaluation.
    assert (Hnext : _load_block None two_block_reader
                    = (Ok tt, (_load_block None two_block_reader).2))
      by by_evaluation.
    pose proof (proj2 (read_across_boundary 0 5 two_block_reader _
                         Hsize Hcursor Hbeyond Hnext)) as Hread.
    cbv zeta in Hread.
    assert (Hmore : _buffer (_load_block None two_block_reader).2 ≠ [])
      by by_evaluation.
    assert (Hfits : 5 - len (drop (Z.to_nat (_within_block_offset two_block_reader))
                               (_buffer two_block_reader))
                    ≤ len (_buffer (_load_block None two_block_reader).2))
      by by_evaluation.
    specialize (Hread Hmore Hfits).
    vm_compute in Hread. vm_compute. exact Hread.
Defined.

Lemma seek_in_current_block_witness :
  seek 3 example_reader =
    if len (_buffer example_reader) <? Z.land 3 65535 then
      (Raise (ValueError "Within offset %i but block size only %i"),
       example_reader)
    else (Ok 3, set_within_block_offset (Z.land 3 65535) example_reader).
Proof.
  apply (seek_in_current_block 3 example_reader). by_evaluation.
Defined.

Lemma seek_then_read_witness :
  let sought := (seek 3 example_reader).2 in
  3 = 3
  ∧ _block_start_offset sought = Some (Z.shiftr 3 16)
  ∧ _within_block_offset sought = Z.land 3 65535
  ∧ read 1 3 sought
    = (Ok (take (Z.to_nat 3)
             (drop (Z.to_nat (Z.land 3 65535)) (_buffer sought))),
       set_within_block_offset (Z.land 3 65535 + 3) sought).
Proof.
  intros sought. apply (seek_then_read 3 example_reader 3 sought 0 3);
    by_evaluation.
Defined.

Lemma write_close_then_read_witness :
  let data := [x68; x69] in
  let w1 := (Writer.write data (mkWriter (mkHandle "out.bam" [] 0) [] 6)).2 in
  let w2 := (Writer.close w1).2 in
  let self := unloaded_reader (content (w_handle w2)) in
  ∃ loaded,
    _load_block (Some 0) self = (Ok tt, loaded)
    ∧ _block_raw_length loaded = Some (len (content (w_handle w2)) - 28)
    ∧ read 1 (len data) loaded
      = (Ok data, set_within_block_offset (len data) loaded).
Proof.
  intros data w1 w2 self.
  apply (write_close_then_read "out.bam" 6 data w1 w2 self 0); by_evaluation.
Defined.

Lemma fetch_validates_region_witness :
  let call c s e :=
    fetch_next (fetch (mkFetchArgs (Some c) (Some s) (Some e) None None false
                         false None None)) example_reader in
  call "chr1" 1700 1701
    = (Throw (ValueError "Genomic region out of bounds."), FetchFinished,
       example_reader)
  ∧ call "chr1" 100 10
    = (Throw (AssertionError
         "Malformed region: start should be <= stop, you entered {}, {}"),
       FetchFinished, example_reader)
  ∧ call "chr2" 1 10 = (Return, FetchFinished, example_reader).
Proof.
  intros call. unfold call. split; [|split].
  - refine (proj1 (fetch_validates_region "chr1" 1700 1701 false example_reader
                     0 "chr1" 1575 (mkRoi "chr1" 1700 (Some 1701))
                     _ _ _ _ _ _ _ _) _); by_evaluation.
  - refine (proj1 (proj2 (fetch_validates_region "chr1" 100 10 false
                     example_reader 0 "chr1" 1575 (mkRoi "chr1" 100 (Some 10))
                     _ _ _ _ _ _ _ _)) _ _); by_evaluation.
  - refine (proj2 (proj2 (fetch_validates_region "chr2" 1 10 false
                     example_reader 1 "chr2" 1584 (mkRoi "chr2" 1 (Some 10))
                     _ _ _ _ _ _ _ _)) _ _ example_index _ _); by_evaluation.
Defined.

Lemma fetch_unknown_contig_witness :
  fetch_next (fetch (mkFetchArgs (Some "chr10") (Some 1) (Some 10) None None
                       false false None None)) example_reader
  = (Throw (KeyError "{} was not found in the file header"), FetchFinished,
     example_reader).
Proof.
  apply (fetch_unknown_contig "chr10" (Some 1) (Some 10) false example_reader);
    by_evaluation.
Defined.

Lemma fetch_region_string_raises_witness :
  fetch_next (fetch (mkFetchArgs None None None (Some "chr1:1-100") None false
                       false None None)) example_reader
  = (Throw (KeyError "{} was not found in the file header"), FetchFinished,
     example_reader).
Proof.
  apply (fetch_region_string_raises None None None "chr1:1-100" false None None
           example_reader (mkRoi "chr1:1-100" 0 None)); by_evaluation.
Defined.

Lemma fetch_without_start_ignores_stop_witness :
  fetch_next (fetch (mkFetchArgs (Some "chr1") (Some 0) (Some 100) None None
                       false false None None)) example_reader
  = fetch_next (fetch (mkFetchArgs (Some "chr1") (Some 0) None None None false
                         false None None)) example_reader.
Proof.
  apply (fetch_without_start_ignores_stop "chr1" (Some 0) (Some 100) None false
           example_reader); by_evaluation.
Defined.

Lemma fetch_reads_in_region_witness :
  let args := mkFetchArgs (Some "chr1") (Some 1) (Some 100) None None false
                false None None in
  let reads := (fetch_run 5 (fetch args) example_reader).1 in
  let r := mkRead 0 "chr1" 5 0 true in
  nonempty r = true
  ∧ ((1 < length reads)%nat →
     Some (reference_name r) = Some "chr1"
     ∧ past_the_region (Some 1) 100 (pos r) = Ok false).
Proof.
  intros args reads r.
  apply (fetch_reads_in_region 5 args example_reader (Some "chr1") (Some 1) 100
           (fetch_prepare args example_reader).2 reads
           (fetch_run 5 (fetch args) example_reader).2 ltac:(by_evaluation)
           ltac:(by_evaluation) ltac:(by_evaluation) 0%nat r).
  by_evaluation.
Defined.

Lemma count_is_filtered_fetch_witness :
  let reads :=
    (fetch_run 5 (fetch (mkFetchArgs (Some "chr1") (Some 1) (Some 100) None None
                           false false None None)) example_reader).1 in
  ∃ self',
    count 5 (Some "chr1") (Some 1) (Some 100) None false None
      (CallbackStr "all") None None example_reader
    = Some (Ok (len (List.filter (callback_counts (CallbackStr "all")) reads)),
            self').
Proof.
  intros reads.
  apply (count_is_filtered_fetch 5 (Some "chr1") (Some 1) (Some 100) None false
           None (CallbackStr "all") None None example_reader reads (Ok tt));
    by_evaluation.
Defined.

Lemma get_tid_then_get_reference_name_witness :
  let self := example_reader in
  self = self
  ∧ 0 ≤ 0 < n_refs (_header self)
  ∧ is_valid_tid 0 self = true
  ∧ get_reference_name 0 self = (Ok "chr1", self)
  ∧ ∀ t' nm', 0 < t' < n_refs (_header self) →
      get_reference_name t' self = (Ok nm', self) → nm' ≠ "chr1".
Proof.
  intros self.
  apply (get_tid_then_get_reference_name self "chr1" 0 self); by_evaluation.
Defined.

Lemma get_reference_name_then_get_tid_witness :
  get_tid "chr2" example_reader = (Ok 1, example_reader).
Proof.
  assert (Hrefs : n_refs (_header example_reader) = 2) by by_evaluation.
  apply (get_reference_name_then_get_tid example_reader 1 "chr2" example_reader).
  - by_evaluation.
  - by_evaluation.
  - intros t' v Hrange. rewrite Hrefs in Hrange. lia.
  - by_evaluation.
Defined.

Lemma init_rejects_file_object_witness :
  let args :=
    default_args (Some (FileObject (mkHandle "example.bam" example_bam 0))) in
  ∃ e, __init__ args [] = (Raise e, [])
       ∧ (1 ≤ max_cache_arg args →
          truthy_file (filename args) = false
          ∨ filename args = filepath_or_object args →
          e = NameError).
Proof.
  intros args.
  apply (init_rejects_file_object args (mkHandle "example.bam" example_bam 0) []).
  by_evaluation.
Defined.

Lemma init_complete_file_proceeds_witness :
  let args := default_args (Some (Path "example.bam")) in
  __init__ args []
  = init_rest args (cache_new (max_cache_arg args))
      (mkHandle "example.bam" example_bam 0) [].
Proof.
  intros args.
  apply (init_complete_file_proceeds args "example.bam" example_bam []);
    [by_evaluation..|].
  right. by_evaluation.
Defined.

End Instances.
